(** * Validator composition and signature encoding of the ZeroDev kernel SDK

    A shallow embedding of
      - [packages/core/accounts/utils/toKernelPluginManager.ts]
        (the plugin manager: mode selection, signature envelope, nonce key,
        enable-signature cache),
      - [packages/core/accounts/kernel/utils/plugins/multi-chain/getMultiUserOpDummySignature.ts]
        (the multi-chain Merkle aggregate),
      - the two WebAuthn validators ([createPasskeyValidator],
        [getPasskeyValidator]) and the ECDSA kernel smart account
        ([signerToEcdsaKernelSmartAccount]),
    followed by the properties proved about them.

    Conventions.  A [Hex] value (viem's [0x...] string) is the list of the
    bytes it denotes; asynchronous calls are sequenced in an error monad
    (a rejected promise is [Err]); the mutable closure variable
    [pluginEnableSignature] and the calls made to the sudo validator's
    [signTypedData] are threaded as an explicit state. *)

From Stdlib Require Import String Ascii Strings.Byte Strings.HexString.
From Stdlib Require Import List ZArith Lia Bool Arith.
Import ListNotations.

Set Implicit Arguments.

(* ====================================================================== *)
(** * Part I: the embedding                                                *)
(* ====================================================================== *)

(** ** Errors and results *)

(** The exceptions the embedded code can raise.  The constructors name the
    message (or the class) of the JavaScript error. *)
Inductive Error : Type :=
| NoValidatorSet              (* "One of `sudo` or `regular` validator must be set" *)
| EnableSignatureNotSet       (* "Enable signature not set" *)
| RegularValidatorNotSet      (* "regular validator not set" *)
| SudoValidatorNotSet         (* "sudo validator not set -- need it to enable the validator" *)
| SignTransactionNotSupportedBySmartAccount
| RegistrationNotVerified     (* "Registration not verified" *)
| LoginNotVerified            (* "Login not verified" *)
| NoPublicKeyReturned         (* "No public key returned from ... credential" *)
| SignatureNotVerified        (* "Signature not verified" *)
| InvalidOwner                (* "Invalid owner for the already deployed account" *)
| AccountAddressNotFound      (* "Account address not found" *)
| SizeExceedsPaddingSize      (* viem: pad *)
| IntegerOutOfRange           (* viem: numberToHex, uint256 encoding *)
| AbiEncodingBytesSizeMismatch (* viem: bytesN encoding *)
| InvalidArrayLength          (* RangeError of Array(n) *)
| BigIntSyntaxError           (* SyntaxError of BigInt("0x") *)
| External (code : nat).      (* failure of an external collaborator *)

Inductive result (A : Type) : Type :=
| Ok (a : A)
| Err (e : Error).
Arguments Ok {A} a.
Arguments Err {A} e.

Definition bindR {A B} (r : result A) (k : A -> result B) : result B :=
  match r with
  | Ok a => k a
  | Err e => Err e
  end.

Definition isOk {A} (r : result A) : bool :=
  match r with Ok _ => true | Err _ => false end.

Declare Scope result_scope.
Delimit Scope result_scope with result.
Notation "x <- c ;; k" := (bindR c (fun x => k))
  (at level 61, c at next level, right associativity) : result_scope.

(** ** Byte strings (viem's Hex) *)

Definition Hex : Type := list byte.
Definition Address : Type := Hex.

Definition Hex_eq_dec : forall a b : Hex, {a = b} + {a <> b} :=
  list_eq_dec Byte.byte_eq_dec.

Definition Hex_eqb (a b : Hex) : bool :=
  if Hex_eq_dec a b then true else false.

(** A 32-byte value (a hash, a [bytes32]). *)
Definition size32 (b : Hex) : Prop := List.length b = 32%nat.

Definition byteVal (b : byte) : Z := Z.of_N (Byte.to_N b).

Definition byteOfZ (z : Z) : byte :=
  match Byte.of_N (Z.to_N (z mod 256)) with
  | Some b => b
  | None => x00
  end.

(** Hexadecimal literals of the sources, written as their digits; a leading
    [0x] is skipped. *)
Fixpoint hexDigits (s : string) : Hex :=
  match s with
  | String hi (String lo rest) =>
      match ascii_to_digit hi, ascii_to_digit lo with
      | Some h, Some l => byteOfZ (Z.of_N (16 * h + l)) :: hexDigits rest
      | _, _ => []
      end
  | _ => []
  end.

Definition hex (s : string) : Hex :=
  match s with
  | String "0" (String "x" rest) => hexDigits rest
  | _ => hexDigits s
  end.

(** The UTF-8 bytes of a string of the sources that holds only ASCII. *)
Fixpoint stringToBytes (s : string) : Hex :=
  match s with
  | EmptyString => []
  | String c rest => byteOfZ (Z.of_N (N_of_ascii c)) :: stringToBytes rest
  end.

Module Viem.

(** [concatHex]: the concatenation of the byte strings. *)
Definition concatHex (values : list Hex) : Hex := List.concat values.

(** [size]: the number of bytes. *)
Definition size (h : Hex) : nat := List.length h.

(** [pad(hex, {size})]: left-pads with zero bytes; fails when the value is
    longer than [size]. *)
Definition pad (h : Hex) (sz : nat) : result Hex :=
  if (sz <? List.length h)%nat then Err SizeExceedsPaddingSize
  else Ok (repeat x00 (sz - List.length h) ++ h).

(** The base-256 digits of [n], most significant first, on top of [acc]. *)
Fixpoint bytesOfZ (fuel : nat) (n : Z) (acc : Hex) : Hex :=
  match fuel with
  | O => acc
  | S f => if (n <=? 0)%Z then acc
           else bytesOfZ f (n / 256)%Z (byteOfZ n :: acc)
  end.

(** [toHex(n)] on a bigint ([numberToHex]): the digits of [n], most
    significant first; a negative number is out of range.  viem prints
    hexadecimal digits without a leading zero ([0x0], [0x100]); the only
    consumer here is [pad], which restores whole bytes, and a string of
    at most [2 * s] digits is a string of at most [s] bytes. *)
Definition toHex (n : Z) : result Hex :=
  if (n <? 0)%Z then Err IntegerOutOfRange
  else Ok (bytesOfZ (S (Z.to_nat (Z.log2 n))) n []).

(** The big-endian value of a byte string. *)
Definition hexToBigInt (h : Hex) : Z :=
  fold_left (fun acc b => (acc * 256 + byteVal b)%Z) h 0%Z.

(** [BigInt(hex)]: the string ["0x"] is a syntax error. *)
Definition BigInt (h : Hex) : result Z :=
  match h with
  | [] => Err BigIntSyntaxError
  | _ => Ok (hexToBigInt h)
  end.

(** [s.slice(0, 10)] on a hex string: the [0x] prefix and the first eight
    digits, that is the first four bytes. *)
Definition slice_0_10 (h : Hex) : Hex := firstn 4 h.

Definition zeroAddress : Address := repeat x00 20.

Definition maxUint256 : Z := (2 ^ 256 - 1)%Z.

End Viem.

(** ** ABI encoding ([encodeAbiParameters]) *)

Module Abi.
Import Viem.
Local Open Scope result_scope.

(** The parameter kinds the embedded code encodes, with their values. *)
Inductive AbiValue : Type :=
| Uint256 (n : Z)
| Bool (b : bool)
| Bytes32 (b : Hex)
| Bytes (b : Hex)
| AbiString (utf8 : Hex)
| Bytes32Array (l : list Hex).

Definition isDynamic (v : AbiValue) : bool :=
  match v with
  | Uint256 _ | Bool _ | Bytes32 _ => false
  | Bytes _ | AbiString _ | Bytes32Array _ => true
  end.

(** The least multiple of 32 that is at least [n]. *)
Definition ceil32 (n : nat) : nat := ((n + 31) / 32) * 32.

Definition encodeUint256 (n : Z) : result Hex :=
  if ((n <? 0) || (maxUint256 <? n))%Z then Err IntegerOutOfRange
  else h <- toHex n ;; pad h 32.

Definition padRight (h : Hex) : Hex :=
  h ++ repeat x00 (ceil32 (List.length h) - List.length h).

Definition encodeBytes (b : Hex) : result Hex :=
  len <- encodeUint256 (Z.of_nat (List.length b)) ;;
  Ok (len ++ padRight b).

Fixpoint encodeBytes32s (l : list Hex) : result Hex :=
  match l with
  | [] => Ok []
  | b :: rest =>
      if (List.length b =? 32)%nat
      then (tl <- encodeBytes32s rest ;; Ok (b ++ tl))
      else Err AbiEncodingBytesSizeMismatch
  end.

(** The encoding of one value: its head word when static, its tail when
    dynamic. *)
Definition encodeValue (v : AbiValue) : result Hex :=
  match v with
  | Uint256 n => encodeUint256 n
  | Bool b => encodeUint256 (if b then 1 else 0)
  | Bytes32 b => encodeBytes32s [b]
  | Bytes b => encodeBytes b
  | AbiString s => encodeBytes s
  | Bytes32Array l =>
      len <- encodeUint256 (Z.of_nat (List.length l)) ;;
      elems <- encodeBytes32s l ;;
      Ok (len ++ elems)
  end.

(** Heads and tails: a static value sits in the head; a dynamic value
    leaves there the offset of its tail, counted from the start. *)
Fixpoint encodeParams (headSize : nat) (vs : list AbiValue)
         (tailLen : nat) : result (Hex * Hex) :=
  match vs with
  | [] => Ok ([], [])
  | v :: rest =>
      enc <- encodeValue v ;;
      if isDynamic v then
        off <- encodeUint256 (Z.of_nat (headSize + tailLen)) ;;
        ht <- encodeParams headSize rest (tailLen + List.length enc) ;;
        Ok (off ++ fst ht, enc ++ snd ht)
      else
        ht <- encodeParams headSize rest tailLen ;;
        Ok (enc ++ fst ht, snd ht)
  end.

Definition encodeAbiParameters (vs : list AbiValue) : result Hex :=
  ht <- encodeParams (32 * List.length vs) vs 0 ;;
  Ok (fst ht ++ snd ht).

End Abi.


(** ** User operations *)

(** The fields of a user operation the embedded code reads; the remaining
    fields only reach the external hash functions and are kept opaque. *)
Record UserOperation : Type := {
  sender : Address;
  nonce : Z;
  callData : Hex;
  otherFields : Hex;
  signature : Hex
}.

Definition withSignature (op : UserOperation) (sig : Hex) : UserOperation :=
  {| sender := sender op; nonce := nonce op; callData := callData op;
     otherFields := otherFields op; signature := sig |}.

(** ** The Merkle tree of merkletreejs *)

(** [new MerkleTree(leaves, hashFn, { sortPairs: true })]: every other
    option keeps its default, so the leaves are taken as given (neither
    hashed nor sorted), and a node without a neighbour moves up unchanged. *)
Module MerkleTree.
Section WithHash.
Variable hashFn : Hex -> Hex.

(** [Buffer.compare]: the lexicographic order of the bytes. *)
Fixpoint Buffer_compare (a b : Hex) : comparison :=
  match a, b with
  | [], [] => Eq
  | [], _ :: _ => Lt
  | _ :: _, [] => Gt
  | x :: a', y :: b' =>
      match (byteVal x ?= byteVal y)%Z with
      | Eq => Buffer_compare a' b'
      | c => c
      end
  end.

(** [combined.sort(Buffer.compare)] on the two children. *)
Definition sortPair (l r : Hex) : list Hex :=
  match Buffer_compare l r with
  | Gt => [r; l]
  | _ => [l; r]
  end.

Definition hashPair (l r : Hex) : Hex :=
  hashFn (List.concat (sortPair l r)).

(** One round of [_createHashes]: the nodes are hashed two by two, and
    the last node of an odd layer is pushed as it is. *)
Fixpoint nextLayer (nodes : list Hex) : list Hex :=
  match nodes with
  | l :: r :: rest => hashPair l r :: nextLayer rest
  | [single] => [single]
  | [] => []
  end.

(** [_createHashes]: [while (nodes.length > 1)] a new layer is built.
    The loop is run on fuel; [layers] gives it as many rounds as there
    are leaves, which the proofs show to be enough. *)
Fixpoint createHashes (fuel : nat) (nodes : list Hex) : list (list Hex) :=
  nodes ::
  match fuel with
  | O => []
  | S f => if (1 <? List.length nodes)%nat
           then createHashes f (nextLayer nodes)
           else []
  end.

Definition layers (leaves : list Hex) : list (list Hex) :=
  createHashes (List.length leaves) leaves.

(** [getRoot]: the first node of the last layer, or the empty buffer. *)
Definition getRoot (leaves : list Hex) : Hex :=
  match last (layers leaves) [] with
  | root :: _ => root
  | [] => []
  end.

(** The index search of [getProof]: the loop runs over all the leaves
    and keeps the last index whose leaf compares equal. *)
Fixpoint findLeaf (leaf : Hex) (leaves : list Hex) (i : nat)
         (index : option nat) : option nat :=
  match leaves with
  | [] => index
  | l :: rest =>
      findLeaf leaf rest (S i)
               (match Buffer_compare leaf l with
                | Eq => Some i
                | _ => index
                end)
  end.

(** The walk of [getProof] up the layers: the neighbour of the node is
    recorded when the layer has one, and the index is halved. *)
Fixpoint proofPath (ls : list (list Hex)) (index : nat) : list Hex :=
  match ls with
  | [] => []
  | layer :: upper =>
      let pairIndex := if Nat.odd index then index - 1 else index + 1 in
      (if (pairIndex <? List.length layer)%nat
       then [nth pairIndex layer []]
       else [])
        ++ proofPath upper (index / 2)
  end.

Definition getProof (leaves : list Hex) (leaf : Hex) : list Hex :=
  match findLeaf leaf leaves 0 None with
  | None => []
  | Some index => proofPath (layers leaves) index
  end.

(** Two restatements the proofs work with: the step of [proofPath] at
    one layer (zero or one sibling), and the root read off a list of
    layers. *)
Definition sibling (layer : list Hex) (index : nat) : list Hex :=
  let pairIndex := if Nat.odd index then index - 1 else index + 1 in
  if (pairIndex <? List.length layer)%nat
  then [nth pairIndex layer []] else [].

Definition rootOf (ls : list (list Hex)) : Hex :=
  match last ls [] with
  | root :: _ => root
  | [] => []
  end.

(** Modelled from the spec: the verifier is not part of the sources;
    section 4.5 and the round-trip property of section 8 describe it as
    re-deriving the root from the leaf and the proof with sorted-pair
    hashing, and comparing it with the embedded root. *)
Definition processProof (proof : list Hex) (leaf : Hex) : Hex :=
  fold_left hashPair proof leaf.

Definition verify (proof : list Hex) (leaf root : Hex) : bool :=
  Hex_eqb (processProof proof leaf) root.

End WithHash.
End MerkleTree.

(** ** The multi-chain dummy signature *)

Module MultiChain.
Import Viem Abi.
Local Open Scope result_scope.

Section WithCollaborators.
(** Keccak-256 and permissionless' [getUserOperationHash]. *)
Variable keccak256 : Hex -> Hex.
Variable getUserOperationHash : UserOperation -> Address -> Z -> Hex.

(** [`0x${"a".repeat(64)}`] *)
Definition dummyUserOpHash : Hex := repeat xaa 32.

Definition dummyEcdsaSig : Hex :=
  hex "0xfffffffffffffffffffffffffffffff0000000000000000000000000000000007aaaaaaaaaaaaaaaaaaaaaaaaaaaaaaaaaaaaaaaaaaaaaaaaaaaaaaaaaaaaaaa1c".

(** [Array(n).fill(v)]: a length that is negative or above [2^32 - 1]
    is a [RangeError]. *)
Definition arrayFill (n : Z) (v : Hex) : result (list Hex) :=
  if ((n <? 0) || (2 ^ 32 - 1 <? n))%Z then Err InvalidArrayLength
  else Ok (repeat v (Z.to_nat n)).

(** [leaves = [userOpHash, ...dummyLeaves]]: the array literal holds one
    element more than [dummyLeaves], [numOfUserOps] in all, and an array
    cannot hold more than [2^32 - 1] elements ([RangeError]). *)
Definition leavesOf (userOpHash : Hex) (numOfUserOps : Z)
  : result (list Hex) :=
  dummyLeaves <- arrayFill (numOfUserOps - 1) dummyUserOpHash ;;
  if (2 ^ 32 - 1 <? numOfUserOps)%Z then Err InvalidArrayLength
  else Ok (userOpHash :: dummyLeaves).

Definition getMultiUserOpDummySignature (userOperation : UserOperation)
           (numOfUserOps : Z) (entryPoint : Address) (chainId : Z)
  : result Hex :=
  let userOpHash := getUserOperationHash userOperation entryPoint chainId in
  leaves <- leavesOf userOpHash numOfUserOps ;;
  let merkleRoot := MerkleTree.getRoot keccak256 leaves in
  let merkleProof := MerkleTree.getProof keccak256 leaves userOpHash in
  encodedMerkleProof <-
    encodeAbiParameters [Bytes32 userOpHash; Bytes32Array merkleProof] ;;
  Ok (concatHex [dummyEcdsaSig; merkleRoot; encodedMerkleProof]).

End WithCollaborators.
End MultiChain.

(** ** The verifier of the aggregate *)

Module SortedPairVerifier.
Import Viem.

Section WithHash.
Variable keccak256 : Hex -> Hex.

(** Modelled from the spec: section 4.5 has every internal node hash its
    two children in ascending byte order, and has the verifier check the
    proof against the embedded root.  The verifier is written here on its
    own, without the helpers of the tree: two 32-byte nodes are compared as
    the unsigned integers they denote, the smaller one is hashed first, and
    the leaf is folded with the siblings of the proof in this way. *)
Definition hashAscending (a b : Hex) : Hex :=
  if (hexToBigInt b <? hexToBigInt a)%Z
  then keccak256 (b ++ a)
  else keccak256 (a ++ b).

Definition rederiveRoot (proof : list Hex) (leaf : Hex) : Hex :=
  fold_left hashAscending proof leaf.

End WithHash.
End SortedPairVerifier.


(** ** Validators *)

Inductive EntryPointVersion : Type := v0_6 | v0_7.

(** The keys of the [VALIDATOR_TYPE] table. *)
Inductive ValidatorTypeKey : Type := SUDO | SECONDARY | PERMISSION.

Record Action : Type := {
  executor : Address;
  selector : Hex
}.

(** An EIP-712 typed-data definition, identified with its serialised form. *)
Definition TypedData : Type := Hex.

(** A raw transaction request; never inspected. *)
Definition TransactionRequest : Type := Hex.

(** JavaScript truthiness of a string: only the empty string is falsy.  The
    text of a [Hex] value is [0x] followed by two digits per byte. *)
Definition hexStringLength (h : Hex) : nat := 2 + 2 * List.length h.
Definition truthy (h : Hex) : bool := negb (hexStringLength h =? 0)%nat.

Module Validator.

(** [KernelValidator]: a local account with the validator capabilities.
    Every asynchronous method is the result it resolves or rejects with. *)
Record KernelValidator : Type := {
  address : Address;
  validatorType : ValidatorTypeKey;
  getIdentifier : Hex;
  getNonceKey : result Z;
  getEnableData : Address -> result Hex;
  isEnabled : Address -> Hex -> result bool;
  signUserOperation : UserOperation -> result Hex;
  getDummySignature : UserOperation -> result Hex;
  signMessage : Hex -> result Hex;
  signTypedData : TypedData -> result Hex;
  signTransaction : TransactionRequest -> result Hex
}.

End Validator.
Export Validator (KernelValidator).

(** ** The plugin manager ([toKernelPluginManager]) *)

Module PluginManager.
Import Viem.

(** [ValidatorMode] *)
Definition ValidatorMode_sudo : Hex := hex "0x00000000".
Definition ValidatorMode_plugin : Hex := hex "0x00000001".
Definition ValidatorMode_enable : Hex := hex "0x00000002".

(** The tables of [constants.js], which is not part of the sources: the
    one-byte codes of the validator modes and types. *)
Record Constants : Type := {
  VALIDATOR_MODE_DEFAULT : Hex;
  VALIDATOR_MODE_ENABLE : Hex;
  VALIDATOR_TYPE : ValidatorTypeKey -> Hex
}.

(** The collaborators the manager calls: the chain client and the helpers
    of the kernel utilities that are not part of the sources. *)
Record Host : Type := {
  getChainId : result Z;
  getActionSelector : EntryPointVersion -> Hex;
  (* accountMetadata(client, accountAddress, entryPoint).version *)
  accountMetadata : Address -> result (option string);
  getKernelV3Nonce : Address -> result Z;
  (* isPluginInitialized(client, accountAddress, pluginAddress) *)
  isPluginInitialized : Address -> Address -> result bool;
  (* accountAddress, chainId, kernelVersion, action, validator,
     validUntil, validAfter *)
  getPluginsEnableTypedDataV1 :
    Address -> Z -> option string -> Action -> KernelValidator ->
    Z -> Z -> result TypedData;
  (* accountAddress, chainId, kernelVersion, action, validator,
     validatorNonce *)
  getPluginsEnableTypedDataV2 :
    Address -> Z -> option string -> Action -> KernelValidator ->
    Z -> result TypedData;
  (* the structured encoder behind the enable data of v0.6:
     accountAddress, validUntil, validAfter, validator, executor,
     enableSignature *)
  encodeEnableDataV1 :
    Address -> Z -> Z -> KernelValidator -> Address -> Hex -> result Hex;
  (* the structured encoder behind the enable envelope of v0.7:
     enableSignature, action, validator, userOpSignature *)
  encodeEnableDataV2 :
    Hex -> Action -> KernelValidator -> Hex -> result Hex
}.

(** [KernelPluginManagerParams] *)
Record Params : Type := {
  sudo : option KernelValidator;
  regular : option KernelValidator;
  pluginEnableSignatureParam : option Hex;
  executorDataParam : option Action;
  validAfter : Z;
  validUntil : Z;
  entryPointVersion : EntryPointVersion;
  kernelVersion : option string
}.

(** What the closure of [toKernelPluginManager] holds once it is built. *)
Record KernelPluginManager : Type := {
  params : Params;
  chainId : Z;
  activeValidator : KernelValidator;
  executorData : Action
}.

(** The mutable part: the closure variable [pluginEnableSignature], and
    the typed data handed so far to the sudo validator's [signTypedData]
    (one entry per signing ceremony). *)
Record State : Type := {
  pluginEnableSignature : option Hex;
  signTypedDataCalls : list TypedData
}.

Definition M (A : Type) : Type := State -> result A * State.

Definition ret {A} (a : A) : M A := fun st => (Ok a, st).
Definition throw {A} (e : Error) : M A := fun st => (Err e, st).
Definition lift {A} (r : result A) : M A := fun st => (r, st).
Definition bind {A B} (c : M A) (k : A -> M B) : M B :=
  fun st =>
    match c st with
    | (Ok a, st') => k a st'
    | (Err e, st') => (Err e, st')
    end.

Declare Scope manager_scope.
Delimit Scope manager_scope with manager.
Notation "x <- c ;; k" := (bind c (fun x => k))
  (at level 61, c at next level, right associativity) : manager_scope.
Local Open Scope manager_scope.

Definition readPluginEnableSignature : M (option Hex) :=
  fun st => (Ok (pluginEnableSignature st), st).

Definition writePluginEnableSignature (sig : Hex) : M unit :=
  fun st => (Ok tt, {| pluginEnableSignature := Some sig;
                       signTypedDataCalls := signTypedDataCalls st |}).

(** [sudo.signTypedData(typedData)], with the call recorded. *)
Definition sudoSignTypedData (v : KernelValidator) (td : TypedData)
  : M Hex :=
  fun st => (Validator.signTypedData v td,
             {| pluginEnableSignature := pluginEnableSignature st;
                signTypedDataCalls := signTypedDataCalls st ++ [td] |}).

Section WithHost.
Variable host : Host.
Variable constants : Constants.

(** The constructor: [activeValidator = regular || sudo], and the
    executor data with its default. *)
Definition toKernelPluginManager (p : Params)
  : result KernelPluginManager :=
  bindR (getChainId host) (fun chainId =>
  match (match regular p with Some r => Some r | None => sudo p end) with
  | None => Err NoValidatorSet
  | Some active =>
      Ok {| params := p;
            chainId := chainId;
            activeValidator := active;
            executorData :=
              match executorDataParam p with
              | Some a => a
              | None => {| selector := getActionSelector host v0_6;
                           executor := zeroAddress |}
              end |}
  end).

Definition initialState (p : Params) : State :=
  {| pluginEnableSignature := pluginEnableSignatureParam p;
     signTypedDataCalls := [] |}.

Section Methods.
Variable m : KernelPluginManager.

Let version : EntryPointVersion := entryPointVersion (params m).

Definition isPluginEnabled (accountAddress : Address) (sel : Hex)
  : M bool :=
  match regular (params m) with
  | None => throw RegularValidatorNotSet
  | Some r =>
      match version with
      | v0_6 => lift (Validator.isEnabled r accountAddress sel)
      | v0_7 =>
          enabled <- lift (Validator.isEnabled r accountAddress
                             (selector (executorData m))) ;;
          if enabled : bool then ret true
          else lift (isPluginInitialized host accountAddress
                       (Validator.address r))
      end
  end.

Definition getPluginEnableSignature (accountAddress : Address)
  : M Hex :=
  cached <- readPluginEnableSignature ;;
  match cached with
  | Some sig => ret sig
  | None =>
  match sudo (params m) with
  | None => throw SudoValidatorNotSet
  | Some sudoV =>
  match regular (params m) with
  | None => throw RegularValidatorNotSet
  | Some regularV =>
      metaVersion <- lift (accountMetadata host accountAddress) ;;
      match version with
      | v0_6 =>
          typeData <- lift (getPluginsEnableTypedDataV1 host
                              accountAddress (chainId m)
                              (match metaVersion with
                               | Some v => Some v
                               | None => kernelVersion (params m)
                               end)
                              (executorData m) regularV
                              (validUntil (params m))
                              (validAfter (params m))) ;;
          ownerSig <- sudoSignTypedData sudoV typeData ;;
          _ <- writePluginEnableSignature ownerSig ;;
          ret ownerSig
      | v0_7 =>
          validatorNonce <- lift (getKernelV3Nonce host accountAddress) ;;
          typedData <- lift (getPluginsEnableTypedDataV2 host
                               accountAddress (chainId m) metaVersion
                               (executorData m) regularV
                               validatorNonce) ;;
          ownerSig <- sudoSignTypedData sudoV typedData ;;
          ret ownerSig
      end
  end end end.

(** Modelled from the spec: [getEncodedPluginsData] of ep0_6 is not
    part of the sources.  Section 4.3 gives the ENABLE envelope as
    [0x00000002] followed by the structured encoding of the account
    address, the validity window, the regular validator, the executor
    and the enable signature; the caller appends the user-operation
    signature. *)
Definition getEncodedPluginsDataV1 (accountAddress : Address)
           (enableSignature : Hex) (action : Action)
           (validator : KernelValidator) (until after : Z)
  : result Hex :=
  bindR (encodeEnableDataV1 host accountAddress until after validator
           (executor action) enableSignature)
        (fun enableData => Ok (concatHex [ValidatorMode_enable; enableData])).

(** Modelled from the spec: [getEncodedPluginsData] of ep0_7 is not
    part of the sources.  Section 4.3: the envelope embeds the enable
    signature, the action selector, the executor address, the validator
    address and the user-operation signature via structured encoding. *)
Definition getEncodedPluginsDataV2 (accountAddress : Address)
           (action : Action) (enableSignature userOpSignature : Hex)
           (validator : KernelValidator) : result Hex :=
  encodeEnableDataV2 host enableSignature action validator
                     userOpSignature.

Definition getSignatureData (accountAddress : Address) (sel : Hex)
           (userOpSignature : Hex) : M Hex :=
  match version with
  | v0_6 =>
      match regular (params m) with
      | Some regularV =>
          enabled <- isPluginEnabled accountAddress sel ;;
          if enabled : bool then ret ValidatorMode_plugin
          else
            enableSignature <- getPluginEnableSignature accountAddress ;;
            if negb (truthy enableSignature)
            then throw EnableSignatureNotSet
            else lift (getEncodedPluginsDataV1 accountAddress
                         enableSignature (executorData m) regularV
                         (validUntil (params m)) (validAfter (params m)))
      | None =>
          match sudo (params m) with
          | Some _ => ret ValidatorMode_sudo
          | None => throw NoValidatorSet
          end
      end
  | v0_7 =>
      match regular (params m) with
      | Some regularV =>
          enabled <- isPluginEnabled accountAddress
                       (selector (executorData m)) ;;
          if enabled : bool then ret userOpSignature
          else
            enableSignature <- getPluginEnableSignature accountAddress ;;
            lift (getEncodedPluginsDataV2 accountAddress (executorData m)
                    enableSignature userOpSignature regularV)
      | None =>
          match sudo (params m) with
          | Some _ => ret userOpSignature
          | None => throw NoValidatorSet
          end
      end
  end.

(** The tail shared by [signUserOperation] and [getDummySignature]. *)
Definition envelope (userOperation : UserOperation) (userOpSig : Hex)
  : M Hex :=
  match version with
  | v0_6 =>
      sigData <- getSignatureData (sender userOperation)
                   (slice_0_10 (callData userOperation)) [] ;;
      ret (concatHex [sigData; userOpSig])
  | v0_7 =>
      getSignatureData (sender userOperation)
        (slice_0_10 (callData userOperation)) userOpSig
  end.

Definition signUserOperation (userOperation : UserOperation) : M Hex :=
  userOpSig <- lift (Validator.signUserOperation (activeValidator m)
                       userOperation) ;;
  envelope userOperation userOpSig.

Definition getDummySignature (userOperation : UserOperation) : M Hex :=
  userOpSig <- lift (Validator.getDummySignature (activeValidator m)
                       userOperation) ;;
  envelope userOperation userOpSig.

(** [getIdentifier(isSudo = false)] *)
Definition getIdentifier (isSudo : bool) : Hex :=
  let validator :=
    match (if isSudo then sudo (params m) else regular (params m)) with
    | Some v => v
    | None => activeValidator m
    end in
  concatHex [VALIDATOR_TYPE constants (Validator.validatorType validator);
             Validator.getIdentifier validator].

(** [getNonceKey(accountAddress = zeroAddress)] *)
Definition getNonceKey (accountAddress : Address) : M Z :=
  match version with
  | v0_6 => lift (Validator.getNonceKey (activeValidator m))
  | v0_7 =>
      validatorMode <-
        match regular (params m) with
        | None => ret (VALIDATOR_MODE_DEFAULT constants)
        | Some _ =>
            enabled <- isPluginEnabled accountAddress
                         (selector (executorData m)) ;;
            ret (if enabled : bool
                 then VALIDATOR_MODE_DEFAULT constants
                 else VALIDATOR_MODE_ENABLE constants)
        end ;;
      let validatorType :=
        match regular (params m) with
        | Some r => VALIDATOR_TYPE constants (Validator.validatorType r)
        | None => VALIDATOR_TYPE constants SUDO
        end in
      let identifier := Validator.getIdentifier (activeValidator m) in
      nonceKey <- lift (Validator.getNonceKey (activeValidator m)) ;;
      subKeyHex <- lift (toHex nonceKey) ;;
      subKey <- lift (pad subKeyHex 2) ;;
      padded <- lift (pad (concatHex [validatorMode; validatorType;
                                      identifier; subKey]) 24) ;;
      lift (BigInt padded)
  end.

(** The spread [...activeValidator]: the methods the manager does not
    redefine are the active validator's. *)
Definition signTransaction (tx : TransactionRequest) : result Hex :=
  Validator.signTransaction (activeValidator m) tx.

End Methods.

(** Successive calls of [getPluginEnableSignature] on one manager, the
    state of each call being the one the previous call left. *)
Fixpoint getPluginEnableSignatureCalls (m : KernelPluginManager)
         (accounts : list Address) (st : State)
  : list (result Hex) * State :=
  match accounts with
  | [] => ([], st)
  | a :: rest =>
      let (r, st') := getPluginEnableSignature m a st in
      let (rs, st'') := getPluginEnableSignatureCalls m rest st' in
      (r :: rs, st'')
  end.

End WithHost.

(** Modelled from the spec: the NonceKey of section 3, the 24 bytes
    [mode(1) || validatorType(1) || validatorIdentifier(20) || subKey(2)],
    the sub-key written on two bytes, most significant first. *)
Definition nonceKeyBytes (mode validatorType identifier : Hex) (subKey : Z)
  : Hex :=
  mode ++ validatorType ++ identifier
       ++ [byteOfZ (subKey / 256); byteOfZ subKey].

End PluginManager.

(** ** The WebAuthn (passkey) validators *)

Module Passkey.
Import Viem Abi.

(** What one signing round trip yields: [sign-initiate], the platform
    authenticator ([startAuthentication]) and [sign-verify].  The offset
    [beforeType] ([findQuoteIndices]) and the normalised pair [(r, s)]
    ([parseAndNormalizeSig]) come from helpers outside the sources and are
    taken as computed. *)
Record SignCeremony : Type := {
  success : bool;
  authenticatorData : Hex;
  clientDataJSON : Hex;        (* the UTF-8 bytes of the JSON text *)
  beforeType : Z;
  sigR : Z;
  sigS : Z
}.

(** The relay server, the authenticator, the key import of the platform
    and the chain client. *)
Record Host : Type := {
  (* the steps of registration up to the parsed answer of
     [/register/verify]: the two [fetch] round trips with their [json()],
     [startRegistration], the hash of the credential id *)
  registerExchange : result unit;
  registerVerified : bool;
  registerPublicKey : option (Z * Z);
  (* [crypto.subtle.importKey] and [exportKey] on the public key of the
     registration credential *)
  registerKeyImport : result unit;
  registerAuthenticatorIdHash : Hex;
  (* the steps of login up to the read of [verification] in the parsed
     answer of [/login/verify]: the two [fetch] round trips with their
     [json()], [startAuthentication], the hash of the credential id *)
  loginExchange : result unit;
  loginVerified : bool;
  loginPublicKey : option (Z * Z);
  (* [crypto.subtle.importKey] and [exportKey] on the public key the relay
     returns at login *)
  loginKeyImport : result unit;
  loginAuthenticatorIdHash : Hex;
  getChainId : result Z;
  isRIP7212SupportedNetwork : Z -> bool;
  signCeremony : Hex -> SignCeremony;
  getUserOperationHash : UserOperation -> Address -> Z -> Hex;
  validateTypedData : TypedData -> result unit;
  hashTypedData : TypedData -> Hex
}.

(** The object both constructors return. *)
Record WebAuthnValidator : Type := {
  address : Address;
  signMessage : Hex -> result Hex;
  signTransaction : TransactionRequest -> result Hex;
  signTypedData : TypedData -> result Hex;
  getEnableData : result Hex;
  getNonceKey : result Z;
  signUserOperation : UserOperation -> result Hex;
  getDummySignature : result Hex;
  isEnabled : Address -> Hex -> result bool
}.

Definition quote : string := String (ascii_of_nat 34) EmptyString.

(** The placeholder client data of [getDummySignature]: the JSON text
    with the keys type, challenge and origin. *)
Definition dummyClientDataJSON : string :=
  ("{" ++ quote ++ "type" ++ quote ++ ":" ++ quote ++ "webauthn.get" ++ quote
    ++ "," ++ quote ++ "challenge" ++ quote ++ ":" ++ quote
    ++ "aaaaaaaaaaaaaaaaaaaaaaaaaaaaaaaaaaaaaaaaaaa" ++ quote
    ++ "," ++ quote ++ "origin" ++ quote ++ ":" ++ quote
    ++ "https://example.com" ++ quote ++ "}")%string.

Definition dummyAuthenticatorData : Hex :=
  hex "0xffffffffffffffffffffffffffffffffffffffffffffffffffffffffffffffffffffffffff".

(** The values of a ceremony fit the ABI types they are encoded with. *)
Definition encodable (c : SignCeremony) : Prop :=
  (Z.of_nat (List.length (authenticatorData c)) <= 2 ^ 64)%Z /\
  (Z.of_nat (List.length (clientDataJSON c)) <= 2 ^ 64)%Z /\
  (0 <= beforeType c <= maxUint256)%Z /\
  (0 <= sigR c <= maxUint256)%Z /\
  (0 <= sigS c <= maxUint256)%Z.

Section WithHost.
Variable host : Host.
Variable entryPointAddress : Address.
Variable chainId : Z.

(** [account.signMessage]: the ceremony, then the encoding of
    (authenticatorData, clientDataJSON, responseTypeLocation, r, s).
    [message] is the content sent to the relay: the text of the message, or
    the digits of its raw bytes (the branch "Unsupported message format" is
    closed to the message types of viem). *)
Definition account_signMessage (message : Hex) : result Hex :=
  let verifyResult := signCeremony host message in
  if negb (success verifyResult) then Err SignatureNotVerified
  else encodeAbiParameters
         [Bytes (authenticatorData verifyResult);
          AbiString (clientDataJSON verifyResult);
          Uint256 (beforeType verifyResult);
          Uint256 (sigR verifyResult);
          Uint256 (sigS verifyResult)].

Definition account_signTransaction (tx : TransactionRequest)
  : result Hex :=
  Err SignTransactionNotSupportedBySmartAccount.

Definition account_signTypedData (typedData : TypedData) : result Hex :=
  bindR (validateTypedData host typedData) (fun _ =>
  account_signMessage (hashTypedData host typedData)).

Definition validator_getEnableData (pubKey : Z * Z)
           (authenticatorIdHash : Hex) : result Hex :=
  encodeAbiParameters
    [Uint256 (fst pubKey); Uint256 (snd pubKey);
     Bool (isRIP7212SupportedNetwork host chainId);
     Bytes32 authenticatorIdHash].

Definition validator_signUserOperation (userOperation : UserOperation)
  : result Hex :=
  let hash := getUserOperationHash host (withSignature userOperation [])
                entryPointAddress chainId in
  account_signMessage hash.

Definition validator_getDummySignature : result Hex :=
  encodeAbiParameters
    [Bytes dummyAuthenticatorData;
     AbiString (stringToBytes dummyClientDataJSON);
     Uint256 maxUint256;
     Uint256 11111111111111111111111111111111111111111111111111111111111111111111111111111;
     Uint256 22222222222222222222222222222222222222222222222222222222222222222222222222222].

Definition validator_isEnabled (_kernelAccountAddress : Address)
           (_selector : Hex) : result bool :=
  Ok false.

Definition buildValidator (validatorAddress : Address) (pubKey : Z * Z)
           (authenticatorIdHash : Hex) : WebAuthnValidator :=
  {| address := validatorAddress;
     signMessage := account_signMessage;
     signTransaction := account_signTransaction;
     signTypedData := account_signTypedData;
     getEnableData := validator_getEnableData pubKey authenticatorIdHash;
     getNonceKey := Ok 0%Z;
     signUserOperation := validator_signUserOperation;
     getDummySignature := validator_getDummySignature;
     isEnabled := validator_isEnabled |}.

End WithHost.

(** [createPasskeyValidator]: the registration exchange, the two checks
    of its answer, the import of the key, the chain id, then the
    validator.  Each step that fails ends the construction with its
    error. *)
Definition createPasskeyValidator (host : Host)
           (entryPointAddress validatorAddress : Address)
  : result WebAuthnValidator :=
  bindR (registerExchange host) (fun _ =>
  if negb (registerVerified host) then Err RegistrationNotVerified
  else match registerPublicKey host with
       | None => Err NoPublicKeyReturned
       | Some pubKey =>
           bindR (registerKeyImport host) (fun _ =>
           bindR (getChainId host) (fun chainId =>
           Ok (buildValidator host entryPointAddress chainId validatorAddress
                 pubKey (registerAuthenticatorIdHash host))))
       end).

(** [getPasskeyValidator]: the login exchange, then the same steps and
    the same validator. *)
Definition getPasskeyValidator (host : Host)
           (entryPointAddress validatorAddress : Address)
  : result WebAuthnValidator :=
  bindR (loginExchange host) (fun _ =>
  if negb (loginVerified host) then Err LoginNotVerified
  else match loginPublicKey host with
       | None => Err NoPublicKeyReturned
       | Some pubKey =>
           bindR (loginKeyImport host) (fun _ =>
           bindR (getChainId host) (fun chainId =>
           Ok (buildValidator host entryPointAddress chainId validatorAddress
                 pubKey (loginAuthenticatorIdHash host))))
       end).

End Passkey.

(** ** The ECDSA kernel smart account ([signerToEcdsaKernelSmartAccount]) *)

Module EcdsaKernel.
Import Viem.

(** The signer and the chain client. *)
Record Host : Type := {
  signerAddress : Address;
  signer_signMessage : Hex -> result Hex;
  signer_signTypedData : TypedData -> result Hex;
  (* readContract(ecdsaValidatorStorage, [deployedAccountAddress]) *)
  ecdsaValidatorStorage : Address -> result Address;
  (* getSenderAddress(client, { initCode, entryPoint }) on the init code
     the account generates for this signer *)
  getSenderAddress : result Address;
  getChainId : result Z;
  (* of the two reads started together, whether the chain id is the one
     that settles first *)
  chainIdSettlesFirst : bool;
  getUserOperationHash : UserOperation -> Address -> Z -> Hex
}.

Record KernelSmartAccount : Type := {
  address : Address;
  signMessage : Hex -> result Hex;
  signTransaction : TransactionRequest -> result Hex;
  signTypedData : TypedData -> result Hex;
  signUserOperation : UserOperation -> result Hex;
  getDummySignature : option Hex -> result Hex
}.

Section WithHost.
Variable host : Host.
Variable entryPoint : Address.

Definition getAccountAddress (deployedAccountAddress : option Address)
  : result Address :=
  match deployedAccountAddress with
  | Some deployed =>
      bindR (ecdsaValidatorStorage host deployed) (fun deployedAccountOwner =>
      if negb (Hex_eqb deployedAccountOwner (signerAddress host))
      then Err InvalidOwner
      else Ok deployed)
  | None => getSenderAddress host
  end.

Definition account_signTransaction (tx : TransactionRequest)
  : result Hex :=
  Err SignTransactionNotSupportedBySmartAccount.

Definition account_signUserOperation (chainId : Z)
           (userOperation : UserOperation) : result Hex :=
  let hash := getUserOperationHash host (withSignature userOperation [])
                entryPoint chainId in
  bindR (signer_signMessage host hash) (fun sig =>
  (* Always use the sudo mode *)
  Ok (concatHex [hex "0x00000000"; sig])).

Definition account_getDummySignature (_calldata : option Hex)
  : result Hex :=
  Ok (hex "0x00000000fffffffffffffffffffffffffffffff0000000000000000000000000000000007aaaaaaaaaaaaaaaaaaaaaaaaaaaaaaaaaaaaaaaaaaaaaaaaaaaaaaaaaaaaaaa1c").

(** The address and the chain id are fetched together ([Promise.all]):
    one failing read is the error of the construction; when both fail, it
    is the error of the read that settles first. *)
Definition signerToEcdsaKernelSmartAccount
           (deployedAccountAddress : option Address)
  : result KernelSmartAccount :=
  match getAccountAddress deployedAccountAddress, getChainId host with
  | Err addressError, Err chainIdError =>
      Err (if chainIdSettlesFirst host then chainIdError else addressError)
  | Err addressError, Ok _ => Err addressError
  | Ok _, Err chainIdError => Err chainIdError
  | Ok accountAddress, Ok chainId =>
      if negb (truthy accountAddress) then Err AccountAddressNotFound
      else
        Ok {| address := accountAddress;
              signMessage := signer_signMessage host;
              signTransaction := account_signTransaction;
              signTypedData := signer_signTypedData host;
              signUserOperation := account_signUserOperation chainId;
              getDummySignature := account_getDummySignature |}
  end.

End WithHost.
End EcdsaKernel.

(** ** Sample collaborators

    Small concrete validators and hosts, used to run the embedded code on
    explicit inputs. *)

Module Examples.
Import PluginManager.

(** A validator with fixed answers: [enabled] is what [isEnabled] reports,
  [sig] what every signing method returns. *)
Definition sampleValidator (vt : ValidatorTypeKey) (ident : Hex)
         (enabled : bool) (sig : Hex) : KernelValidator :=
{| Validator.address := repeat x22 20;
   Validator.validatorType := vt;
   Validator.getIdentifier := ident;
   Validator.getNonceKey := Ok 5%Z;
   Validator.getEnableData := fun _ => Ok [];
   Validator.isEnabled := fun _ _ => Ok enabled;
   Validator.signUserOperation := fun _ => Ok sig;
   Validator.getDummySignature := fun _ => Ok sig;
   Validator.signMessage := fun _ => Ok sig;
   Validator.signTypedData := fun _ => Ok sig;
   Validator.signTransaction :=
     fun _ => Err SignTransactionNotSupportedBySmartAccount |}.

(** A host whose chain reads succeed and whose encoders concatenate their
  byte-string arguments. *)
Definition sampleHost : Host :=
{| getChainId := Ok 1%Z;
   getActionSelector := fun _ => hex "0x51945447";
   accountMetadata := fun _ => Ok None;
   getKernelV3Nonce := fun _ => Ok 1%Z;
   isPluginInitialized := fun _ _ => Ok false;
   getPluginsEnableTypedDataV1 :=
     fun account _ _ action v _ _ =>
       Ok (account ++ selector action ++ Validator.address v);
   getPluginsEnableTypedDataV2 :=
     fun account _ _ action v _ =>
       Ok (account ++ selector action ++ Validator.address v);
   encodeEnableDataV1 :=
     fun account _ _ v exec enableSig =>
       Ok (account ++ Validator.address v ++ exec ++ enableSig);
   encodeEnableDataV2 :=
     fun enableSig action v userOpSig =>
       Ok (enableSig ++ selector action ++ executor action
             ++ Validator.address v ++ userOpSig) |}.

(** The codes of the upstream [constants.ts]. *)
Definition sampleConstants : Constants :=
{| VALIDATOR_MODE_DEFAULT := [x00];
   VALIDATOR_MODE_ENABLE := [x01];
   VALIDATOR_TYPE :=
     fun t => match t with
              | SUDO => [x00]
              | SECONDARY => [x01]
              | PERMISSION => [x02]
              end |}.

Definition sampleSudo : KernelValidator :=
sampleValidator SECONDARY (repeat x44 20) false (repeat x11 65).

Definition sampleRegular : KernelValidator :=
sampleValidator PERMISSION (repeat x33 20) false (repeat x55 65).

Definition sampleParams (v : EntryPointVersion)
         (s r : option KernelValidator) (presupplied : option Hex)
: Params :=
{| sudo := s;
   regular := r;
   pluginEnableSignatureParam := presupplied;
   executorDataParam := None;
   validAfter := 0;
   validUntil := 0;
   entryPointVersion := v;
   kernelVersion := None |}.

(** The manager [toKernelPluginManager] builds from [sampleParams]. *)
Definition sampleManager (v : EntryPointVersion)
         (s r : option KernelValidator) (presupplied : option Hex)
         (active : KernelValidator) : KernelPluginManager :=
{| params := sampleParams v s r presupplied;
   chainId := 1;
   activeValidator := active;
   executorData := {| selector := hex "0x51945447";
                      executor := Viem.zeroAddress |} |}.

(** A stand-in for a 32-byte hash function: the first 32 bytes of the
  zero-padded input. *)
Definition toyHash (x : Hex) : Hex := firstn 32 (x ++ repeat x00 32).

Definition sampleUserOperation : UserOperation :=
{| sender := repeat x77 20;
   nonce := 0;
   callData := hex "0x51945447000000000000000000000000";
   otherFields := [];
   signature := [] |}.

(** The client data JSON a browser returns for the origin
  https://example.com: the keys type, challenge and origin of the
  placeholder, followed by the key crossOrigin. *)
Definition browserClientDataJSON : string :=
("{" ++ Passkey.quote ++ "type" ++ Passkey.quote ++ ":" ++ Passkey.quote
  ++ "webauthn.get" ++ Passkey.quote
  ++ "," ++ Passkey.quote ++ "challenge" ++ Passkey.quote ++ ":"
  ++ Passkey.quote ++ "aaaaaaaaaaaaaaaaaaaaaaaaaaaaaaaaaaaaaaaaaaa"
  ++ Passkey.quote
  ++ "," ++ Passkey.quote ++ "origin" ++ Passkey.quote ++ ":"
  ++ Passkey.quote ++ "https://example.com" ++ Passkey.quote
  ++ "," ++ Passkey.quote ++ "crossOrigin" ++ Passkey.quote ++ ":false}"
)%string.

(** A relay and an authenticator that verify every step; the authenticator
  data has the usual 37 bytes (RP id hash, flags, counter). *)
Definition samplePasskeyHost : Passkey.Host :=
{| Passkey.registerExchange := Ok tt;
   Passkey.registerVerified := true;
   Passkey.registerPublicKey := Some (1%Z, 2%Z);
   Passkey.registerKeyImport := Ok tt;
   Passkey.registerAuthenticatorIdHash := repeat x0a 32;
   Passkey.loginExchange := Ok tt;
   Passkey.loginVerified := true;
   Passkey.loginPublicKey := Some (1%Z, 2%Z);
   Passkey.loginKeyImport := Ok tt;
   Passkey.loginAuthenticatorIdHash := repeat x0a 32;
   Passkey.getChainId := Ok 1%Z;
   Passkey.isRIP7212SupportedNetwork := fun _ => false;
   Passkey.signCeremony :=
     fun _ => {| Passkey.success := true;
                 Passkey.authenticatorData := repeat x49 32 ++ hex "0x0500000001";
                 Passkey.clientDataJSON := stringToBytes browserClientDataJSON;
                 Passkey.beforeType := 1;
                 Passkey.sigR := 7;
                 Passkey.sigS := 9 |};
   Passkey.getUserOperationHash := fun _ _ _ => repeat x01 32;
   Passkey.validateTypedData := fun _ => Ok tt;
   Passkey.hashTypedData := fun _ => repeat x02 32 |}.

(** A signer with 65-byte signatures, for a counterfactual account. *)
Definition sampleSignerHost : EcdsaKernel.Host :=
{| EcdsaKernel.signerAddress := repeat x0b 20;
   EcdsaKernel.signer_signMessage := fun _ => Ok (repeat x11 65);
   EcdsaKernel.signer_signTypedData := fun _ => Ok (repeat x12 65);
   EcdsaKernel.ecdsaValidatorStorage := fun _ => Ok (repeat x0b 20);
   EcdsaKernel.getSenderAddress := Ok (repeat x0c 20);
   EcdsaKernel.getChainId := Ok 1%Z;
   EcdsaKernel.chainIdSettlesFirst := false;
   EcdsaKernel.getUserOperationHash := fun _ _ _ => repeat x01 32 |}.

End Examples.

(** ** Reading an ABI encoding back

    What a decoder of the encodings above does ([abi.decode] in the
    contracts, [decodeAbiParameters] in viem): a static value is the word at
    its position in the head; a dynamic value is found through the offset
    kept in its head word, where a length word precedes the content. *)

Module AbiRead.
Import Viem.

(** The bytes [[off, off + len)] of an encoding. *)
Definition bytesAt (off len : nat) (e : Hex) : Hex :=
  firstn len (skipn off e).

(** The head word number [i], as an unsigned integer. *)
Definition wordAt (i : nat) (e : Hex) : Z :=
  hexToBigInt (bytesAt (32 * i) 32 e).

(** The [bytes] or [string] value whose head word is number [i]. *)
Definition readBytes (i : nat) (e : Hex) : Hex :=
  let off := Z.to_nat (wordAt i e) in
  let len := Z.to_nat (hexToBigInt (bytesAt off 32 e)) in
  bytesAt (off + 32) len e.

(** The first [n] 32-byte elements of a byte string. *)
Fixpoint chunks32 (n : nat) (e : Hex) : list Hex :=
  match n with
  | O => []
  | S k => firstn 32 e :: chunks32 k (skipn 32 e)
  end.

(** The [bytes32[]] value whose head word is number [i]. *)
Definition readBytes32Array (i : nat) (e : Hex) : list Hex :=
  let off := Z.to_nat (wordAt i e) in
  let n := Z.to_nat (hexToBigInt (bytesAt off 32 e)) in
  chunks32 n (skipn (off + 32) e).

End AbiRead.

(** ** The effect of a manager call on the mutable state *)

Module ManagerEffects.
Import PluginManager.

(** What one call of a method of the manager [m] may do to the state:
    nothing; or, when no enable signature is stored and both validators are
    configured, one more typed-data signature by the sudo validator, after
    which a signature can be stored only under v0.6. *)
Definition atMostOneCeremony (m : KernelPluginManager) (st st' : State)
  : Prop :=
  st' = st \/
  (pluginEnableSignature st = None /\
   sudo (params m) <> None /\ regular (params m) <> None /\
   exists td,
     signTypedDataCalls st' = signTypedDataCalls st ++ [td] /\
     (pluginEnableSignature st' = None \/
      entryPointVersion (params m) = v0_6)).

End ManagerEffects.

(** ** Further sample collaborators *)

Module Scenarios.
Import PluginManager.

(** A relay whose [sign-verify] step rejects every ceremony. *)
Definition rejectingPasskeyHost : Passkey.Host :=
{| Passkey.registerExchange := Ok tt;
   Passkey.registerVerified := true;
   Passkey.registerPublicKey := Some (1%Z, 2%Z);
   Passkey.registerKeyImport := Ok tt;
   Passkey.registerAuthenticatorIdHash := repeat x0a 32;
   Passkey.loginExchange := Ok tt;
   Passkey.loginVerified := true;
   Passkey.loginPublicKey := Some (1%Z, 2%Z);
   Passkey.loginKeyImport := Ok tt;
   Passkey.loginAuthenticatorIdHash := repeat x0a 32;
   Passkey.getChainId := Ok 1%Z;
   Passkey.isRIP7212SupportedNetwork := fun _ => true;
   Passkey.signCeremony :=
     fun _ => {| Passkey.success := false;
                 Passkey.authenticatorData := [];
                 Passkey.clientDataJSON := [];
                 Passkey.beforeType := 0;
                 Passkey.sigR := 0;
                 Passkey.sigS := 0 |};
   Passkey.getUserOperationHash := fun _ _ _ => repeat x01 32;
   Passkey.validateTypedData := fun _ => Ok tt;
   Passkey.hashTypedData := fun _ => repeat x02 32 |}.

(** A validator like [Examples.sampleValidator] whose nonce sub-key is
  [subKey] and whose placeholder signature is [dummy]. *)
Definition validatorWith (vt : ValidatorTypeKey) (ident : Hex)
         (enabled : bool) (sig dummy : Hex) (subKey : Z) : KernelValidator :=
{| Validator.address := repeat x22 20;
   Validator.validatorType := vt;
   Validator.getIdentifier := ident;
   Validator.getNonceKey := Ok subKey;
   Validator.getEnableData := fun _ => Ok [];
   Validator.isEnabled := fun _ _ => Ok enabled;
   Validator.signUserOperation := fun _ => Ok sig;
   Validator.getDummySignature := fun _ => Ok dummy;
   Validator.signMessage := fun _ => Ok sig;
   Validator.signTypedData := fun _ => Ok sig;
   Validator.signTransaction :=
     fun _ => Err SignTransactionNotSupportedBySmartAccount |}.

(** The sample host on an account that reports the plugin as initialised. *)
Definition initializedHost : Host :=
{| getChainId := getChainId Examples.sampleHost;
   getActionSelector := getActionSelector Examples.sampleHost;
   accountMetadata := accountMetadata Examples.sampleHost;
   getKernelV3Nonce := getKernelV3Nonce Examples.sampleHost;
   isPluginInitialized := fun _ _ => Ok true;
   getPluginsEnableTypedDataV1 :=
     getPluginsEnableTypedDataV1 Examples.sampleHost;
   getPluginsEnableTypedDataV2 :=
     getPluginsEnableTypedDataV2 Examples.sampleHost;
   encodeEnableDataV1 := encodeEnableDataV1 Examples.sampleHost;
   encodeEnableDataV2 := encodeEnableDataV2 Examples.sampleHost |}.

(** The sample relay with a credential whose public key the platform
  refuses to import ([DataError]). *)
Definition badKeyPasskeyHost : Passkey.Host :=
{| Passkey.registerExchange := Ok tt;
   Passkey.registerVerified := true;
   Passkey.registerPublicKey := Some (1%Z, 2%Z);
   Passkey.registerKeyImport := Err (External 7);
   Passkey.registerAuthenticatorIdHash := repeat x0a 32;
   Passkey.loginExchange := Ok tt;
   Passkey.loginVerified := true;
   Passkey.loginPublicKey := Some (1%Z, 2%Z);
   Passkey.loginKeyImport := Err (External 7);
   Passkey.loginAuthenticatorIdHash := repeat x0a 32;
   Passkey.getChainId := Ok 1%Z;
   Passkey.isRIP7212SupportedNetwork := fun _ => false;
   Passkey.signCeremony := Passkey.signCeremony Examples.samplePasskeyHost;
   Passkey.getUserOperationHash := fun _ _ _ => repeat x01 32;
   Passkey.validateTypedData := fun _ => Ok tt;
   Passkey.hashTypedData := fun _ => repeat x02 32 |}.

(** A signer whose deployed account is owned by somebody else. *)
Definition foreignOwnerHost : EcdsaKernel.Host :=
{| EcdsaKernel.signerAddress := repeat x0b 20;
   EcdsaKernel.signer_signMessage := fun _ => Ok (repeat x11 65);
   EcdsaKernel.signer_signTypedData := fun _ => Ok (repeat x12 65);
   EcdsaKernel.ecdsaValidatorStorage := fun _ => Ok (repeat x0d 20);
   EcdsaKernel.getSenderAddress := Ok (repeat x0c 20);
   EcdsaKernel.getChainId := Ok 1%Z;
   EcdsaKernel.chainIdSettlesFirst := false;
   EcdsaKernel.getUserOperationHash := fun _ _ _ => repeat x01 32 |}.

End Scenarios.

(* ====================================================================== *)
(** * Part II: properties                                                  *)
(* ====================================================================== *)

Unset Implicit Arguments.

(** ** Byte strings *)

Module ViemFacts.
Import Viem.
Local Open Scope Z_scope.

Lemma byteVal_range (b : byte) : 0 <= byteVal b < 256.
Proof.
  unfold byteVal. pose proof (Byte.to_N_bounded b). lia.
Qed.

Lemma byteVal_byteOfZ (z : Z) : byteVal (byteOfZ z) = z mod 256.
Proof.
  unfold byteVal, byteOfZ.
  assert (Hr : 0 <= z mod 256 < 256) by (apply Z.mod_pos_bound; lia).
  destruct (Byte.of_N (Z.to_N (z mod 256))) as [b|] eqn:E.
  - apply Byte.to_of_N in E. rewrite E. lia.
  - apply Byte.of_N_None_iff in E. lia.
Qed.

Lemma byteOfZ_byteVal (b : byte) : byteOfZ (byteVal b) = b.
Proof.
  unfold byteOfZ, byteVal.
  pose proof (Byte.to_N_bounded b) as Hb.
  rewrite Z.mod_small by lia.
  rewrite N2Z.id, Byte.of_to_N. reflexivity.
Qed.

Lemma hexToBigInt_from (h : Hex) (a : Z) :
  fold_left (fun acc b => acc * 256 + byteVal b) h a
  = a * 256 ^ Z.of_nat (length h) + hexToBigInt h.
Proof.
  unfold hexToBigInt. revert a.
  induction h as [|b h IH]; intros a.
  - simpl. lia.
  - cbn [fold_left length]. rewrite IH, (IH (0 * 256 + byteVal b)).
    rewrite Nat2Z.inj_succ, Z.pow_succ_r by lia. ring.
Qed.

Lemma hexToBigInt_cons (b : byte) (h : Hex) :
  hexToBigInt (b :: h) = byteVal b * 256 ^ Z.of_nat (length h) + hexToBigInt h.
Proof.
  unfold hexToBigInt at 1. cbn [fold_left].
  rewrite hexToBigInt_from. ring.
Qed.

Lemma hexToBigInt_app (a b : Hex) :
  hexToBigInt (a ++ b)
  = hexToBigInt a * 256 ^ Z.of_nat (length b) + hexToBigInt b.
Proof.
  unfold hexToBigInt at 1. rewrite fold_left_app.
  rewrite hexToBigInt_from. reflexivity.
Qed.

Lemma hexToBigInt_zeros (n : nat) : hexToBigInt (repeat x00 n) = 0.
Proof.
  induction n as [|n IH]; [reflexivity|].
  cbn [repeat]. rewrite hexToBigInt_cons, IH. reflexivity.
Qed.

Lemma hexToBigInt_bound (h : Hex) :
  0 <= hexToBigInt h < 256 ^ Z.of_nat (length h).
Proof.
  induction h as [|b h IH].
  - cbn. lia.
  - rewrite hexToBigInt_cons. cbn [length].
    rewrite Nat2Z.inj_succ, Z.pow_succ_r by lia.
    pose proof (byteVal_range b). nia.
Qed.

Lemma bytesOfZ_zero (fuel : nat) (n : Z) (acc : Hex) :
  n <= 0 -> bytesOfZ fuel n acc = acc.
Proof.
  intros Hn. destruct fuel as [|f]; cbn [bytesOfZ]; [reflexivity|].
  destruct (n <=? 0) eqn:E; [reflexivity|]. apply Z.leb_gt in E. lia.
Qed.

Lemma bytesOfZ_step (fuel : nat) (n : Z) (acc : Hex) :
  0 < n ->
  bytesOfZ (S fuel) n acc = bytesOfZ fuel (n / 256) (byteOfZ n :: acc).
Proof.
  intros Hn. cbn [bytesOfZ].
  destruct (n <=? 0) eqn:E; [apply Z.leb_le in E; lia | reflexivity].
Qed.

(** With [256 ^ fuel] above [n] the digits are complete: read back, they
    give [n]. *)
Lemma bytesOfZ_value (fuel : nat) (n : Z) (acc : Hex) :
  0 <= n < 256 ^ Z.of_nat fuel ->
  hexToBigInt (bytesOfZ fuel n acc)
  = n * 256 ^ Z.of_nat (length acc) + hexToBigInt acc.
Proof.
  revert n acc. induction fuel as [|f IH]; intros n acc Hn.
  - cbn in Hn. assert (n = 0) by lia. subst n. cbn [bytesOfZ]. lia.
  - cbn [bytesOfZ]. destruct (n <=? 0) eqn:E.
    + apply Z.leb_le in E. assert (n = 0) by lia. subst n. lia.
    + apply Z.leb_gt in E.
      rewrite Nat2Z.inj_succ, Z.pow_succ_r in Hn by lia.
      rewrite IH.
      2:{ split; [apply Z.div_pos; lia|].
          apply Z.div_lt_upper_bound; lia. }
      rewrite hexToBigInt_cons, byteVal_byteOfZ. cbn [length].
      rewrite Nat2Z.inj_succ, Z.pow_succ_r by lia.
      pose proof (Z.div_mod n 256 ltac:(lia)) as Hdm.
      set (q := n / 256) in *. set (r := n mod 256) in *.
      set (w := 256 ^ Z.of_nat (length acc)).
      transitivity ((256 * q + r) * w + hexToBigInt acc); [ring|].
      rewrite <- Hdm. reflexivity.
Qed.

(** The fuel [toHex] runs on is enough: the digits it returns denote [n]. *)
Lemma toHex_value (n : Z) :
  0 <= n -> exists h, toHex n = Ok h /\ hexToBigInt h = n.
Proof.
  intros Hn. unfold toHex.
  destruct (n <? 0) eqn:E; [apply Z.ltb_lt in E; lia|].
  eexists. split; [reflexivity|].
  rewrite bytesOfZ_value.
  - cbn [length]. change (hexToBigInt []) with 0. cbn. lia.
  - split; [assumption|].
    rewrite Nat2Z.inj_succ, Z2Nat.id by apply Z.log2_nonneg.
    destruct (Z.eq_dec n 0) as [->|Hnz]; [cbn; lia|].
    pose proof (Z.log2_spec n ltac:(lia)) as [_ Hlt].
    assert (Hpow : 2 ^ Z.succ (Z.log2 n) <= 256 ^ Z.succ (Z.log2 n)).
    { apply Z.pow_le_mono_l. lia. }
    lia.
Qed.

(** [pad(toHex(k), { size: 2 })] is the two-byte big-endian form of [k]. *)
Lemma pad_toHex_2 (k : Z) :
  0 <= k < 2 ^ 16 ->
  bindR (toHex k) (fun h => pad h 2) = Ok [byteOfZ (k / 256); byteOfZ k].
Proof.
  intros Hk. unfold toHex.
  destruct (k <? 0) eqn:E; [apply Z.ltb_lt in E; lia|]. cbn [bindR].
  destruct (Z.eq_dec k 0) as [->|Hnz]; [reflexivity|].
  rewrite bytesOfZ_step by lia.
  destruct (Z_lt_dec k 256) as [Hlt|Hge].
  - rewrite bytesOfZ_zero by (rewrite Z.div_small; lia).
    rewrite (Z.div_small k 256) by lia. reflexivity.
  - assert (Hq : 0 < k / 256) by (apply Z.div_str_pos; lia).
    assert (Hlog : 8 <= Z.log2 k) by (apply Z.log2_le_pow2; lia).
    destruct (Z.to_nat (Z.log2 k)) as [|f] eqn:Ef; [lia|].
    rewrite bytesOfZ_step by lia.
    rewrite bytesOfZ_zero; [reflexivity|].
    rewrite Z.div_div by lia. rewrite Z.div_small; lia.
Qed.

(** Beyond two bytes the padding fails. *)
Lemma pad_toHex_2_overflow (k : Z) :
  2 ^ 16 <= k ->
  bindR (toHex k) (fun h => pad h 2) = Err SizeExceedsPaddingSize.
Proof.
  intros Hk. unfold toHex.
  destruct (k <? 0) eqn:E; [apply Z.ltb_lt in E; lia|]. cbn [bindR].
  assert (Hlog : 16 <= Z.log2 k) by (apply Z.log2_le_pow2; lia).
  destruct (Z.to_nat (Z.log2 k)) as [|[|f]] eqn:Ef; try lia.
  assert (H1 : 0 < k / 256) by (apply Z.div_str_pos; lia).
  assert (H2 : 0 < k / 256 / 256).
  { rewrite Z.div_div by lia. apply Z.div_str_pos. lia. }
  rewrite !bytesOfZ_step by lia.
  assert (Hlen : forall fuel n acc,
             (length acc <= length (bytesOfZ fuel n acc))%nat).
  { induction fuel as [|g IH]; intros n acc; cbn [bytesOfZ]; [lia|].
    destruct (n <=? 0); [lia|].
    specialize (IH (n / 256) (byteOfZ n :: acc)). cbn [length] in IH. lia. }
  unfold pad.
  match goal with |- context [bytesOfZ ?f ?n ?acc] =>
    specialize (Hlen f n acc) end.
  cbn [length] in Hlen.
  destruct (2 <? _)%nat eqn:E2; [reflexivity|].
  apply Nat.ltb_ge in E2. lia.
Qed.

Lemma concatHex_length_4 (a b c d : Hex) :
  length (concatHex [a; b; c; d])
  = (length a + length b + length c + length d)%nat.
Proof.
  unfold concatHex. cbn [List.concat].
  rewrite !length_app. cbn [length]. lia.
Qed.

Lemma pad_exact (h : Hex) (n : nat) : length h = n -> pad h n = Ok h.
Proof.
  intros <-. unfold pad. rewrite Nat.ltb_irrefl, Nat.sub_diag. reflexivity.
Qed.

Example toHex_pad_256 :
  bindR (toHex 256) (fun h => pad h 2) = Ok [x01; x00].
Proof. reflexivity. Qed.

Example toHex_pad_zero :
  bindR (toHex 0) (fun h => pad h 2) = Ok [x00; x00].
Proof. reflexivity. Qed.

Example toHex_negative : toHex (-1) = Err IntegerOutOfRange.
Proof. reflexivity. Qed.

Example BigInt_of_two_bytes : BigInt [x01; x02] = Ok 258.
Proof. reflexivity. Qed.

End ViemFacts.

(** ** The Merkle tree *)

Module MerkleFacts.
Import MerkleTree.

Section WithHash.
Variable hashFn : Hex -> Hex.

Lemma byteVal_inj (x y : byte) : byteVal x = byteVal y -> x = y.
Proof.
  intros H. rewrite <- (ViemFacts.byteOfZ_byteVal x), H.
  apply ViemFacts.byteOfZ_byteVal.
Qed.

Lemma Buffer_compare_refl (a : Hex) : Buffer_compare a a = Eq.
Proof.
  induction a as [|x a IH]; [reflexivity|].
  cbn [Buffer_compare]. rewrite Z.compare_refl. exact IH.
Qed.

Lemma Buffer_compare_eq (a b : Hex) : Buffer_compare a b = Eq -> a = b.
Proof.
  revert b. induction a as [|x a IH]; intros [|y b] H; cbn in H;
    try discriminate; [reflexivity|].
  destruct (byteVal x ?= byteVal y)%Z eqn:E; try discriminate.
  apply Z.compare_eq in E. apply byteVal_inj in E. subst y.
  f_equal. apply IH. exact H.
Qed.

Lemma Buffer_compare_antisym (a b : Hex) :
  Buffer_compare b a = CompOpp (Buffer_compare a b).
Proof.
  revert b. induction a as [|x a IH]; intros [|y b]; cbn [Buffer_compare];
    try reflexivity.
  rewrite (Z.compare_antisym (byteVal x) (byteVal y)).
  destruct (byteVal x ?= byteVal y)%Z; cbn [CompOpp]; try reflexivity.
  apply IH.
Qed.

(** Sorting the pair makes the hash of two children independent of their
    order. *)
Lemma hashPair_comm (l r : Hex) : hashPair hashFn l r = hashPair hashFn r l.
Proof.
  unfold hashPair, sortPair.
  rewrite (Buffer_compare_antisym l r).
  destruct (Buffer_compare l r) eqn:E; cbn [CompOpp]; try reflexivity.
  apply Buffer_compare_eq in E. subst. reflexivity.
Qed.

Lemma nextLayer_length (nodes : list Hex) :
  length (nextLayer hashFn nodes) = Nat.div2 (S (length nodes)).
Proof.
  induction nodes as [nodes IH] using (well_founded_induction
    (Wf_nat.well_founded_ltof _ (@length Hex))).
  destruct nodes as [|x [|y rest]]; try reflexivity.
  cbn [nextLayer length]. rewrite IH by (unfold Wf_nat.ltof; cbn; lia).
  reflexivity.
Qed.

Lemma div2_le_pow (n f : nat) : n <= 2 ^ S f -> Nat.div2 (S n) <= 2 ^ f.
Proof.
  intros H. rewrite Nat.pow_succ_r' in H.
  rewrite Nat.div2_div.
  assert (Hd : S n / 2 <= (2 * 2 ^ f + 1) / 2)
    by (apply Nat.Div0.div_le_mono; lia).
  replace ((2 * 2 ^ f + 1) / 2) with (2 ^ f) in Hd; [exact Hd|].
  rewrite Nat.mul_comm, Nat.div_add_l by lia. cbn. lia.
Qed.

Lemma proofPath_cons (layer : list Hex) (upper : list (list Hex)) (i : nat) :
  proofPath (layer :: upper) i = sibling layer i ++ proofPath upper (i / 2).
Proof. reflexivity. Qed.

Lemma sibling_SS (x y : Hex) (rest : list Hex) (j : nat) :
  sibling (x :: y :: rest) (S (S j)) = sibling rest j.
Proof.
  unfold sibling. rewrite Nat.odd_succ_succ.
  destruct (Nat.odd j) eqn:Ej.
  - destruct j as [|j]; [discriminate|].
    replace (S (S (S j)) - 1) with (S (S j)) by lia.
    replace (S j - 1) with j by lia.
    cbn [length nth]. reflexivity.
  - replace (S (S j) + 1) with (S (S (j + 1))) by lia.
    cbn [length nth]. reflexivity.
Qed.

(** One layer up: hashing the node with its recorded sibling gives its
    parent in the next layer. *)
Lemma nextLayer_parent (nodes : list Hex) (i : nat) :
  i < length nodes ->
  fold_left (hashPair hashFn) (sibling nodes i) (nth i nodes [])
  = nth (i / 2) (nextLayer hashFn nodes) [].
Proof.
  revert i.
  induction nodes as [nodes IH] using (well_founded_induction
    (Wf_nat.well_founded_ltof _ (@length Hex))).
  intros i Hi.
  destruct nodes as [|x [|y rest]].
  - cbn in Hi. lia.
  - cbn in Hi. assert (i = 0) by lia. subst i. reflexivity.
  - destruct i as [|[|j]].
    + reflexivity.
    + cbn. apply hashPair_comm.
    + rewrite sibling_SS.
      replace (S (S j) / 2) with (S (j / 2)).
      2:{ change (S (S j)) with (1 * 2 + j) at 1.
          replace (1 * 2 + j) with (j + 1 * 2) by lia.
          rewrite Nat.div_add by lia. lia. }
      cbn [nextLayer nth]. apply IH.
      * unfold Wf_nat.ltof. cbn. lia.
      * cbn in Hi. lia.
Qed.

Lemma createHashes_nonempty (fuel : nat) (nodes : list Hex) :
  createHashes hashFn fuel nodes <> [].
Proof. destruct fuel; discriminate. Qed.

Lemma rootOf_cons (layer : list Hex) (ls : list (list Hex)) :
  ls <> [] -> rootOf (layer :: ls) = rootOf ls.
Proof.
  intros H. unfold rootOf. destruct ls; [congruence | reflexivity].
Qed.

Lemma createHashes_single (fuel : nat) (nodes : list Hex) :
  length nodes <= 1 -> createHashes hashFn fuel nodes = [nodes].
Proof.
  intros H. destruct fuel; cbn [createHashes]; [reflexivity|].
  destruct (1 <? length nodes) eqn:E; [apply Nat.ltb_lt in E; lia|].
  reflexivity.
Qed.

Lemma createHashes_step (fuel : nat) (nodes : list Hex) :
  1 < length nodes ->
  createHashes hashFn (S fuel) nodes
  = nodes :: createHashes hashFn fuel (nextLayer hashFn nodes).
Proof.
  intros H. cbn [createHashes].
  destruct (1 <? length nodes) eqn:E; [reflexivity|].
  apply Nat.ltb_ge in E. lia.
Qed.

(** Enough fuel: once the layer fits in [2 ^ fuel] nodes the loop stops by
    its own test, so more fuel changes nothing. *)
Lemma createHashes_fuel (f1 f2 : nat) (nodes : list Hex) :
  length nodes <= 2 ^ f1 -> length nodes <= 2 ^ f2 ->
  createHashes hashFn f1 nodes = createHashes hashFn f2 nodes.
Proof.
  revert f2 nodes. induction f1 as [|f1 IH]; intros f2 nodes H1 H2.
  - cbn in H1. rewrite !createHashes_single by lia. reflexivity.
  - destruct (Nat.le_gt_cases (length nodes) 1) as [Hs|Hl].
    + rewrite !createHashes_single by lia. reflexivity.
    + destruct f2 as [|f2]; [cbn in H2; lia|].
      rewrite !createHashes_step by lia. f_equal.
      apply IH; rewrite nextLayer_length; apply div2_le_pow; assumption.
Qed.

(** The loop ends on a layer of at most one node. *)
Lemma createHashes_last (fuel : nat) (nodes : list Hex) :
  length nodes <= 2 ^ fuel ->
  length (last (createHashes hashFn fuel nodes) []) <= 1.
Proof.
  revert nodes. induction fuel as [|f IH]; intros nodes H.
  - cbn in H. rewrite createHashes_single by lia. cbn. lia.
  - destruct (Nat.le_gt_cases (length nodes) 1) as [Hs|Hl].
    + rewrite createHashes_single by lia. cbn. lia.
    + rewrite createHashes_step by lia.
      pose proof (createHashes_nonempty f (nextLayer hashFn nodes)) as Hne.
      destruct (createHashes hashFn f (nextLayer hashFn nodes)) eqn:E;
        [congruence|].
      change (last (nodes :: l :: l0) []) with (last (l :: l0) []).
      rewrite <- E. apply IH.
      rewrite nextLayer_length. apply div2_le_pow. assumption.
Qed.

(** [layers] does not depend on the fuel it is given: any fuel that
    covers the leaves builds the same layers, and the last of them holds at
    most one node, the root. *)
Lemma layers_complete (leaves : list Hex) :
  (forall fuel, length leaves <= 2 ^ fuel ->
                createHashes hashFn fuel leaves = layers hashFn leaves) /\
  length (last (layers hashFn leaves) []) <= 1.
Proof.
  assert (Hp : forall n, n <= 2 ^ n).
  { induction n as [|n IH]; cbn [Nat.pow]; [lia|].
    assert (2 ^ n <> 0) by (apply Nat.pow_nonzero; lia). lia. }
  split.
  - intros fuel Hf. unfold layers. apply createHashes_fuel; auto.
  - unfold layers. apply createHashes_last. apply Hp.
Qed.

Lemma createHashes_length (fuel : nat) (nodes : list Hex) :
  length (createHashes hashFn fuel nodes) <= S fuel.
Proof.
  revert nodes. induction fuel as [|f IH]; intros nodes; cbn [createHashes].
  - cbn. lia.
  - destruct (1 <? length nodes); cbn [length]; [|lia].
    specialize (IH (nextLayer hashFn nodes)). lia.
Qed.

Lemma proofPath_length (ls : list (list Hex)) (i : nat) :
  length (proofPath ls i) <= length ls.
Proof.
  revert i. induction ls as [|layer ls IH]; intros i; [cbn; lia|].
  rewrite proofPath_cons, length_app. specialize (IH (i / 2)).
  unfold sibling. destruct (_ <? _); cbn [length]; lia.
Qed.

(** Folding the proof of node [i] over that node rebuilds the root. *)
Lemma proofPath_rebuilds_root (fuel : nat) (nodes : list Hex) (i : nat) :
  i < length nodes -> length nodes <= 2 ^ fuel ->
  processProof hashFn (proofPath (createHashes hashFn fuel nodes) i)
               (nth i nodes [])
  = rootOf (createHashes hashFn fuel nodes).
Proof.
  revert nodes i. induction fuel as [|f IH]; intros nodes i Hi Hlen.
  - cbn in Hlen. rewrite createHashes_single by lia.
    destruct nodes as [|x [|y rest]]; cbn in Hi, Hlen; try lia.
    assert (i = 0) by lia. subst i. reflexivity.
  - destruct (Nat.le_gt_cases (length nodes) 1) as [Hs|Hl].
    + rewrite createHashes_single by lia.
      destruct nodes as [|x [|y rest]]; cbn in Hi, Hs; try lia.
      assert (i = 0) by lia. subst i. reflexivity.
    + rewrite createHashes_step by lia.
      rewrite proofPath_cons, rootOf_cons by apply createHashes_nonempty.
      unfold processProof. rewrite fold_left_app.
      rewrite nextLayer_parent by assumption.
      apply IH.
      * rewrite nextLayer_length, Nat.div2_div.
        apply Nat.Div0.div_lt_upper_bound.
        pose proof (Nat.div_mod_eq (S (length nodes)) 2) as Hm.
        pose proof (Nat.mod_upper_bound (S (length nodes)) 2) as Hu.
        pose proof (Nat.Div0.mul_div_le i 2) as Hle.
        pose proof (Nat.div_mod_eq i 2) as Hmi.
        pose proof (Nat.mod_upper_bound i 2) as Hui.
        lia.
      * rewrite nextLayer_length. apply div2_le_pow. assumption.
Qed.

Lemma findLeaf_sound (leaf : Hex) (leaves : list Hex) :
  forall (i : nat) (index : option nat) (all : list Hex),
    (forall j, index = Some j -> j < i /\ nth j all [] = leaf) ->
    (forall k, k < length leaves -> nth (i + k) all [] = nth k leaves []) ->
    forall j, findLeaf leaf leaves i index = Some j ->
              j < i + length leaves /\ nth j all [] = leaf.
Proof.
  induction leaves as [|l rest IH]; intros i index all Hidx Hall j Hj.
  - cbn in Hj. destruct (Hidx j Hj). split; [cbn; lia | assumption].
  - cbn [findLeaf] in Hj. apply (IH (S i) _ all) in Hj.
    + destruct Hj as [Hlt Hnth]. split; [cbn [length]; lia | exact Hnth].
    + intros j' Hj'. destruct (Buffer_compare leaf l) eqn:E.
      * inversion Hj'; subst j'. split; [lia|].
        apply Buffer_compare_eq in E. subst l.
        specialize (Hall 0). cbn in Hall. rewrite Nat.add_0_r in Hall.
        apply Hall. lia.
      * destruct (Hidx j' Hj'). split; [lia | assumption].
      * destruct (Hidx j' Hj'). split; [lia | assumption].
    + intros k Hk. specialize (Hall (S k)). cbn [length nth] in Hall.
      replace (S i + k) with (i + S k) by lia. apply Hall. lia.
Qed.

Lemma findLeaf_found (leaf : Hex) (leaves : list Hex) (i : nat)
      (index : option nat) :
  index <> None \/ In leaf leaves ->
  findLeaf leaf leaves i index <> None.
Proof.
  revert i index. induction leaves as [|l rest IH]; intros i index H.
  - cbn. destruct H as [H|[]]. exact H.
  - cbn [findLeaf]. apply IH.
    destruct H as [H|[H|H]].
    + left. destruct (Buffer_compare leaf l); [discriminate | exact H | exact H].
    + left. subst l. rewrite Buffer_compare_refl. discriminate.
    + right. exact H.
Qed.

Lemma pow2_ge (n : nat) : n <= 2 ^ n.
Proof.
  induction n as [|n IH]; cbn [Nat.pow]; [lia|].
  assert (2 ^ n <> 0) by (apply Nat.pow_nonzero; lia). lia.
Qed.

(** The inclusion proof [getProof] returns for a leaf of the tree verifies
    against [getRoot]. *)
Lemma getProof_verifies (leaves : list Hex) (leaf : Hex) :
  In leaf leaves ->
  verify hashFn (getProof hashFn leaves leaf) leaf (getRoot hashFn leaves)
  = true.
Proof.
  intros Hin. unfold verify, getProof, getRoot, layers.
  destruct (findLeaf leaf leaves 0 None) as [i|] eqn:E.
  2:{ exfalso. revert E. apply findLeaf_found. right. exact Hin. }
  destruct (findLeaf_sound leaf leaves 0 None leaves) with (j := i)
    as [Hi Hnth]; [discriminate | reflexivity | exact E |].
  cbn in Hi.
  pose proof (proofPath_rebuilds_root (length leaves) leaves i Hi
                (pow2_ge (length leaves))) as Hroot.
  rewrite Hnth in Hroot. rewrite Hroot.
  unfold Hex_eqb, rootOf.
  destruct (Hex_eq_dec _ _); [reflexivity | congruence].
Qed.

Lemma getProof_length (leaves : list Hex) (leaf : Hex) :
  length (getProof hashFn leaves leaf) <= S (length leaves).
Proof.
  unfold getProof. destruct (findLeaf leaf leaves 0 None); [|cbn; lia].
  etransitivity; [apply proofPath_length|]. apply createHashes_length.
Qed.

End WithHash.
(** Three leaves [a, b, c]: the layers are [a, b, c], [H(ab), c] and
    [H(H(ab) c)]; the proof of [a] is [b, c] and the proof of [c] is
    [H(ab)]. *)
Example three_leaf_layers :
  layers Examples.toyHash [[x01]; [x02]; [x03]]
  = [ [[x01]; [x02]; [x03]];
      [Examples.toyHash [x01; x02]; [x03]];
      [Examples.toyHash (Examples.toyHash [x01; x02] ++ [x03])] ].
Proof. reflexivity. Qed.

Example three_leaf_proof_first :
  getProof Examples.toyHash [[x01]; [x02]; [x03]] [x01] = [[x02]; [x03]].
Proof. reflexivity. Qed.

Example three_leaf_proof_last :
  getProof Examples.toyHash [[x01]; [x02]; [x03]] [x03]
  = [Examples.toyHash [x01; x02]].
Proof. reflexivity. Qed.

Example absent_leaf_has_no_proof :
  getProof Examples.toyHash [[x01]; [x02]; [x03]] [x04] = [].
Proof. reflexivity. Qed.

End MerkleFacts.

(** ** ABI encoding *)

Module AbiFacts.
Import Viem Abi.
Local Open Scope Z_scope.

Lemma bytesOfZ_length (k fuel : nat) (n : Z) (acc : Hex) :
  0 <= n < 256 ^ Z.of_nat k ->
  (length (bytesOfZ fuel n acc) <= k + length acc)%nat.
Proof.
  revert k n acc. induction fuel as [|f IH]; intros k n acc Hn.
  - cbn. lia.
  - cbn [bytesOfZ]. destruct (n <=? 0) eqn:E; [lia|].
    apply Z.leb_gt in E.
    destruct k as [|k]; [cbn in Hn; lia|].
    rewrite Nat2Z.inj_succ, Z.pow_succ_r in Hn by lia.
    assert (Hq : 0 <= n / 256 < 256 ^ Z.of_nat k).
    { split; [apply Z.div_pos; lia|].
      apply Z.div_lt_upper_bound; lia. }
    specialize (IH k (n / 256) (byteOfZ n :: acc) Hq).
    cbn [length] in IH. lia.
Qed.

Lemma pad_length (h w : Hex) (n : nat) :
  pad h n = Ok w -> length w = n.
Proof.
  unfold pad. destruct (n <? length h)%nat eqn:E; [discriminate|].
  intros H. inversion H; subst w. apply Nat.ltb_ge in E.
  rewrite length_app, repeat_length. lia.
Qed.

Lemma encodeUint256_length (n : Z) (w : Hex) :
  encodeUint256 n = Ok w -> length w = 32%nat.
Proof.
  unfold encodeUint256.
  destruct ((n <? 0) || (maxUint256 <? n)); [discriminate|].
  unfold toHex. destruct (n <? 0); [discriminate|]. cbn [bindR].
  apply pad_length.
Qed.

Lemma encodeUint256_ok (n : Z) :
  0 <= n <= maxUint256 -> exists w, encodeUint256 n = Ok w.
Proof.
  intros Hn. unfold encodeUint256.
  destruct (n <? 0) eqn:E1; [apply Z.ltb_lt in E1; lia|].
  destruct (maxUint256 <? n) eqn:E2; [apply Z.ltb_lt in E2; lia|].
  cbn [orb]. unfold toHex. rewrite E1. cbn [bindR]. unfold pad.
  pose proof (bytesOfZ_length 32 (S (Z.to_nat (Z.log2 n))) n []) as Hl.
  cbn [length] in Hl.
  destruct (32 <? _)%nat eqn:E3.
  - apply Nat.ltb_lt in E3.
    assert (0 <= n < 256 ^ Z.of_nat 32).
    { unfold maxUint256 in Hn. change (256 ^ Z.of_nat 32) with (2 ^ 256). lia. }
    specialize (Hl H). lia.
  - eauto.
Qed.

Lemma encodeUint256_small (n : nat) :
  Z.of_nat n <= 2 ^ 64 -> exists w, encodeUint256 (Z.of_nat n) = Ok w.
Proof.
  intros H. apply encodeUint256_ok. unfold maxUint256.
  assert (2 ^ 64 < 2 ^ 256 - 1) by (vm_compute; reflexivity). lia.
Qed.

Lemma padRight_length (h : Hex) :
  length (padRight h) = ceil32 (length h).
Proof.
  unfold padRight. rewrite length_app, repeat_length.
  assert (length h <= ceil32 (length h))%nat; [|lia].
  unfold ceil32.
  pose proof (Nat.div_mod_eq (length h + 31) 32) as Hm.
  pose proof (Nat.mod_upper_bound (length h + 31) 32). lia.
Qed.

Lemma encodeBytes_length (b e : Hex) :
  encodeBytes b = Ok e -> length e = (32 + ceil32 (length b))%nat.
Proof.
  unfold encodeBytes.
  destruct (encodeUint256 (Z.of_nat (length b))) as [w|] eqn:E;
    [|discriminate].
  cbn [bindR]. intros H. inversion H; subst e.
  rewrite length_app, padRight_length, (encodeUint256_length _ _ E).
  reflexivity.
Qed.

Lemma encodeBytes32s_ok (l : list Hex) :
  Forall (fun b => length b = 32%nat) l ->
  encodeBytes32s l = Ok (List.concat l).
Proof.
  induction 1 as [|b l Hb Hl IH]; [reflexivity|].
  cbn [encodeBytes32s]. rewrite Hb, Nat.eqb_refl, IH. reflexivity.
Qed.

(** The encoding of [(bytes32, bytes32[])]: the leaf, the offset of the
    array, its length and its elements. *)
Lemma encode_leaf_and_proof (leaf : Hex) (proof : list Hex) :
  length leaf = 32%nat ->
  Forall (fun b => length b = 32%nat) proof ->
  Z.of_nat (length proof) <= 2 ^ 64 ->
  exists offset len,
    encodeUint256 64 = Ok offset /\
    encodeUint256 (Z.of_nat (length proof)) = Ok len /\
    encodeAbiParameters [Bytes32 leaf; Bytes32Array proof]
    = Ok (leaf ++ offset ++ len ++ List.concat proof).
Proof.
  intros Hleaf Hproof Hlen.
  destruct (encodeUint256_small (length proof) Hlen) as [len Elen].
  destruct (encodeUint256_ok 64) as [offset Eoff];
    [unfold maxUint256; split; [lia | vm_compute; discriminate]|].
  exists offset, len. repeat split; try assumption.
  unfold encodeAbiParameters, encodeParams, encodeValue.
  cbn [encodeBytes32s isDynamic length]. rewrite Hleaf, Nat.eqb_refl.
  cbn [bindR]. rewrite Elen. cbn [bindR].
  rewrite (encodeBytes32s_ok _ Hproof). cbn [bindR].
  change (Z.of_nat (32 * 2 + 0)) with 64. rewrite Eoff. cbn [bindR fst snd].
  rewrite !app_nil_r, <- !app_assoc. reflexivity.
Qed.

(** The length of the encoding of
    [(bytes, string, uint256, uint256, uint256)]. *)
Lemma encode_webauthn_length (auth json : Hex) (loc r s : Z) (e : Hex) :
  encodeAbiParameters
    [Bytes auth; AbiString json; Uint256 loc; Uint256 r; Uint256 s] = Ok e ->
  length e = (224 + ceil32 (length auth) + ceil32 (length json))%nat.
Proof.
  unfold encodeAbiParameters, encodeParams, encodeValue.
  cbn [isDynamic length].
  destruct (encodeBytes auth) as [ea|] eqn:Ea; [|discriminate].
  cbn [bindR].
  destruct (encodeUint256 (Z.of_nat (32 * 5 + 0))) as [o1|] eqn:E1;
    [|discriminate].
  cbn [bindR].
  destruct (encodeBytes json) as [ej|] eqn:Ej; [|discriminate].
  cbn [bindR].
  destruct (encodeUint256 (Z.of_nat (32 * 5 + (0 + length ea)))) as [o2|] eqn:E2;
    [|discriminate].
  cbn [bindR].
  destruct (encodeUint256 loc) as [w3|] eqn:E3; [|discriminate].
  cbn [bindR].
  destruct (encodeUint256 r) as [w4|] eqn:E4; [|discriminate].
  cbn [bindR].
  destruct (encodeUint256 s) as [w5|] eqn:E5; [|discriminate].
  cbn [bindR fst snd]. intros H. inversion H; subst e.
  rewrite !length_app. cbn [length].
  rewrite (encodeUint256_length _ _ E1), (encodeUint256_length _ _ E2),
    (encodeUint256_length _ _ E3), (encodeUint256_length _ _ E4),
    (encodeUint256_length _ _ E5), (encodeBytes_length _ _ Ea),
    (encodeBytes_length _ _ Ej).
  lia.
Qed.

Lemma ceil32_le (n : nat) : (ceil32 n <= n + 31)%nat.
Proof.
  unfold ceil32.
  pose proof (Nat.div_mod_eq (n + 31) 32) as Hm. lia.
Qed.

Lemma encodeBytes_ok (b : Hex) :
  Z.of_nat (length b) <= 2 ^ 64 -> exists e, encodeBytes b = Ok e.
Proof.
  intros H. unfold encodeBytes.
  destruct (encodeUint256_small (length b) H) as [w Hw].
  rewrite Hw. cbn [bindR]. eauto.
Qed.

Lemma encode_webauthn_ok (auth json : Hex) (loc r s : Z) :
  Z.of_nat (length auth) <= 2 ^ 64 ->
  Z.of_nat (length json) <= 2 ^ 64 ->
  0 <= loc <= maxUint256 -> 0 <= r <= maxUint256 -> 0 <= s <= maxUint256 ->
  exists e,
    encodeAbiParameters
      [Bytes auth; AbiString json; Uint256 loc; Uint256 r; Uint256 s] = Ok e.
Proof.
  intros Ha Hj Hloc Hr Hs.
  unfold encodeAbiParameters, encodeParams, encodeValue.
  cbn [isDynamic length].
  destruct (encodeBytes_ok auth Ha) as [ea Ea]. rewrite Ea. cbn [bindR].
  assert (H264 : 2 ^ 64 + 300 < 2 ^ 256 - 1) by (vm_compute; reflexivity).
  destruct (encodeUint256_ok (Z.of_nat (32 * 5 + 0))) as [o1 E1];
    [unfold maxUint256; cbn; lia|].
  rewrite E1. cbn [bindR].
  destruct (encodeBytes_ok json Hj) as [ej Ej]. rewrite Ej. cbn [bindR].
  destruct (encodeUint256_ok (Z.of_nat (32 * 5 + (0 + length ea))))
    as [o2 E2].
  { rewrite (encodeBytes_length _ _ Ea). pose proof (ceil32_le (length auth)).
    unfold maxUint256. lia. }
  rewrite E2. cbn [bindR].
  destruct (encodeUint256_ok loc Hloc) as [w3 E3]. rewrite E3. cbn [bindR].
  destruct (encodeUint256_ok r Hr) as [w4 E4]. rewrite E4. cbn [bindR].
  destruct (encodeUint256_ok s Hs) as [w5 E5]. rewrite E5. cbn [bindR].
  eauto.
Qed.

End AbiFacts.

(** ** The verifier of the aggregate *)

Module VerifierFacts.
Import Viem MerkleTree SortedPairVerifier ViemFacts MerkleFacts.

(** On byte strings of one length the order of [Buffer.compare] is the
    order of the integers denoted. *)
Lemma Buffer_compare_value (a b : Hex) :
  length a = length b ->
  Buffer_compare a b = (hexToBigInt a ?= hexToBigInt b)%Z.
Proof.
  revert b. induction a as [|x a IH]; intros [|y b] Hl; try discriminate Hl;
    [reflexivity|].
  cbn [length] in Hl. injection Hl as Hl.
  cbn [Buffer_compare]. rewrite !hexToBigInt_cons, <- Hl.
  pose proof (hexToBigInt_bound a) as Ba.
  pose proof (hexToBigInt_bound b) as Bb. rewrite <- Hl in Bb.
  pose proof (byteVal_range x) as Rx. pose proof (byteVal_range y) as Ry.
  set (P := (256 ^ Z.of_nat (length a))%Z) in *.
  destruct (Z.compare_spec (byteVal x) (byteVal y)) as [E|L|G].
  - rewrite E, (IH b Hl). symmetry. apply Z.add_compare_mono_l.
  - symmetry. apply Z.compare_lt_iff. nia.
  - symmetry. apply Z.compare_gt_iff. nia.
Qed.

(** The pair hashing of the tree is the hashing in ascending order. *)
Lemma hashPair_ascending (keccak256 : Hex -> Hex) (a b : Hex) :
  length a = length b ->
  hashPair keccak256 a b = hashAscending keccak256 a b.
Proof.
  intros Hl. unfold hashPair, sortPair, hashAscending.
  rewrite (Buffer_compare_value a b Hl).
  destruct (Z.compare_spec (hexToBigInt a) (hexToBigInt b)) as [E|L|G];
    cbn [List.concat]; rewrite app_nil_r.
  - rewrite E, Z.ltb_irrefl. reflexivity.
  - destruct (hexToBigInt b <? hexToBigInt a)%Z eqn:Eb;
      [apply Z.ltb_lt in Eb; lia | reflexivity].
  - destruct (hexToBigInt b <? hexToBigInt a)%Z eqn:Eb;
      [reflexivity | apply Z.ltb_ge in Eb; lia].
Qed.

(** On 32-byte nodes the fold of the tree and the verifier agree. *)
Lemma processProof_rederiveRoot (keccak256 : Hex -> Hex)
      (proof : list Hex) (leaf : Hex) :
  (forall x, length (keccak256 x) = 32) ->
  length leaf = 32 -> Forall size32 proof ->
  processProof keccak256 proof leaf = rederiveRoot keccak256 proof leaf.
Proof.
  intros Hk Hleaf Hproof. unfold processProof, rederiveRoot.
  revert leaf Hleaf.
  induction Hproof as [|p proof Hp _ IH]; intros leaf Hleaf; [reflexivity|].
  cbn [fold_left].
  rewrite (hashPair_ascending keccak256 leaf p)
    by (rewrite Hleaf; symmetry; exact Hp).
  apply IH. unfold hashAscending.
  destruct (hexToBigInt p <? hexToBigInt leaf)%Z; apply Hk.
Qed.

Lemma rederiveRoot_size (keccak256 : Hex -> Hex) (proof : list Hex)
      (leaf : Hex) :
  (forall x, length (keccak256 x) = 32) -> length leaf = 32 ->
  length (rederiveRoot keccak256 proof leaf) = 32.
Proof.
  intros Hk. unfold rederiveRoot. revert leaf.
  induction proof as [|p proof IH]; intros leaf Hl; [exact Hl|].
  cbn [fold_left]. apply IH. unfold hashAscending.
  destruct (hexToBigInt p <? hexToBigInt leaf)%Z; apply Hk.
Qed.

(** A leaf that occurs nowhere further keeps the index found so far. *)
Lemma findLeaf_absent (leaf : Hex) (rest : list Hex) (i : nat)
      (index : option nat) :
  (forall x, In x rest -> x <> leaf) ->
  findLeaf leaf rest i index = index.
Proof.
  revert i index. induction rest as [|l rest IH]; intros i index Hne;
    [reflexivity|].
  cbn [findLeaf].
  destruct (Buffer_compare leaf l) eqn:E.
  - apply Buffer_compare_eq in E. exfalso.
    apply (Hne l); [left; reflexivity | symmetry; exact E].
  - apply IH. intros x Hx. apply Hne. right. exact Hx.
  - apply IH. intros x Hx. apply Hne. right. exact Hx.
Qed.

(** The proof of the first leaf starts with its neighbour, when the leaf
    occurs nowhere else. *)
Lemma getProof_first_leaf (keccak256 : Hex -> Hex) (leaf neighbour : Hex)
      (rest : list Hex) :
  (forall x, In x (neighbour :: rest) -> x <> leaf) ->
  exists upper,
    getProof keccak256 (leaf :: neighbour :: rest) leaf = neighbour :: upper.
Proof.
  intros Hne. unfold getProof. cbn [findLeaf].
  rewrite Buffer_compare_refl.
  destruct (Buffer_compare leaf neighbour) eqn:E.
  { apply Buffer_compare_eq in E. exfalso.
    apply (Hne neighbour); [left; reflexivity | symmetry; exact E]. }
  - rewrite findLeaf_absent by (intros x Hx; apply Hne; right; exact Hx).
    unfold layers. cbn [length createHashes].
    rewrite proofPath_cons. cbn. eauto.
  - rewrite findLeaf_absent by (intros x Hx; apply Hne; right; exact Hx).
    unfold layers. cbn [length createHashes].
    rewrite proofPath_cons. cbn. eauto.
Qed.

End VerifierFacts.

(** ** The multi-chain aggregate *)

Module MultiChainFacts.
Import Viem Abi MerkleTree MultiChain MerkleFacts AbiFacts.
Import SortedPairVerifier VerifierFacts.

Section Sizes.
Variable keccak256 : Hex -> Hex.
Hypothesis keccak256_size : forall x, length (keccak256 x) = 32.

Lemma nextLayer_sizes (nodes : list Hex) :
  Forall size32 nodes -> Forall size32 (nextLayer keccak256 nodes).
Proof.
  induction nodes as [nodes IH] using (well_founded_induction
    (Wf_nat.well_founded_ltof _ (@length Hex))).
  intros H. destruct nodes as [|x [|y rest]]; cbn [nextLayer]; auto.
  inversion H as [|? ? _ H1]; subst. inversion H1 as [|? ? _ H2]; subst.
  constructor.
  - apply keccak256_size.
  - apply IH; [unfold Wf_nat.ltof; cbn; lia | assumption].
Qed.

Lemma createHashes_sizes (fuel : nat) (nodes : list Hex) :
  Forall size32 nodes ->
  Forall (Forall size32) (createHashes keccak256 fuel nodes).
Proof.
  revert nodes. induction fuel as [|f IH]; intros nodes H;
    cbn [createHashes]; [auto|].
  destruct (1 <? length nodes); auto using nextLayer_sizes.
Qed.

Lemma proofPath_sizes (ls : list (list Hex)) (i : nat) :
  Forall (Forall size32) ls -> Forall size32 (proofPath ls i).
Proof.
  revert i. induction ls as [|layer ls IH]; intros i H; [constructor|].
  inversion H as [|? ? Hl Hls]; subst.
  rewrite proofPath_cons. apply Forall_app. split; [|auto].
  unfold sibling. destruct (_ <? length layer) eqn:E; [|constructor].
  apply Nat.ltb_lt in E. constructor; [|constructor].
  rewrite Forall_forall in Hl. apply Hl. apply nth_In. exact E.
Qed.

Lemma getProof_sizes (leaves : list Hex) (leaf : Hex) :
  Forall size32 leaves -> Forall size32 (getProof keccak256 leaves leaf).
Proof.
  intros H. unfold getProof.
  destruct (findLeaf leaf leaves 0 None); [|constructor].
  apply proofPath_sizes. unfold layers. apply createHashes_sizes. exact H.
Qed.

End Sizes.

Lemma dummyUserOpHash_size : size32 dummyUserOpHash.
Proof. reflexivity. Qed.

Lemma leavesOf_ok (userOpHash : Hex) (N : Z) :
  (1 <= N <= 2 ^ 32 - 1)%Z ->
  leavesOf userOpHash N
  = Ok (userOpHash :: repeat dummyUserOpHash (Z.to_nat (N - 1))).
Proof.
  intros HN. unfold leavesOf, arrayFill.
  destruct (N - 1 <? 0)%Z eqn:E1; [apply Z.ltb_lt in E1; lia|].
  destruct (2 ^ 32 - 1 <? N - 1)%Z eqn:E2; [apply Z.ltb_lt in E2; lia|].
  cbn [orb bindR].
  destruct (2 ^ 32 - 1 <? N)%Z eqn:E3; [apply Z.ltb_lt in E3; lia|].
  reflexivity.
Qed.

(** Outside the array lengths the engine allows there is no signature. *)
Lemma leavesOf_range_error (userOpHash : Hex) (N : Z) :
  (N < 1 \/ 2 ^ 32 <= N)%Z -> leavesOf userOpHash N = Err InvalidArrayLength.
Proof.
  intros HN. unfold leavesOf, arrayFill.
  destruct (N - 1 <? 0)%Z eqn:E1; [reflexivity|].
  destruct (2 ^ 32 - 1 <? N - 1)%Z eqn:E2; [reflexivity|].
  cbn [orb bindR].
  destruct (2 ^ 32 - 1 <? N)%Z eqn:E3; [reflexivity|].
  apply Z.ltb_ge in E1, E2, E3. lia.
Qed.

(** C5 (as amended).  For a fan-out count [N] from 1 to [2^32 - 1], the
    number of elements an array can hold, the dummy aggregate is the
    placeholder ECDSA signature, followed by the Merkle root, followed by
    the ABI encoding of the real leaf and its proof.  The tree is the
    sorted-pair tree over exactly [N] leaves: the real user-operation hash
    and [N - 1] copies of the one placeholder [dummyUserOpHash]; the
    embedded proof is the one [getProof] gives for the real leaf.  The root
    and every element of the proof have 32 bytes; a verifier that hashes
    in ascending order re-derives the root from the real leaf and the
    proof; and for two leaves or more, the real hash not being the
    placeholder itself, the proof starts with the neighbour of the real
    leaf, the placeholder. *)
Theorem getMultiUserOpDummySignature_aggregate :
  forall (keccak256 : Hex -> Hex)
         (getUserOperationHash : UserOperation -> Address -> Z -> Hex)
         (userOperation : UserOperation) (N : Z) (entryPoint : Address)
         (chainId : Z),
    (forall x, length (keccak256 x) = 32) ->
    length (getUserOperationHash userOperation entryPoint chainId) = 32 ->
    (1 <= N <= 2 ^ 32 - 1)%Z ->
    let realHash := getUserOperationHash userOperation entryPoint chainId in
    let leaves := realHash :: repeat dummyUserOpHash (Z.to_nat (N - 1)) in
    let root := MerkleTree.getRoot keccak256 leaves in
    let proof := MerkleTree.getProof keccak256 leaves realHash in
    exists encoded,
      leavesOf realHash N = Ok leaves /\
      Z.of_nat (length leaves) = N /\
      encodeAbiParameters [Bytes32 realHash; Bytes32Array proof] = Ok encoded /\
      getMultiUserOpDummySignature keccak256 getUserOperationHash
        userOperation N entryPoint chainId
      = Ok (dummyEcdsaSig ++ root ++ encoded) /\
      MerkleTree.verify keccak256 proof realHash root = true /\
      rederiveRoot keccak256 proof realHash = root /\
      length root = 32 /\
      Forall size32 proof /\
      ((2 <= N)%Z -> realHash <> dummyUserOpHash ->
       exists upper, proof = dummyUserOpHash :: upper).
Proof.
  intros keccak256 getUserOperationHash userOperation N entryPoint chainId
         Hk Hreal HN realHash leaves root proof.
  assert (Hleaves : Forall size32 leaves).
  { constructor; [exact Hreal|].
    apply Forall_forall. intros x Hx. apply repeat_spec in Hx. subst x.
    apply dummyUserOpHash_size. }
  assert (Hcount : Z.of_nat (length leaves) = N).
  { unfold leaves. cbn [length]. rewrite repeat_length. lia. }
  assert (Hplen : (Z.of_nat (length proof) <= 2 ^ 64)%Z).
  { pose proof (getProof_length keccak256 leaves realHash) as Hl.
    fold proof in Hl. lia. }
  assert (Hpsize : Forall size32 proof)
    by exact (getProof_sizes keccak256 Hk leaves realHash Hleaves).
  destruct (encode_leaf_and_proof realHash proof Hreal Hpsize Hplen)
    as (offset & len & _ & _ & Henc).
  assert (Hver : MerkleTree.verify keccak256 proof realHash root = true).
  { apply getProof_verifies. left. reflexivity. }
  assert (Hre : rederiveRoot keccak256 proof realHash = root).
  { unfold verify, Hex_eqb in Hver.
    destruct (Hex_eq_dec _ _) as [Heq|]; [|discriminate Hver].
    rewrite <- Heq. symmetry.
    apply processProof_rederiveRoot; assumption. }
  eexists. split; [apply leavesOf_ok; exact HN|].
  split; [exact Hcount|]. split; [exact Henc|]. split.
  { unfold getMultiUserOpDummySignature. fold realHash.
    rewrite (leavesOf_ok realHash N HN). cbn [bindR]. fold leaves.
    fold proof. rewrite Henc. cbn [bindR]. fold root.
    unfold concatHex. cbn [List.concat]. rewrite app_nil_r. reflexivity. }
  split; [exact Hver|]. split; [exact Hre|].
  split; [rewrite <- Hre; apply rederiveRoot_size; assumption|].
  split; [exact Hpsize|].
  intros H2 Hne. unfold proof, leaves.
  destruct (Z.to_nat (N - 1)) as [|k] eqn:Ek; [lia|].
  cbn [repeat]. apply getProof_first_leaf.
  intros x [Hx|Hx].
  - subst x. intros Heq. apply Hne. symmetry. exact Heq.
  - apply repeat_spec in Hx. subst x. intros Heq. apply Hne. symmetry.
    exact Heq.
Qed.

(** The statement applied to a two-chain fan-out with a toy hash. *)
Lemma getMultiUserOpDummySignature_aggregate_witness :
  exists encoded,
    leavesOf (repeat x01 32) 2 = Ok [repeat x01 32; dummyUserOpHash] /\
    Z.of_nat (length [repeat x01 32; dummyUserOpHash]) = 2%Z /\
    encodeAbiParameters
      [Bytes32 (repeat x01 32);
       Bytes32Array (MerkleTree.getProof Examples.toyHash
                       [repeat x01 32; dummyUserOpHash] (repeat x01 32))]
    = Ok encoded /\
    getMultiUserOpDummySignature Examples.toyHash (fun _ _ _ => repeat x01 32)
      Examples.sampleUserOperation 2 [] 1
    = Ok (dummyEcdsaSig
            ++ MerkleTree.getRoot Examples.toyHash [repeat x01 32; dummyUserOpHash]
            ++ encoded) /\
    MerkleTree.verify Examples.toyHash
      (MerkleTree.getProof Examples.toyHash [repeat x01 32; dummyUserOpHash]
         (repeat x01 32))
      (repeat x01 32)
      (MerkleTree.getRoot Examples.toyHash [repeat x01 32; dummyUserOpHash])
    = true /\
    rederiveRoot Examples.toyHash
      (MerkleTree.getProof Examples.toyHash [repeat x01 32; dummyUserOpHash]
         (repeat x01 32))
      (repeat x01 32)
    = MerkleTree.getRoot Examples.toyHash [repeat x01 32; dummyUserOpHash] /\
    length (MerkleTree.getRoot Examples.toyHash
              [repeat x01 32; dummyUserOpHash]) = 32 /\
    Forall size32
      (MerkleTree.getProof Examples.toyHash [repeat x01 32; dummyUserOpHash]
         (repeat x01 32)) /\
    ((2 <= 2)%Z -> repeat x01 32 <> dummyUserOpHash ->
     exists upper,
       MerkleTree.getProof Examples.toyHash [repeat x01 32; dummyUserOpHash]
         (repeat x01 32)
       = dummyUserOpHash :: upper).
Proof.
  refine (getMultiUserOpDummySignature_aggregate
            Examples.toyHash
            (fun _ _ _ => repeat x01 32)
            Examples.sampleUserOperation 2 [] 1 _ _ _).
  - intros x. unfold Examples.toyHash.
    rewrite firstn_length_le; [reflexivity|].
    rewrite length_app, repeat_length. lia.
  - reflexivity.
  - lia.
Defined.

(** C5 (as stated) fails.  The claim is made for every fan-out count from 1
    on; for the count [2^32] the array of the [2^32 - 1] fillers is within
    the length an array can have, but the array of the leaves, one element
    longer, is not: the leaves cannot be built and there is no signature,
    whatever the user operation hashes to. *)
Lemma fan_out_beyond_array_length_gives_no_signature :
  leavesOf (repeat x01 32) (2 ^ 32) = Err InvalidArrayLength /\
  getMultiUserOpDummySignature Examples.toyHash (fun _ _ _ => repeat x01 32)
    Examples.sampleUserOperation (2 ^ 32) [] 1
  = Err InvalidArrayLength.
Proof.
  assert (H : leavesOf (repeat x01 32) (2 ^ 32) = Err InvalidArrayLength)
    by (apply leavesOf_range_error; right; lia).
  split; [exact H|].
  unfold getMultiUserOpDummySignature. rewrite H. reflexivity.
Qed.

(** With three leaves the tree has two levels above the leaves: the real
    leaf is hashed with the first filler, and the result with the second
    one, which moved up unchanged. *)
Lemma three_leaves_root (keccak256 : Hex -> Hex) (a b c : Hex) :
  MerkleTree.getRoot keccak256 [a; b; c]
  = hashPair keccak256 (hashPair keccak256 a b) c.
Proof. reflexivity. Qed.

Lemma findLeaf_three (realHash filler : Hex) :
  findLeaf realHash [realHash; filler; filler] 0 None
  = Some (if Hex_eqb realHash filler then 2 else 0).
Proof.
  cbn [findLeaf]. rewrite Buffer_compare_refl.
  unfold Hex_eqb. destruct (Hex_eq_dec realHash filler) as [->|Hne].
  - rewrite Buffer_compare_refl. reflexivity.
  - destruct (Buffer_compare realHash filler) eqn:E; try reflexivity.
    apply Buffer_compare_eq in E. contradiction.
Qed.

Lemma getProof_three (keccak256 : Hex -> Hex) (realHash : Hex) :
  MerkleTree.getProof keccak256
    [realHash; dummyUserOpHash; dummyUserOpHash] realHash
  = (if Hex_eqb realHash dummyUserOpHash
     then [keccak256 (dummyUserOpHash ++ dummyUserOpHash)]
     else [dummyUserOpHash; dummyUserOpHash]).
Proof.
  unfold getProof. rewrite findLeaf_three.
  unfold Hex_eqb.
  destruct (Hex_eq_dec realHash dummyUserOpHash) as [->|Hne].
  - cbn [layers createHashes length Nat.ltb Nat.leb nextLayer proofPath
         Nat.odd Nat.even Nat.sub Nat.add nth Nat.div Nat.divmod fst app].
    unfold hashPair, sortPair. rewrite Buffer_compare_refl.
    cbn [List.concat]. rewrite app_nil_r. reflexivity.
  - reflexivity.
Qed.

(** C7 (as amended).  For a fan-out of three the leaves are
    [realHash, filler, filler]; the root is the digest of the sorted pair
    made of the second filler and the digest of the sorted pair
    (realHash, filler); and, realHash not being the filler itself, the
    inclusion proof of the real leaf is [filler, filler]: its length is 2,
    one sibling per level below the root. *)
Theorem three_chain_tree_shape :
  forall (keccak256 : Hex -> Hex) (realHash : Hex),
    realHash <> dummyUserOpHash ->
    leavesOf realHash 3 = Ok [realHash; dummyUserOpHash; dummyUserOpHash] /\
    MerkleTree.getRoot keccak256 [realHash; dummyUserOpHash; dummyUserOpHash]
    = keccak256
        (List.concat
           (sortPair
              (keccak256 (List.concat (sortPair realHash dummyUserOpHash)))
              dummyUserOpHash)) /\
    MerkleTree.getProof keccak256
      [realHash; dummyUserOpHash; dummyUserOpHash] realHash
    = [dummyUserOpHash; dummyUserOpHash] /\
    length (MerkleTree.getProof keccak256
              [realHash; dummyUserOpHash; dummyUserOpHash] realHash) = 2.
Proof.
  intros keccak256 realHash Hne.
  assert (Hb : Hex_eqb realHash dummyUserOpHash = false).
  { unfold Hex_eqb. destruct (Hex_eq_dec _ _); [contradiction|reflexivity]. }
  split; [reflexivity|]. split; [apply three_leaves_root|].
  rewrite getProof_three, Hb. split; reflexivity.
Qed.

(** The statement on the real hash [0x0101...01], with the toy hash. *)
Lemma three_chain_tree_shape_witness :
  leavesOf (repeat x01 32) 3
  = Ok [repeat x01 32; dummyUserOpHash; dummyUserOpHash] /\
  MerkleTree.getRoot Examples.toyHash
    [repeat x01 32; dummyUserOpHash; dummyUserOpHash]
  = Examples.toyHash
      (List.concat
         (sortPair
            (Examples.toyHash
               (List.concat (sortPair (repeat x01 32) dummyUserOpHash)))
            dummyUserOpHash)) /\
  MerkleTree.getProof Examples.toyHash
    [repeat x01 32; dummyUserOpHash; dummyUserOpHash] (repeat x01 32)
  = [dummyUserOpHash; dummyUserOpHash] /\
  length (MerkleTree.getProof Examples.toyHash
            [repeat x01 32; dummyUserOpHash; dummyUserOpHash]
            (repeat x01 32)) = 2.
Proof.
  apply (three_chain_tree_shape Examples.toyHash (repeat x01 32)).
  intros H. discriminate H.
Defined.

(** C7 (as stated) fails: for the real hash [0x0101...01] and a fan-out of
    three the leaves are [realHash, filler, filler], and whatever the hash
    function, the inclusion proof of the real leaf does not have length 1
    (it has length 2). *)
Lemma three_chain_proof_length_is_not_one :
  leavesOf (repeat x01 32) 3
  = Ok [repeat x01 32; dummyUserOpHash; dummyUserOpHash] /\
  ~ (exists keccak256 : Hex -> Hex,
        length (MerkleTree.getProof keccak256
                  [repeat x01 32; dummyUserOpHash; dummyUserOpHash]
                  (repeat x01 32)) = 1).
Proof.
  split; [reflexivity|].
  intros [keccak256 H].
  rewrite getProof_three in H. discriminate H.
Qed.

End MultiChainFacts.

(** ** The plugin manager *)

Module ManagerFacts.
Import Viem PluginManager ViemFacts.

(** Unfolds the monadic plumbing of the manager's methods. *)
Ltac run_manager :=
  unfold signUserOperation, getDummySignature, envelope, getSignatureData,
    getPluginEnableSignature, isPluginEnabled, getNonceKey,
    getEncodedPluginsDataV1, getEncodedPluginsDataV2,
    sudoSignTypedData, readPluginEnableSignature, writePluginEnableSignature,
    bind, lift, ret, throw.

Lemma toKernelPluginManager_inv (host : Host) (p : Params)
      (m : KernelPluginManager) :
  toKernelPluginManager host p = Ok m ->
  params m = p /\
  match regular p with
  | Some r => activeValidator m = r
  | None => sudo p = Some (activeValidator m)
  end.
Proof.
  unfold toKernelPluginManager.
  destruct (getChainId host) as [c|]; [|discriminate]. cbn [bindR].
  destruct (regular p) as [r|] eqn:Er.
  - intros H. inversion H; subst m. cbn. auto.
  - destruct (sudo p) as [s|] eqn:Es; [|discriminate].
    intros H. inversion H; subst m. cbn. auto.
Qed.

Lemma isPluginEnabled_state (host : Host) (m : KernelPluginManager)
      (a : Address) (sel : Hex) (st : State) :
  snd (isPluginEnabled host m a sel st) = st.
Proof.
  run_manager. destruct (regular (params m)) as [r|]; [|reflexivity].
  destruct (entryPointVersion (params m)); [reflexivity|].
  destruct (Validator.isEnabled r a (selector (executorData m))) as [[|]|];
    reflexivity.
Qed.

(** Under v0.7 the selector handed to [isPluginEnabled] is not read: the
    check is made for the selector of the executor data. *)
Lemma isPluginEnabled_v07_selector (host : Host) (m : KernelPluginManager)
      (a : Address) (sel sel' : Hex) (st : State) :
  entryPointVersion (params m) = v0_7 ->
  isPluginEnabled host m a sel st = isPluginEnabled host m a sel' st.
Proof.
  intros Hv. run_manager. rewrite Hv. reflexivity.
Qed.

(** The text of a Hex value is never the empty string: the guard of the
    v0.6 assembly lets every Hex value through, the zero-length one too. *)
Lemma truthy_always (h : Hex) : truthy h = true.
Proof. reflexivity. Qed.

(** Under v0.7 a regular validator counts as enabled when its [isEnabled]
    says so for the selector of the executor data, or else when the account
    reports the plugin as initialised. *)
Lemma isPluginEnabled_v07 (host : Host) (m : KernelPluginManager)
      (r : KernelValidator) (a : Address) (sel : Hex) (st : State)
      (byFlag : bool) :
  entryPointVersion (params m) = v0_7 ->
  regular (params m) = Some r ->
  (Validator.isEnabled r a (selector (executorData m)) = Ok true ->
   isPluginEnabled host m a sel st = (Ok true, st))
  /\
  (Validator.isEnabled r a (selector (executorData m)) = Ok false ->
   isPluginInitialized host a (Validator.address r) = Ok byFlag ->
   isPluginEnabled host m a sel st = (Ok byFlag, st)).
Proof.
  intros Hv Hr. run_manager. rewrite Hv, Hr.
  split; intros H; rewrite H; [reflexivity|].
  intros H'. rewrite H'. reflexivity.
Qed.

(** C1.  The envelope of [signUserOperation] under v0.6, for a manager the
    constructor built and a user operation the active validator signs with
    [userOpSig]:
    - no regular validator: [0x00000000 || userOpSig] (SUDO);
    - a regular validator that [isEnabled] reports enabled for the account
      and the first four bytes of the call data: [0x00000001 || userOpSig]
      (PLUGIN);
    - a regular validator that [isEnabled] reports as not enabled: ENABLE,
      that is, with the enable signature [getPluginEnableSignature] yields
      and the enable data encoded around it, [0x00000002], the enable data,
      then [userOpSig]; there is no envelope only when the enable signature
      or the encoding is not to be had. *)
Theorem signUserOperation_v06_mode_and_envelope :
  forall (host : Host) (p : Params) (m : KernelPluginManager)
         (userOperation : UserOperation) (userOpSig : Hex) (st : State),
    toKernelPluginManager host p = Ok m ->
    entryPointVersion p = v0_6 ->
    Validator.signUserOperation (activeValidator m) userOperation
    = Ok userOpSig ->
    (regular p = None ->
     signUserOperation host m userOperation st
     = (Ok (hex "0x00000000" ++ userOpSig), st))
    /\
    (forall r,
        regular p = Some r ->
        Validator.isEnabled r (sender userOperation)
          (firstn 4 (callData userOperation)) = Ok true ->
        signUserOperation host m userOperation st
        = (Ok (hex "0x00000001" ++ userOpSig), st))
    /\
    (forall r,
        regular p = Some r ->
        Validator.isEnabled r (sender userOperation)
          (firstn 4 (callData userOperation)) = Ok false ->
        signUserOperation host m userOperation st
        = (bindR (fst (getPluginEnableSignature host m
                         (sender userOperation) st))
             (fun enableSignature =>
              bindR (encodeEnableDataV1 host (sender userOperation)
                       (validUntil p) (validAfter p) r
                       (executor (executorData m)) enableSignature)
                (fun enableData =>
                 Ok (hex "0x00000002" ++ enableData ++ userOpSig))),
           snd (getPluginEnableSignature host m (sender userOperation) st))).
Proof.
  intros host p m userOperation userOpSig st Hm Hv Hsig.
  destruct (toKernelPluginManager_inv host p m Hm) as [Hp Hact].
  repeat split.
  - intros Hr. rewrite Hr in Hact.
    unfold signUserOperation, envelope, getSignatureData, bind, lift, ret, throw.
    rewrite Hsig, Hp, Hv, Hr, Hact. unfold concatHex. cbn [List.concat].
    rewrite app_nil_r. reflexivity.
  - intros r Hr Hen.
    unfold signUserOperation, envelope, getSignatureData, isPluginEnabled,
      bind, lift, ret, throw, slice_0_10.
    rewrite Hsig, Hp, Hv, Hr, Hen. unfold concatHex. cbn [List.concat].
    rewrite app_nil_r. reflexivity.
  - intros r Hr Hen.
    unfold signUserOperation, envelope, getSignatureData, isPluginEnabled,
      bind, lift, ret, throw, slice_0_10.
    rewrite Hsig, Hp, Hv, Hr, Hen.
    destruct (getPluginEnableSignature host m (sender userOperation) st)
      as [[enableSignature|e] st'] eqn:Hget; cbn [fst snd bindR];
      [|reflexivity].
    rewrite truthy_always. cbn [negb].
    unfold getEncodedPluginsDataV1.
    destruct (encodeEnableDataV1 _ _ _ _ _ _ _) as [enableData|e];
      cbn [bindR]; [|reflexivity].
    unfold concatHex. cbn [List.concat].
    rewrite !app_nil_r, <- app_assoc. reflexivity.
Qed.

Lemma sampleManager_built (v : EntryPointVersion)
      (s r : option KernelValidator) (presupplied : option Hex)
      (active : KernelValidator) :
  (match r with Some x => Some x | None => s end) = Some active ->
  toKernelPluginManager Examples.sampleHost
    (Examples.sampleParams v s r presupplied)
  = Ok (Examples.sampleManager v s r presupplied active).
Proof.
  intros H. unfold toKernelPluginManager. cbn. rewrite H. reflexivity.
Qed.

(** The ENABLE case of the statement, on the sample manager whose regular
    validator is not enabled and whose sudo validator signs the enable
    typed data. *)
Lemma signUserOperation_v06_mode_and_envelope_witness :
  fst (signUserOperation Examples.sampleHost
         (Examples.sampleManager v0_6 (Some Examples.sampleSudo)
            (Some Examples.sampleRegular) None Examples.sampleRegular)
         Examples.sampleUserOperation
         (initialState (Examples.sampleParams v0_6 (Some Examples.sampleSudo)
                          (Some Examples.sampleRegular) None)))
  = Ok (hex "0x00000002"
          ++ (repeat x77 20 ++ repeat x22 20 ++ zeroAddress ++ repeat x11 65)
          ++ repeat x55 65).
Proof.
  pose proof (signUserOperation_v06_mode_and_envelope
                Examples.sampleHost
                (Examples.sampleParams v0_6 (Some Examples.sampleSudo)
                   (Some Examples.sampleRegular) None)
                (Examples.sampleManager v0_6 (Some Examples.sampleSudo)
                   (Some Examples.sampleRegular) None Examples.sampleRegular)
                Examples.sampleUserOperation (repeat x55 65)
                (initialState (Examples.sampleParams v0_6
                                 (Some Examples.sampleSudo)
                                 (Some Examples.sampleRegular) None))
                (sampleManager_built v0_6 (Some Examples.sampleSudo)
                   (Some Examples.sampleRegular) None Examples.sampleRegular
                   eq_refl)
                eq_refl eq_refl) as [_ [_ H]].
  rewrite (H Examples.sampleRegular eq_refl eq_refl).
  reflexivity.
Defined.

Lemma nonceKeyBytes_length (mode vt ident : Hex) (k : Z) :
  length mode = 1 -> length vt = 1 -> length ident = 20 ->
  length (nonceKeyBytes mode vt ident k) = 24.
Proof.
  intros H1 H2 H3. unfold nonceKeyBytes.
  rewrite !length_app, H1, H2, H3. reflexivity.
Qed.

(** The pure tail of [getNonceKey]: sub-key, concatenation, padding and
    conversion to an integer. *)
Lemma nonceKey_tail (mode vt ident : Hex) (k : Z) (st : State) :
  length mode = 1 -> length vt = 1 -> length ident = 20 ->
  (0 <= k < 2 ^ 16)%Z ->
  bind (lift (toHex k)) (fun subKeyHex =>
  bind (lift (pad subKeyHex 2)) (fun subKey =>
  bind (lift (pad (concatHex [mode; vt; ident; subKey]) 24)) (fun padded =>
  lift (BigInt padded)))) st
  = (Ok (hexToBigInt (nonceKeyBytes mode vt ident k)), st).
Proof.
  intros H1 H2 H3 Hk.
  pose proof (pad_toHex_2 k Hk) as Hsub.
  pose proof (nonceKeyBytes_length mode vt ident k H1 H2 H3) as Hlen.
  unfold bind, lift.
  destruct (toHex k) as [h|] eqn:Eh; [|discriminate Hsub].
  cbn [bindR] in Hsub. cbv beta iota. rewrite Hsub. cbv beta iota.
  match goal with
  | |- context [pad ?x 24] => replace x with (nonceKeyBytes mode vt ident k)
  end.
  2:{ unfold concatHex, nonceKeyBytes. cbn [List.concat].
      rewrite app_nil_r. reflexivity. }
  rewrite (pad_exact _ 24 Hlen). unfold BigInt.
  destruct (nonceKeyBytes mode vt ident k) eqn:E; [discriminate Hlen|].
  reflexivity.
Qed.

(** C2 (as amended).  The nonce key under v0.7, for a manager the
    constructor built, one-byte mode and type codes, a 20-byte identifier of
    the active validator and a sub-key [k] below [2^16]: [getNonceKey]
    returns the big-endian integer of the 24 bytes
    [mode || validatorType || identifier || k on two bytes].  The type is
    the regular validator's, or SUDO when there is none.  The mode is ENABLE
    exactly when a regular validator exists, its [isEnabled] answers false
    for the account and the selector of the executor data, and the account
    does not report the plugin as initialised either; it is DEFAULT with no
    regular validator, when [isEnabled] answers true, and when
    [isPluginInitialized] answers true.  A failing read is the error of
    [getNonceKey]. *)
Theorem getNonceKey_v07_big_endian_key :
  forall (host : Host) (constants : Constants) (p : Params)
         (m : KernelPluginManager) (accountAddress : Address) (st : State)
         (k : Z),
    toKernelPluginManager host p = Ok m ->
    entryPointVersion p = v0_7 ->
    length (VALIDATOR_MODE_DEFAULT constants) = 1 ->
    length (VALIDATOR_MODE_ENABLE constants) = 1 ->
    (forall t, length (VALIDATOR_TYPE constants t) = 1) ->
    length (Validator.getIdentifier (activeValidator m)) = 20 ->
    Validator.getNonceKey (activeValidator m) = Ok k ->
    (0 <= k < 2 ^ 16)%Z ->
    let key (mode validatorType : Hex) :=
      nonceKeyBytes mode validatorType
        (Validator.getIdentifier (activeValidator m)) k in
    let modeDefault := VALIDATOR_MODE_DEFAULT constants in
    let modeEnable := VALIDATOR_MODE_ENABLE constants in
    (regular p = None ->
     length (key modeDefault (VALIDATOR_TYPE constants SUDO)) = 24 /\
     getNonceKey host constants m accountAddress st
     = (Ok (hexToBigInt (key modeDefault (VALIDATOR_TYPE constants SUDO))),
        st))
    /\
    (forall r,
        regular p = Some r ->
        let validatorType :=
          VALIDATOR_TYPE constants (Validator.validatorType r) in
        let enabledForSelector :=
          Validator.isEnabled r accountAddress (selector (executorData m)) in
        let initialized :=
          isPluginInitialized host accountAddress (Validator.address r) in
        length (key modeDefault validatorType) = 24 /\
        length (key modeEnable validatorType) = 24 /\
        (enabledForSelector = Ok true ->
         getNonceKey host constants m accountAddress st
         = (Ok (hexToBigInt (key modeDefault validatorType)), st)) /\
        (enabledForSelector = Ok false -> initialized = Ok true ->
         getNonceKey host constants m accountAddress st
         = (Ok (hexToBigInt (key modeDefault validatorType)), st)) /\
        (enabledForSelector = Ok false -> initialized = Ok false ->
         getNonceKey host constants m accountAddress st
         = (Ok (hexToBigInt (key modeEnable validatorType)), st)) /\
        (forall e, enabledForSelector = Err e ->
                   getNonceKey host constants m accountAddress st
                   = (Err e, st)) /\
        (forall e, enabledForSelector = Ok false -> initialized = Err e ->
                   getNonceKey host constants m accountAddress st
                   = (Err e, st))).
Proof.
  intros host constants p m accountAddress st k Hm Hv Hd He Ht Hid Hk Hrange
         key modeDefault modeEnable.
  destruct (toKernelPluginManager_inv host p m Hm) as [Hp Hact].
  assert (Hkey : forall mode vt,
             length mode = 1 -> length vt = 1 -> length (key mode vt) = 24).
  { intros mode vt H1 H2. apply nonceKeyBytes_length; assumption. }
  split.
  - intros Hr. split; [apply Hkey; auto|].
    unfold getNonceKey. rewrite Hp, Hv, Hr.
    unfold bind at 1. unfold ret at 1. cbv beta iota zeta.
    unfold bind at 1. unfold lift at 1. rewrite Hk. cbv beta iota.
    apply nonceKey_tail; auto.
  - intros r Hr validatorType enabledForSelector initialized.
    assert (Hrun : forall enabled,
               isPluginEnabled host m accountAddress
                 (selector (executorData m)) st = (Ok enabled, st) ->
               getNonceKey host constants m accountAddress st
               = (Ok (hexToBigInt
                        (key (if enabled then modeDefault else modeEnable)
                             validatorType)), st)).
    { intros enabled Hen. unfold getNonceKey. rewrite Hp, Hv, Hr.
      unfold bind at 1. unfold bind at 1. rewrite Hen.
      unfold ret at 1. cbv beta iota zeta.
      unfold bind at 1. unfold lift at 1. rewrite Hk. cbv beta iota.
      apply nonceKey_tail; [destruct enabled; assumption | apply Ht | auto
                            | auto]. }
    assert (Hfail : forall e,
               isPluginEnabled host m accountAddress
                 (selector (executorData m)) st = (Err e, st) ->
               getNonceKey host constants m accountAddress st = (Err e, st)).
    { intros e Hen. unfold getNonceKey. rewrite Hp, Hv, Hr.
      unfold bind at 1. unfold bind at 1. rewrite Hen. reflexivity. }
    assert (Hcheck : isPluginEnabled host m accountAddress
                       (selector (executorData m)) st
                     = (match enabledForSelector with
                        | Ok true => Ok true
                        | Ok false => initialized
                        | Err e => Err e
                        end, st)).
    { unfold isPluginEnabled, bind, lift, ret. rewrite Hp, Hr, Hv.
      fold enabledForSelector. fold initialized.
      destruct enabledForSelector as [[|]|]; reflexivity. }
    split; [apply Hkey; [assumption | apply Ht]|].
    split; [apply Hkey; [assumption | apply Ht]|].
    split; [|split; [|split; [|split]]].
    + intros H. rewrite H in Hcheck. exact (Hrun true Hcheck).
    + intros H H'. rewrite H, H' in Hcheck. exact (Hrun true Hcheck).
    + intros H H'. rewrite H, H' in Hcheck. exact (Hrun false Hcheck).
    + intros e H. rewrite H in Hcheck. exact (Hfail e Hcheck).
    + intros e H H'. rewrite H, H' in Hcheck. exact (Hfail e Hcheck).
Qed.

(** The statement on the sample manager under v0.7: the regular validator
    (type PERMISSION, identifier [0x33...33], sub-key 5) answers that it is
    not enabled, and the account does not report it as initialised, so the
    key starts with the ENABLE code. *)
Lemma getNonceKey_v07_big_endian_key_witness :
  getNonceKey Examples.sampleHost Examples.sampleConstants
    (Examples.sampleManager v0_7 (Some Examples.sampleSudo)
       (Some Examples.sampleRegular) None Examples.sampleRegular)
    zeroAddress
    (initialState (Examples.sampleParams v0_7 (Some Examples.sampleSudo)
                     (Some Examples.sampleRegular) None))
  = (Ok (hexToBigInt (nonceKeyBytes [x01] [x02] (repeat x33 20) 5)),
     initialState (Examples.sampleParams v0_7 (Some Examples.sampleSudo)
                     (Some Examples.sampleRegular) None)).
Proof.
  refine (proj1 (proj2 (proj2 (proj2 (proj2
            (proj2 (getNonceKey_v07_big_endian_key
                      Examples.sampleHost Examples.sampleConstants
                      (Examples.sampleParams v0_7
                         (Some Examples.sampleSudo)
                         (Some Examples.sampleRegular) None)
                      (Examples.sampleManager v0_7
                         (Some Examples.sampleSudo)
                         (Some Examples.sampleRegular) None
                         Examples.sampleRegular)
                      zeroAddress
                      (initialState (Examples.sampleParams v0_7
                                       (Some Examples.sampleSudo)
                                       (Some Examples.sampleRegular) None))
                      5%Z _ _ _ _ _ _ _ _)
               Examples.sampleRegular eq_refl))))) eq_refl eq_refl).
  - apply sampleManager_built. reflexivity.
  - reflexivity.
  - reflexivity.
  - reflexivity.
  - intros []; reflexivity.
  - reflexivity.
  - reflexivity.
  - lia.
Defined.

(** C2 (as stated) fails.  The sample manager under v0.7 has a regular
    validator whose [isEnabled] answers false for the action selector, on
    an account that reports the plugin as initialised.  The regular
    validator exists and is not enabled for the action selector, and yet the
    nonce key starts with the DEFAULT code [0x00], not with the ENABLE code
    [0x01]: it is not the key the claim gives. *)
Lemma plugin_initialized_flag_gives_default_mode :
  let p := Examples.sampleParams v0_7 (Some Examples.sampleSudo)
             (Some Examples.sampleRegular) None in
  let m := Examples.sampleManager v0_7 (Some Examples.sampleSudo)
             (Some Examples.sampleRegular) None Examples.sampleRegular in
  toKernelPluginManager Scenarios.initializedHost p = Ok m /\
  regular p = Some Examples.sampleRegular /\
  Validator.isEnabled Examples.sampleRegular zeroAddress
    (selector (executorData m)) = Ok false /\
  isPluginInitialized Scenarios.initializedHost zeroAddress
    (Validator.address Examples.sampleRegular) = Ok true /\
  getNonceKey Scenarios.initializedHost Examples.sampleConstants m
    zeroAddress (initialState p)
  = (Ok (hexToBigInt (nonceKeyBytes [x00] [x02] (repeat x33 20) 5)),
     initialState p) /\
  hexToBigInt (nonceKeyBytes [x00] [x02] (repeat x33 20) 5)
  <> hexToBigInt (nonceKeyBytes [x01] [x02] (repeat x33 20) 5).
Proof.
  cbv zeta.
  split; [reflexivity|]. split; [reflexivity|]. split; [reflexivity|].
  split; [reflexivity|]. split; [vm_compute; reflexivity|].
  vm_compute. discriminate.
Qed.

(** The positions of the four fields in the integer. *)
Lemma nonceKeyBytes_value (mode vt ident : Hex) (k : Z) :
  length mode = 1 -> length vt = 1 -> length ident = 20 ->
  (0 <= k < 2 ^ 16)%Z ->
  hexToBigInt (nonceKeyBytes mode vt ident k)
  = (hexToBigInt mode * 2 ^ 184 + hexToBigInt vt * 2 ^ 176
     + hexToBigInt ident * 2 ^ 16 + k)%Z.
Proof.
  intros H1 H2 H3 Hk. unfold nonceKeyBytes.
  rewrite !hexToBigInt_app. rewrite !length_app, H2, H3. cbn [length].
  rewrite !hexToBigInt_cons. cbn [length].
  rewrite !byteVal_byteOfZ.
  change (hexToBigInt []) with 0%Z.
  rewrite (Z.mod_small (k / 256) 256)
    by (split; [apply Z.div_pos; lia | apply Z.div_lt_upper_bound; lia]).
  change (Z.of_nat (1 + (20 + 2))) with 23%Z.
  change (Z.of_nat (20 + 2)) with 22%Z.
  change (Z.of_nat 2) with 2%Z. change (Z.of_nat 1) with 1%Z.
  change (Z.of_nat 0) with 0%Z.
  pose proof (Z.div_mod k 256 ltac:(lia)) as Hdm.
  change (256 ^ 23)%Z with (2 ^ 184)%Z. change (256 ^ 22)%Z with (2 ^ 176)%Z.
  change (256 ^ 2)%Z with (2 ^ 16)%Z. change (256 ^ 1)%Z with 256%Z.
  change (256 ^ 0)%Z with 1%Z.
  lia.
Qed.

(** *** The enable signature *)

(** C8.  A manager built with a pre-supplied enable signature returns it
    from every call of [getPluginEnableSignature], for any accounts and any
    number of calls: the state stays the initial one, so the signature is
    never replaced and the sudo validator's [signTypedData] is never called.
    Nothing is asked of the validators: the statement holds whether or not
    a sudo or a regular validator is configured. *)
Theorem getPluginEnableSignature_presupplied :
  forall (host : Host) (p : Params) (m : KernelPluginManager)
         (presupplied : Hex) (accounts : list Address),
    toKernelPluginManager host p = Ok m ->
    pluginEnableSignatureParam p = Some presupplied ->
    getPluginEnableSignatureCalls host m accounts (initialState p)
    = (map (fun _ => Ok presupplied) accounts, initialState p)
    /\ signTypedDataCalls (initialState p) = [].
Proof.
  intros host p m presupplied accounts _ Hpre.
  split; [|reflexivity].
  assert (Hst : pluginEnableSignature (initialState p) = Some presupplied)
    by exact Hpre.
  revert Hst. generalize (initialState p) as st. intros st Hst.
  induction accounts as [|a rest IH]; [reflexivity|].
  cbn [getPluginEnableSignatureCalls map].
  assert (Hcall : getPluginEnableSignature host m a st = (Ok presupplied, st)).
  { unfold getPluginEnableSignature, bind, readPluginEnableSignature, ret.
    rewrite Hst. reflexivity. }
  rewrite Hcall, IH. reflexivity.
Qed.

(** The statement on a sample manager that has no sudo validator at all:
    three calls, three times the pre-supplied signature. *)
Lemma getPluginEnableSignature_presupplied_witness :
  getPluginEnableSignatureCalls Examples.sampleHost
    (Examples.sampleManager v0_7 None (Some Examples.sampleRegular)
       (Some (repeat x66 65)) Examples.sampleRegular)
    [repeat x77 20; repeat x77 20; repeat x88 20]
    (initialState (Examples.sampleParams v0_7 None
                     (Some Examples.sampleRegular) (Some (repeat x66 65))))
  = ([Ok (repeat x66 65); Ok (repeat x66 65); Ok (repeat x66 65)],
     initialState (Examples.sampleParams v0_7 None
                     (Some Examples.sampleRegular) (Some (repeat x66 65)))).
Proof.
  exact (proj1 (getPluginEnableSignature_presupplied
                  Examples.sampleHost
                  (Examples.sampleParams v0_7 None
                     (Some Examples.sampleRegular) (Some (repeat x66 65)))
                  (Examples.sampleManager v0_7 None
                     (Some Examples.sampleRegular) (Some (repeat x66 65))
                     Examples.sampleRegular)
                  (repeat x66 65)
                  [repeat x77 20; repeat x77 20; repeat x88 20]
                  (sampleManager_built v0_7 None
                     (Some Examples.sampleRegular) (Some (repeat x66 65))
                     Examples.sampleRegular eq_refl)
                  eq_refl)).
Defined.

(** Under v0.6 a generated signature is stored: the call that generates it
    makes one signing ceremony, and leaves a state in which every later
    call returns the stored signature without a ceremony. *)
Lemma getPluginEnableSignature_v06_stores (host : Host)
      (m : KernelPluginManager) (a : Address) (st st' : State) (sig : Hex) :
  entryPointVersion (params m) = v0_6 ->
  pluginEnableSignature st = None ->
  getPluginEnableSignature host m a st = (Ok sig, st') ->
  pluginEnableSignature st' = Some sig /\
  length (signTypedDataCalls st') = S (length (signTypedDataCalls st)) /\
  forall accounts,
    getPluginEnableSignatureCalls host m accounts st'
    = (map (fun _ => Ok sig) accounts, st').
Proof.
  intros Hv Hnone Hcall.
  assert (Hst' : pluginEnableSignature st' = Some sig /\
                 length (signTypedDataCalls st')
                 = S (length (signTypedDataCalls st))).
  { revert Hcall.
    unfold getPluginEnableSignature, bind, readPluginEnableSignature, ret,
      throw, lift, sudoSignTypedData, writePluginEnableSignature.
    rewrite Hnone, Hv.
    destruct (sudo (params m)) as [sv|]; [|discriminate].
    destruct (regular (params m)) as [rv|]; [|discriminate].
    destruct (accountMetadata host a) as [mv|]; [|discriminate].
    destruct (getPluginsEnableTypedDataV1 _ _ _ _ _ _ _ _) as [td|];
      [|discriminate].
    destruct (Validator.signTypedData sv td) as [s|]; [|discriminate].
    intros H. inversion H; subst. cbn.
    rewrite length_app. cbn. split; [reflexivity | lia]. }
  destruct Hst' as [Hc Hl]. repeat split; try assumption.
  intros accounts. induction accounts as [|b rest IH]; [reflexivity|].
  cbn [getPluginEnableSignatureCalls map].
  assert (Hb : getPluginEnableSignature host m b st' = (Ok sig, st')).
  { unfold getPluginEnableSignature, bind, readPluginEnableSignature, ret.
    rewrite Hc. reflexivity. }
  rewrite Hb, IH. reflexivity.
Qed.

(** Under v0.7 a generated signature is not stored: a successful call
    leaves the closure variable unset, and has made one more ceremony. *)
Lemma getPluginEnableSignature_v07_does_not_store (host : Host)
      (m : KernelPluginManager) (a : Address) (st st' : State) (sig : Hex) :
  entryPointVersion (params m) = v0_7 ->
  pluginEnableSignature st = None ->
  getPluginEnableSignature host m a st = (Ok sig, st') ->
  pluginEnableSignature st' = None /\
  length (signTypedDataCalls st') = S (length (signTypedDataCalls st)).
Proof.
  intros Hv Hnone.
  unfold getPluginEnableSignature, bind, readPluginEnableSignature, ret,
    throw, lift, sudoSignTypedData, writePluginEnableSignature.
  rewrite Hnone, Hv.
  destruct (sudo (params m)) as [sv|]; [|discriminate].
  destruct (regular (params m)) as [rv|]; [|discriminate].
  destruct (accountMetadata host a) as [mv|]; [|discriminate].
  destruct (getKernelV3Nonce host a) as [n|]; [|discriminate].
  destruct (getPluginsEnableTypedDataV2 _ _ _ _ _ _ _) as [td|];
    [|discriminate].
  destruct (Validator.signTypedData sv td) as [s|]; [|discriminate].
  intros H. inversion H; subst. cbn.
  rewrite length_app. cbn. split; [assumption | lia].
Qed.

(** C3, on an explicit input.  The sample manager has a sudo and a regular
    validator and no pre-supplied signature; [getPluginEnableSignature] is
    called three times for the same account.  Under v0.7 each call succeeds
    and each makes a signing ceremony: three typed-data signatures, nothing
    stored.  Under v0.6, on the same input, the first call signs and stores,
    and the two others reuse the stored signature: one ceremony. *)
Lemma getPluginEnableSignature_v07_signs_on_every_call :
  let account := repeat x77 20 in
  let calls (v : EntryPointVersion) :=
    getPluginEnableSignatureCalls Examples.sampleHost
      (Examples.sampleManager v (Some Examples.sampleSudo)
         (Some Examples.sampleRegular) None Examples.sampleRegular)
      [account; account; account]
      (initialState (Examples.sampleParams v (Some Examples.sampleSudo)
                       (Some Examples.sampleRegular) None)) in
  fst (calls v0_7) = [Ok (repeat x11 65); Ok (repeat x11 65); Ok (repeat x11 65)]
  /\ length (signTypedDataCalls (snd (calls v0_7))) = 3
  /\ pluginEnableSignature (snd (calls v0_7)) = None
  /\ fst (calls v0_6) = [Ok (repeat x11 65); Ok (repeat x11 65); Ok (repeat x11 65)]
  /\ length (signTypedDataCalls (snd (calls v0_6))) = 1
  /\ pluginEnableSignature (snd (calls v0_6)) = Some (repeat x11 65).
Proof.
  cbv zeta. repeat split; vm_compute; reflexivity.
Qed.

(** *** The ENABLE envelope and the enable signature *)

(** When no signature is stored and no sudo validator is configured, none
    can be obtained. *)
Lemma getPluginEnableSignature_without_sudo (host : Host)
      (m : KernelPluginManager) (a : Address) (st : State) :
  sudo (params m) = None ->
  pluginEnableSignature st = None ->
  getPluginEnableSignature host m a st = (Err SudoValidatorNotSet, st).
Proof.
  intros Hs Hc.
  unfold getPluginEnableSignature, bind, readPluginEnableSignature, throw.
  rewrite Hc, Hs. reflexivity.
Qed.

Lemma getPluginEnableSignature_stored (host : Host)
      (m : KernelPluginManager) (a : Address) (st : State) (sig : Hex) :
  pluginEnableSignature st = Some sig ->
  getPluginEnableSignature host m a st = (Ok sig, st).
Proof.
  intros Hc.
  unfold getPluginEnableSignature, bind, readPluginEnableSignature, ret.
  rewrite Hc. reflexivity.
Qed.

(** C4 (as amended).  In ENABLE mode (a regular validator that the
    manager's check reports as not enabled) the envelope assembly
    [getSignatureData] needs an enable signature that can be obtained:
    - when none is stored and no sudo validator is configured, the v0.6 and
      the v0.7 assembly both fail, with the error "sudo validator not set"
      raised by [getPluginEnableSignature], and return no envelope;
    - a stored signature is embedded as it is, whatever its length: under
      v0.6 the result is [0x00000002] followed by the encoder's output (or
      the encoder's error), under v0.7 it is the encoder's result. *)
Theorem enable_envelope_needs_obtainable_signature :
  forall (host : Host) (p : Params) (m : KernelPluginManager)
         (r : KernelValidator) (accountAddress : Address)
         (sel userOpSignature : Hex) (st : State),
    toKernelPluginManager host p = Ok m ->
    regular p = Some r ->
    isPluginEnabled host m accountAddress sel st = (Ok false, st) ->
    (sudo p = None ->
     pluginEnableSignature st = None ->
     getSignatureData host m accountAddress sel userOpSignature st
     = (Err SudoValidatorNotSet, st))
    /\
    (forall enableSignature,
        pluginEnableSignature st = Some enableSignature ->
        getSignatureData host m accountAddress sel userOpSignature st
        = (match entryPointVersion p with
           | v0_6 =>
               bindR (encodeEnableDataV1 host accountAddress (validUntil p)
                        (validAfter p) r (executor (executorData m))
                        enableSignature)
                     (fun enableData => Ok (hex "0x00000002" ++ enableData))
           | v0_7 =>
               encodeEnableDataV2 host enableSignature (executorData m) r
                                  userOpSignature
           end, st)).
Proof.
  intros host p m r accountAddress sel userOpSignature st Hm Hr Hen.
  destruct (toKernelPluginManager_inv host p m Hm) as [Hp _].
  split.
  - intros Hs Hc.
    pose proof (getPluginEnableSignature_without_sudo host m accountAddress st)
      as Hget.
    rewrite Hp in Hget. specialize (Hget Hs Hc).
    unfold getSignatureData. rewrite Hp, Hr.
    destruct (entryPointVersion p) eqn:Hv.
    + unfold bind at 1. rewrite Hen. cbv beta iota.
      unfold bind at 1. rewrite Hget. reflexivity.
    + unfold bind at 1.
      rewrite (isPluginEnabled_v07_selector host m accountAddress _ sel st)
        by (rewrite Hp; exact Hv).
      rewrite Hen. cbv beta iota.
      unfold bind at 1. rewrite Hget. reflexivity.
  - intros enableSignature Hc.
    pose proof (getPluginEnableSignature_stored host m accountAddress st
                  enableSignature Hc) as Hget.
    unfold getSignatureData. rewrite Hp, Hr.
    destruct (entryPointVersion p) eqn:Hv.
    + unfold bind at 1. rewrite Hen. cbv beta iota.
      unfold bind at 1. rewrite Hget. cbv beta iota.
      rewrite truthy_always. cbn [negb].
      unfold lift, getEncodedPluginsDataV1.
      destruct (encodeEnableDataV1 _ _ _ _ _ _ _) as [d|]; [|reflexivity].
      cbn [bindR]. unfold concatHex. cbn [List.concat].
      rewrite app_nil_r. reflexivity.
    + unfold bind at 1.
      rewrite (isPluginEnabled_v07_selector host m accountAddress _ sel st)
        by (rewrite Hp; exact Hv).
      rewrite Hen. cbv beta iota.
      unfold bind at 1. rewrite Hget. reflexivity.
Qed.

(** The first case of the statement on a sample manager that has a regular
    validator only, under v0.7. *)
Lemma enable_envelope_needs_obtainable_signature_witness :
  getSignatureData Examples.sampleHost
    (Examples.sampleManager v0_7 None (Some Examples.sampleRegular) None
       Examples.sampleRegular)
    (repeat x77 20) (hex "0x51945447") (repeat x55 65)
    (initialState (Examples.sampleParams v0_7 None
                     (Some Examples.sampleRegular) None))
  = (Err SudoValidatorNotSet,
     initialState (Examples.sampleParams v0_7 None
                     (Some Examples.sampleRegular) None)).
Proof.
  refine (proj1 (enable_envelope_needs_obtainable_signature
                   Examples.sampleHost
                   (Examples.sampleParams v0_7 None
                      (Some Examples.sampleRegular) None)
                   (Examples.sampleManager v0_7 None
                      (Some Examples.sampleRegular) None
                      Examples.sampleRegular)
                   Examples.sampleRegular
                   (repeat x77 20) (hex "0x51945447") (repeat x55 65)
                   (initialState (Examples.sampleParams v0_7 None
                                    (Some Examples.sampleRegular) None))
                   _ _ _) _ _).
  - apply sampleManager_built. reflexivity.
  - reflexivity.
  - reflexivity.
  - reflexivity.
  - reflexivity.
Defined.

(** C4 (as stated) fails.  The sample manager is in ENABLE mode (its
    regular validator is not enabled) and was given the zero-length enable
    signature [0x].  The v0.6 assembly does not fail: the user operation is
    signed with the envelope [0x00000002], the enable data built around the
    empty signature, and the user-operation signature.  The v0.7 assembly
    returns an envelope as well. *)
Lemma empty_enable_signature_is_accepted :
  let m (v : EntryPointVersion) :=
    Examples.sampleManager v (Some Examples.sampleSudo)
      (Some Examples.sampleRegular) (Some []) Examples.sampleRegular in
  let st (v : EntryPointVersion) :=
    initialState (Examples.sampleParams v (Some Examples.sampleSudo)
                    (Some Examples.sampleRegular) (Some [])) in
  let op := Examples.sampleUserOperation in
  toKernelPluginManager Examples.sampleHost
    (Examples.sampleParams v0_6 (Some Examples.sampleSudo)
       (Some Examples.sampleRegular) (Some [])) = Ok (m v0_6)
  /\ fst (isPluginEnabled Examples.sampleHost (m v0_6) (sender op)
            (slice_0_10 (callData op)) (st v0_6)) = Ok false
  /\ fst (getPluginEnableSignature Examples.sampleHost (m v0_6) (sender op)
            (st v0_6)) = Ok []
  /\ fst (getSignatureData Examples.sampleHost (m v0_6) (sender op)
            (slice_0_10 (callData op)) [] (st v0_6))
     = Ok (hex "0x00000002"
             ++ (repeat x77 20 ++ repeat x22 20 ++ zeroAddress ++ []))
  /\ fst (signUserOperation Examples.sampleHost (m v0_6) op (st v0_6))
     = Ok (hex "0x00000002"
             ++ (repeat x77 20 ++ repeat x22 20 ++ zeroAddress ++ [])
             ++ repeat x55 65)
  /\ isOk (fst (getSignatureData Examples.sampleHost (m v0_7) (sender op)
                  (slice_0_10 (callData op)) (repeat x55 65) (st v0_7)))
     = true.
Proof.
  cbv zeta. repeat split; vm_compute; reflexivity.
Qed.

End ManagerFacts.

(** ** The passkey validators and the ECDSA kernel account *)

Module AccountFacts.
Import Viem Abi AbiFacts.

(** Both constructors return the object [buildValidator] describes. *)
Lemma passkey_validator_inv (host : Passkey.Host)
      (entryPoint validatorAddress : Address) (v : Passkey.WebAuthnValidator) :
  Passkey.createPasskeyValidator host entryPoint validatorAddress = Ok v \/
  Passkey.getPasskeyValidator host entryPoint validatorAddress = Ok v ->
  exists chainId pubKey idHash,
    Passkey.getChainId host = Ok chainId /\
    v = Passkey.buildValidator host entryPoint chainId validatorAddress
          pubKey idHash.
Proof.
  unfold Passkey.createPasskeyValidator, Passkey.getPasskeyValidator.
  intros [H|H].
  - destruct (Passkey.registerExchange host); [|discriminate].
    cbn [bindR] in H.
    destruct (Passkey.registerVerified host); [|discriminate].
    destruct (Passkey.registerPublicKey host) as [pk|]; [|discriminate].
    destruct (Passkey.registerKeyImport host); [|discriminate].
    destruct (Passkey.getChainId host) as [c|]; [|discriminate].
    cbn in H. inversion H. eauto.
  - destruct (Passkey.loginExchange host); [|discriminate].
    cbn [bindR] in H.
    destruct (Passkey.loginVerified host); [|discriminate].
    destruct (Passkey.loginPublicKey host) as [pk|]; [|discriminate].
    destruct (Passkey.loginKeyImport host); [|discriminate].
    destruct (Passkey.getChainId host) as [c|]; [|discriminate].
    cbn in H. inversion H. eauto.
Qed.

Lemma ecdsa_account_inv (host : EcdsaKernel.Host) (entryPoint : Address)
      (deployed : option Address) (a : EcdsaKernel.KernelSmartAccount) :
  EcdsaKernel.signerToEcdsaKernelSmartAccount host entryPoint deployed = Ok a ->
  exists accountAddress chainId,
    EcdsaKernel.getChainId host = Ok chainId /\
    a = {| EcdsaKernel.address := accountAddress;
           EcdsaKernel.signMessage := EcdsaKernel.signer_signMessage host;
           EcdsaKernel.signTransaction := EcdsaKernel.account_signTransaction;
           EcdsaKernel.signTypedData := EcdsaKernel.signer_signTypedData host;
           EcdsaKernel.signUserOperation :=
             EcdsaKernel.account_signUserOperation host entryPoint chainId;
           EcdsaKernel.getDummySignature :=
             EcdsaKernel.account_getDummySignature |}.
Proof.
  unfold EcdsaKernel.signerToEcdsaKernelSmartAccount.
  destruct (EcdsaKernel.getAccountAddress host deployed) as [addr|];
    destruct (EcdsaKernel.getChainId host) as [c|]; try discriminate.
  rewrite ManagerFacts.truthy_always. cbn [negb].
  intros H. inversion H. eauto.
Qed.

(** The sizes of the placeholders, as written in the sources. *)
Example placeholder_sizes :
  length Passkey.dummyAuthenticatorData = 37 /\
  String.length Passkey.dummyClientDataJSON = 112 /\
  length MultiChain.dummyEcdsaSig = 65 /\
  length MultiChain.dummyUserOpHash = 32 /\
  length PluginManager.ValidatorMode_enable = 4.
Proof. repeat split. Qed.

(** C10.  The [isEnabled] of a passkey validator, whichever constructor
    built it, answers false for every account address and every selector. *)
Theorem passkey_isEnabled_always_false :
  forall (host : Passkey.Host) (entryPoint validatorAddress : Address)
         (v : Passkey.WebAuthnValidator) (accountAddress : Address)
         (sel : Hex),
    Passkey.createPasskeyValidator host entryPoint validatorAddress = Ok v \/
    Passkey.getPasskeyValidator host entryPoint validatorAddress = Ok v ->
    Passkey.isEnabled v accountAddress sel = Ok false.
Proof.
  intros host entryPoint validatorAddress v accountAddress sel H.
  destruct (passkey_validator_inv host entryPoint validatorAddress v H)
    as (c & pk & ih & _ & ->).
  reflexivity.
Qed.

(** The statement on the sample relay, for the validator registration
    returns. *)
Lemma passkey_isEnabled_always_false_witness :
  exists v,
    Passkey.createPasskeyValidator Examples.samplePasskeyHost
      (repeat x0e 20) (repeat x0f 20) = Ok v /\
    Passkey.isEnabled v (repeat x77 20) (hex "0x51945447") = Ok false.
Proof.
  eexists. split; [reflexivity|].
  apply (passkey_isEnabled_always_false Examples.samplePasskeyHost
           (repeat x0e 20) (repeat x0f 20)).
  left. reflexivity.
Defined.

Lemma account_signMessage_ok (host : Passkey.Host) (message : Hex) :
  Passkey.success (Passkey.signCeremony host message) = true ->
  Passkey.encodable (Passkey.signCeremony host message) ->
  isOk (Passkey.account_signMessage host message) = true.
Proof.
  intros Hs (Ha & Hj & Hl & Hr & Hss).
  unfold Passkey.account_signMessage. rewrite Hs. cbn [negb].
  destruct (encode_webauthn_ok _ _ _ _ _ Ha Hj Hl Hr Hss) as [e He].
  rewrite He. reflexivity.
Qed.

(** C9.  On every object the constructors return, [signTransaction] fails
    with [SignTransactionNotSupportedBySmartAccount] for every transaction,
    while the other signing methods stay in place:
    - a passkey validator signs a message, valid typed data (through its
      hash) or a user operation (through its hash) whenever the signing
      ceremony for it is verified and its values fit the encoding;
    - the ECDSA kernel account hands messages and typed data to its signer,
      and signs a user operation as [0x00000000] followed by the signer's
      signature of the operation hash. *)
Theorem signTransaction_not_supported :
  (forall (host : Passkey.Host) (entryPoint validatorAddress : Address)
          (v : Passkey.WebAuthnValidator),
      Passkey.createPasskeyValidator host entryPoint validatorAddress = Ok v \/
      Passkey.getPasskeyValidator host entryPoint validatorAddress = Ok v ->
      (forall tx, Passkey.signTransaction v tx
                  = Err SignTransactionNotSupportedBySmartAccount) /\
      (forall message,
          Passkey.success (Passkey.signCeremony host message) = true ->
          Passkey.encodable (Passkey.signCeremony host message) ->
          isOk (Passkey.signMessage v message) = true) /\
      (forall typedData,
          let message := Passkey.hashTypedData host typedData in
          Passkey.validateTypedData host typedData = Ok tt ->
          Passkey.success (Passkey.signCeremony host message) = true ->
          Passkey.encodable (Passkey.signCeremony host message) ->
          isOk (Passkey.signTypedData v typedData) = true) /\
      (forall userOperation chainId,
          Passkey.getChainId host = Ok chainId ->
          let message := Passkey.getUserOperationHash host
                           (withSignature userOperation []) entryPoint
                           chainId in
          Passkey.success (Passkey.signCeremony host message) = true ->
          Passkey.encodable (Passkey.signCeremony host message) ->
          isOk (Passkey.signUserOperation v userOperation) = true))
  /\
  (forall (host : EcdsaKernel.Host) (entryPoint : Address)
          (deployed : option Address) (a : EcdsaKernel.KernelSmartAccount),
      EcdsaKernel.signerToEcdsaKernelSmartAccount host entryPoint deployed
      = Ok a ->
      (forall tx, EcdsaKernel.signTransaction a tx
                  = Err SignTransactionNotSupportedBySmartAccount) /\
      (forall message,
          EcdsaKernel.signMessage a message
          = EcdsaKernel.signer_signMessage host message) /\
      (forall typedData,
          EcdsaKernel.signTypedData a typedData
          = EcdsaKernel.signer_signTypedData host typedData) /\
      (forall userOperation chainId sig,
          EcdsaKernel.getChainId host = Ok chainId ->
          EcdsaKernel.signer_signMessage host
            (EcdsaKernel.getUserOperationHash host
               (withSignature userOperation []) entryPoint chainId) = Ok sig ->
          EcdsaKernel.signUserOperation a userOperation
          = Ok (hex "0x00000000" ++ sig))).
Proof.
  split.
  - intros host entryPoint validatorAddress v H.
    destruct (passkey_validator_inv host entryPoint validatorAddress v H)
      as (c & pk & ih & Hc & ->).
    cbn [Passkey.signTransaction Passkey.signMessage Passkey.signTypedData
         Passkey.signUserOperation Passkey.buildValidator].
    repeat split.
    + intros message Hs He. exact (account_signMessage_ok host _ Hs He).
    + cbv zeta. intros typedData Hv Hs He.
      unfold Passkey.account_signTypedData. rewrite Hv. cbn [bindR].
      exact (account_signMessage_ok host _ Hs He).
    + cbv zeta. intros userOperation chainId Hc' Hs He.
      rewrite Hc in Hc'. inversion Hc'; subst chainId.
      exact (account_signMessage_ok host _ Hs He).
  - intros host entryPoint deployed a H.
    destruct (ecdsa_account_inv host entryPoint deployed a H)
      as (addr & c & Hc & ->).
    cbn [EcdsaKernel.signTransaction EcdsaKernel.signMessage
         EcdsaKernel.signTypedData EcdsaKernel.signUserOperation].
    repeat split.
    intros userOperation chainId sig Hc' Hsig.
    rewrite Hc in Hc'. inversion Hc'; subst chainId.
    unfold EcdsaKernel.account_signUserOperation. rewrite Hsig.
    cbn [bindR]. unfold concatHex. cbn [List.concat].
    rewrite app_nil_r. reflexivity.
Qed.

(** C6 (as amended).  [getDummySignature] returns a fixed placeholder: 416
    bytes for a passkey validator, 69 bytes for the ECDSA kernel account.  A
    genuine passkey signature of a user operation has
    [224 + ceil32 |authenticatorData| + ceil32 |clientDataJSON|] bytes for
    the verified ceremony behind it, so it has the placeholder's length
    exactly when the two padded lengths add up to 192; a genuine signature
    of the ECDSA account has 4 bytes more than the signer's signature, so it
    has the placeholder's length exactly when the signer returns 65 bytes. *)
Theorem dummy_signature_length :
  (forall (host : Passkey.Host) (entryPoint validatorAddress : Address)
          (v : Passkey.WebAuthnValidator),
      Passkey.createPasskeyValidator host entryPoint validatorAddress = Ok v \/
      Passkey.getPasskeyValidator host entryPoint validatorAddress = Ok v ->
      exists dummy,
        Passkey.getDummySignature v = Ok dummy /\
        length dummy = 416 /\
        forall userOperation sig,
          Passkey.signUserOperation v userOperation = Ok sig ->
          exists message,
            let c := Passkey.signCeremony host message in
            Passkey.success c = true /\
            length sig = 224 + ceil32 (length (Passkey.authenticatorData c))
                         + ceil32 (length (Passkey.clientDataJSON c)) /\
            (length sig = length dummy <->
             ceil32 (length (Passkey.authenticatorData c))
             + ceil32 (length (Passkey.clientDataJSON c)) = 192))
  /\
  (forall (host : EcdsaKernel.Host) (entryPoint : Address)
          (deployed : option Address) (a : EcdsaKernel.KernelSmartAccount),
      EcdsaKernel.signerToEcdsaKernelSmartAccount host entryPoint deployed
      = Ok a ->
      exists dummy,
        (forall calldata, EcdsaKernel.getDummySignature a calldata = Ok dummy) /\
        length dummy = 69 /\
        forall userOperation sig,
          EcdsaKernel.signUserOperation a userOperation = Ok sig ->
          exists message signerSig,
            EcdsaKernel.signer_signMessage host message = Ok signerSig /\
            length sig = 4 + length signerSig /\
            (length sig = length dummy <-> length signerSig = 65)).
Proof.
  split.
  - intros host entryPoint validatorAddress v H.
    destruct (passkey_validator_inv host entryPoint validatorAddress v H)
      as (c & pk & ih & Hc & ->).
    cbn [Passkey.getDummySignature Passkey.signUserOperation
         Passkey.buildValidator].
    destruct Passkey.validator_getDummySignature as [dummy|] eqn:Ed;
      [|vm_compute in Ed; discriminate Ed].
    assert (Hd : length dummy = 416).
    { apply encode_webauthn_length in Ed. rewrite Ed. reflexivity. }
    exists dummy. split; [reflexivity|]. split; [exact Hd|].
    intros userOperation sig Hsig.
    unfold Passkey.validator_signUserOperation, Passkey.account_signMessage
      in Hsig.
    match type of Hsig with
    | context [Passkey.signCeremony host ?msg] => exists msg
    end.
    cbv zeta.
    destruct (Passkey.success (Passkey.signCeremony host _)) eqn:Es;
      [|discriminate Hsig].
    cbn [negb] in Hsig. apply encode_webauthn_length in Hsig.
    split; [reflexivity|]. split; [exact Hsig|]. lia.
  - intros host entryPoint deployed a H.
    destruct (ecdsa_account_inv host entryPoint deployed a H)
      as (addr & c & Hc & ->).
    cbn [EcdsaKernel.getDummySignature EcdsaKernel.signUserOperation].
    eexists. split; [intros calldata; reflexivity|].
    split; [reflexivity|].
    intros userOperation sig Hsig.
    unfold EcdsaKernel.account_signUserOperation in Hsig.
    match type of Hsig with
    | context [EcdsaKernel.signer_signMessage host ?msg] => exists msg
    end.
    destruct (EcdsaKernel.signer_signMessage host _) as [s|];
      [|discriminate Hsig].
    cbn [bindR] in Hsig. inversion Hsig; subst sig.
    exists s. split; [reflexivity|].
    change (length (hex _)) with 69.
    cbn [length]. rewrite app_nil_r.
    split; [reflexivity | lia].
Qed.

(** C6 (as stated) fails.  The sample relay verifies the ceremony and
    returns the usual 37 bytes of authenticator data with the client data
    JSON of a browser (the placeholder's three keys and [crossOrigin], 132
    bytes).  The genuine signature of the user operation has 448 bytes; the
    dummy signature of the same validator has 416. *)
Lemma passkey_dummy_signature_is_shorter :
  exists v sig dummy,
    Passkey.createPasskeyValidator Examples.samplePasskeyHost
      (repeat x0e 20) (repeat x0f 20) = Ok v /\
    Passkey.signUserOperation v Examples.sampleUserOperation = Ok sig /\
    Passkey.getDummySignature v = Ok dummy /\
    length sig = 448 /\ length dummy = 416 /\
    length sig <> length dummy.
Proof.
  eexists. eexists. eexists.
  split; [reflexivity|].
  split; [vm_compute; reflexivity|].
  split; [vm_compute; reflexivity|].
  split; [reflexivity|]. split; [reflexivity|].
  cbn [length]. discriminate.
Qed.

(** The statements on the sample relay and the sample signer. *)
Lemma signTransaction_not_supported_witness :
  exists v a,
    Passkey.createPasskeyValidator Examples.samplePasskeyHost
      (repeat x0e 20) (repeat x0f 20) = Ok v /\
    EcdsaKernel.signerToEcdsaKernelSmartAccount Examples.sampleSignerHost
      (repeat x0e 20) None = Ok a /\
    Passkey.signTransaction v [] = Err SignTransactionNotSupportedBySmartAccount /\
    EcdsaKernel.signTransaction a []
    = Err SignTransactionNotSupportedBySmartAccount /\
    isOk (Passkey.signMessage v (repeat x01 32)) = true /\
    EcdsaKernel.signUserOperation a Examples.sampleUserOperation
    = Ok (hex "0x00000000" ++ repeat x11 65).
Proof.
  destruct signTransaction_not_supported as [Hp He].
  eexists. eexists.
  split; [reflexivity|]. split; [reflexivity|].
  specialize (Hp Examples.samplePasskeyHost (repeat x0e 20) (repeat x0f 20)
                 _ (or_introl eq_refl)).
  specialize (He Examples.sampleSignerHost (repeat x0e 20) None _ eq_refl).
  destruct Hp as (Hp1 & Hp2 & _). destruct He as (He1 & _ & _ & He4).
  split; [apply Hp1|]. split; [apply He1|].
  split.
  - apply Hp2; [reflexivity|].
    unfold Passkey.encodable, maxUint256. cbn. lia.
  - apply (He4 Examples.sampleUserOperation 1%Z); reflexivity.
Defined.

Lemma dummy_signature_length_witness :
  exists a dummy,
    EcdsaKernel.signerToEcdsaKernelSmartAccount Examples.sampleSignerHost
      (repeat x0e 20) None = Ok a /\
    (forall calldata, EcdsaKernel.getDummySignature a calldata = Ok dummy) /\
    length dummy = 69.
Proof.
  destruct dummy_signature_length as [_ He].
  eexists.
  destruct (He Examples.sampleSignerHost (repeat x0e 20) None _ eq_refl)
    as (dummy & Hd & Hl & _).
  exists dummy. split; [reflexivity|]. split; assumption.
Defined.

End AccountFacts.

(** ** Further properties of the plugin manager *)

Module ManagerLaws.
Import Viem PluginManager ManagerEffects ViemFacts AbiFacts ManagerFacts.

(** *** The constructor *)

(** X1.  [toKernelPluginManager] reads the chain id first, so a failing read
    is the error reported, with or without validators; with the chain id
    read, it fails with "One of `sudo` or `regular` validator must be set"
    exactly when neither validator is given; otherwise the active validator
    is the regular one when there is one and the sudo one if not, and
    executor data left out defaults to the zero executor with the action
    selector of v0.6, whatever the entry point version of the manager.  So a
    v0.7 manager built without executor data asks its regular validator
    whether it is enabled for the v0.6 action selector. *)
Theorem toKernelPluginManager_outcome :
  forall (host : Host) (p : Params),
    (forall e, getChainId host = Err e ->
               toKernelPluginManager host p = Err e)
    /\
    (forall c, getChainId host = Ok c ->
               regular p = None -> sudo p = None ->
               toKernelPluginManager host p = Err NoValidatorSet)
    /\
    (forall c, getChainId host = Ok c ->
               regular p <> None \/ sudo p <> None ->
               exists m,
                 toKernelPluginManager host p = Ok m /\
                 params m = p /\ chainId m = c /\
                 Some (activeValidator m)
                 = match regular p with Some r => Some r | None => sudo p end /\
                 executorData m
                 = match executorDataParam p with
                   | Some a => a
                   | None => {| selector := getActionSelector host v0_6;
                                executor := zeroAddress |}
                   end)
    /\
    (forall m r accountAddress sel st,
        toKernelPluginManager host p = Ok m ->
        entryPointVersion p = v0_7 ->
        executorDataParam p = None ->
        regular p = Some r ->
        isPluginEnabled host m accountAddress sel st
        = (match Validator.isEnabled r accountAddress
                   (getActionSelector host v0_6) with
           | Ok true => Ok true
           | Ok false =>
               isPluginInitialized host accountAddress (Validator.address r)
           | Err e => Err e
           end, st)).
Proof.
  intros host p. split; [|split; [|split]].
  - unfold toKernelPluginManager. intros e He. rewrite He. reflexivity.
  - unfold toKernelPluginManager. intros c Hc Hr Hs.
    rewrite Hc, Hr, Hs. reflexivity.
  - unfold toKernelPluginManager. intros c Hc Hv. rewrite Hc. cbn [bindR].
    destruct (regular p) as [r|] eqn:Er.
    + eexists. split; [reflexivity|]. cbn. auto.
    + destruct (sudo p) as [s|] eqn:Es.
      * eexists. split; [reflexivity|]. cbn. auto.
      * destruct Hv as [Hv|Hv]; contradiction.
  - intros m r a sel st Hm Hv He Hr.
    assert (Hp : params m = p /\
                 executorData m = {| selector := getActionSelector host v0_6;
                                     executor := zeroAddress |}).
    { revert Hm. unfold toKernelPluginManager.
      destruct (getChainId host) as [c|]; [|discriminate]. cbn [bindR].
      rewrite Hr, He. intros H. inversion H. cbn. auto. }
    destruct Hp as [Hp Hx].
    unfold isPluginEnabled, bind, lift, ret. rewrite Hp, Hr, Hv, Hx.
    cbn [selector].
    destruct (Validator.isEnabled r a (getActionSelector host v0_6))
      as [[|]|]; reflexivity.
Qed.

(** The last case on the sample manager under v0.7, built without executor
    data: the regular validator is asked for the selector [0x51945447] the
    sample host gives for v0.6, and is not enabled. *)
Lemma toKernelPluginManager_outcome_witness :
  isPluginEnabled Examples.sampleHost
    (Examples.sampleManager v0_7 (Some Examples.sampleSudo)
       (Some Examples.sampleRegular) None Examples.sampleRegular)
    (repeat x77 20) []
    (initialState (Examples.sampleParams v0_7 (Some Examples.sampleSudo)
                     (Some Examples.sampleRegular) None))
  = (Ok false,
     initialState (Examples.sampleParams v0_7 (Some Examples.sampleSudo)
                     (Some Examples.sampleRegular) None)).
Proof.
  exact (proj2 (proj2 (proj2
           (toKernelPluginManager_outcome Examples.sampleHost
              (Examples.sampleParams v0_7 (Some Examples.sampleSudo)
                 (Some Examples.sampleRegular) None))))
           (Examples.sampleManager v0_7 (Some Examples.sampleSudo)
              (Some Examples.sampleRegular) None Examples.sampleRegular)
           Examples.sampleRegular (repeat x77 20) []
           (initialState (Examples.sampleParams v0_7
                            (Some Examples.sampleSudo)
                            (Some Examples.sampleRegular) None))
           (sampleManager_built v0_7 (Some Examples.sampleSudo)
              (Some Examples.sampleRegular) None Examples.sampleRegular
              eq_refl)
           eq_refl eq_refl eq_refl).
Defined.

(** *** State effects *)

Lemma atMostOneCeremony_refl (m : KernelPluginManager) (st : State) :
  atMostOneCeremony m st st.
Proof. left. reflexivity. Qed.

Lemma getPluginEnableSignature_effect (host : Host)
      (m : KernelPluginManager) (a : Address) (st : State) :
  atMostOneCeremony m st (snd (getPluginEnableSignature host m a st)).
Proof.
  unfold getPluginEnableSignature, bind, readPluginEnableSignature, ret,
    throw, lift, sudoSignTypedData, writePluginEnableSignature.
  destruct (pluginEnableSignature st) as [sig|] eqn:Hc;
    [left; reflexivity|].
  destruct (sudo (params m)) as [sv|] eqn:Hs; [|left; reflexivity].
  destruct (regular (params m)) as [rv|] eqn:Hr; [|left; reflexivity].
  destruct (accountMetadata host a) as [mv|]; [|left; reflexivity].
  destruct (entryPointVersion (params m)) eqn:Hv.
  - destruct (getPluginsEnableTypedDataV1 _ _ _ _ _ _ _ _) as [td|];
      [|left; reflexivity].
    right. split; [exact Hc|]. split; [rewrite Hs; discriminate|].
    split; [rewrite Hr; discriminate|]. exists td.
    destruct (Validator.signTypedData sv td) as [s|]; cbn; auto.
  - destruct (getKernelV3Nonce host a) as [n|]; [|left; reflexivity].
    destruct (getPluginsEnableTypedDataV2 _ _ _ _ _ _ _) as [td|];
      [|left; reflexivity].
    right. split; [exact Hc|]. split; [rewrite Hs; discriminate|].
    split; [rewrite Hr; discriminate|]. exists td.
    destruct (Validator.signTypedData sv td) as [s|]; cbn; auto.
Qed.

Lemma getSignatureData_effect (host : Host) (m : KernelPluginManager)
      (a : Address) (sel sig : Hex) (st : State) :
  atMostOneCeremony m st (snd (getSignatureData host m a sel sig st)).
Proof.
  pose proof (getPluginEnableSignature_effect host m a st) as Hget.
  unfold getSignatureData.
  destruct (entryPointVersion (params m));
    (destruct (regular (params m)) as [rv|];
     [| destruct (sudo (params m)); apply atMostOneCeremony_refl]).
  - unfold bind at 1.
    pose proof (isPluginEnabled_state host m a sel st) as Hst.
    destruct (isPluginEnabled host m a sel st) as [[[|]|e] st1];
      cbn [snd] in Hst; subst st1; try apply atMostOneCeremony_refl.
    unfold bind.
    destruct (getPluginEnableSignature host m a st) as [[s|e] st2];
      cbn [snd] in Hget |- *; [|exact Hget].
    destruct (negb (truthy s)); exact Hget.
  - unfold bind at 1.
    pose proof (isPluginEnabled_state host m a
                  (selector (executorData m)) st) as Hst.
    destruct (isPluginEnabled host m a _ st) as [[[|]|e] st1];
      cbn [snd] in Hst; subst st1; try apply atMostOneCeremony_refl.
    unfold bind.
    destruct (getPluginEnableSignature host m a st) as [[s|e] st2];
      cbn [snd] in Hget |- *; exact Hget.
Qed.

Lemma envelope_effect (host : Host) (m : KernelPluginManager)
      (op : UserOperation) (sig : Hex) (st : State) :
  atMostOneCeremony m st (snd (envelope host m op sig st)).
Proof.
  unfold envelope. destruct (entryPointVersion (params m)).
  - pose proof (getSignatureData_effect host m (sender op)
                  (slice_0_10 (callData op)) [] st) as H.
    unfold bind.
    destruct (getSignatureData host m _ _ _ st) as [[d|e] st1]; exact H.
  - apply getSignatureData_effect.
Qed.

Lemma getNonceKey_state (host : Host) (constants : Constants)
      (m : KernelPluginManager) (a : Address) (st : State) :
  snd (getNonceKey host constants m a st) = st.
Proof.
  unfold getNonceKey.
  destruct (entryPointVersion (params m)); [reflexivity|].
  unfold bind at 1.
  assert (Hmode : forall c : M Hex, snd (c st) = st ->
            snd (match c st with
                 | (Ok x, st') =>
                     (fun validatorMode : Hex =>
                      bind (lift (Validator.getNonceKey (activeValidator m)))
                        (fun nonceKey =>
                         bind (lift (toHex nonceKey)) (fun subKeyHex =>
                         bind (lift (pad subKeyHex 2)) (fun subKey =>
                         bind (lift (pad (concatHex
                                 [validatorMode;
                                  match regular (params m) with
                                  | Some r => VALIDATOR_TYPE constants
                                                (Validator.validatorType r)
                                  | None => VALIDATOR_TYPE constants SUDO
                                  end;
                                  Validator.getIdentifier (activeValidator m);
                                  subKey]) 24))
                           (fun padded => lift (BigInt padded))))))
                       x st'
                 | (Err e, st') => (Err e, st')
                 end) = st).
  { intros c Hc. destruct (c st) as [[x|e] st1]; cbn [snd] in Hc; subst st1;
      [|reflexivity].
    unfold bind, lift.
    destruct (Validator.getNonceKey (activeValidator m)) as [k|];
      [|reflexivity].
    destruct (toHex k) as [h|]; [|reflexivity].
    destruct (pad h 2) as [sk|]; [|reflexivity].
    destruct (pad _ 24) as [pd|]; reflexivity. }
  destruct (regular (params m)) as [rv|] eqn:Hr.
  - apply Hmode. unfold bind.
    pose proof (isPluginEnabled_state host m a
                  (selector (executorData m)) st) as Hst.
    destruct (isPluginEnabled host m a _ st) as [[b|e] st1];
      cbn [snd] in Hst |- *; exact Hst.
  - apply Hmode. reflexivity.
Qed.

Lemma signUserOperation_effect (host : Host) (m : KernelPluginManager)
      (op : UserOperation) (st : State) :
  atMostOneCeremony m st (snd (signUserOperation host m op st)).
Proof.
  unfold signUserOperation, bind at 1, lift at 1.
  destruct (Validator.signUserOperation (activeValidator m) op) as [s|];
    [apply envelope_effect | apply atMostOneCeremony_refl].
Qed.

Lemma getDummySignature_effect (host : Host) (m : KernelPluginManager)
      (op : UserOperation) (st : State) :
  atMostOneCeremony m st (snd (getDummySignature host m op st)).
Proof.
  unfold getDummySignature, bind at 1, lift at 1.
  destruct (Validator.getDummySignature (activeValidator m) op) as [s|];
    [apply envelope_effect | apply atMostOneCeremony_refl].
Qed.

(** With a signature stored, nothing changes the state. *)
Lemma atMostOneCeremony_stored (m : KernelPluginManager) (st st' : State)
      (sig : Hex) :
  pluginEnableSignature st = Some sig ->
  atMostOneCeremony m st st' -> st' = st.
Proof.
  intros Hc [H|[H _]]; [exact H | rewrite Hc in H; discriminate H].
Qed.

(** X2.  Every call of a method of the manager leaves the mutable state as
    it was, or adds exactly one typed-data signature of the sudo validator
    to it; the latter only when no enable signature was stored and both
    validators are configured, and a signature gets stored only under v0.6.
    [isPluginEnabled] and [getNonceKey] never touch the state.  So a stored
    enable signature is never replaced or dropped, and no call makes two
    signing ceremonies. *)
Theorem manager_calls_make_at_most_one_ceremony :
  forall (host : Host) (constants : Constants) (m : KernelPluginManager)
         (userOperation : UserOperation) (accountAddress : Address)
         (sel : Hex) (st : State),
    atMostOneCeremony m st (snd (signUserOperation host m userOperation st))
    /\
    atMostOneCeremony m st (snd (getDummySignature host m userOperation st))
    /\
    atMostOneCeremony m st
      (snd (getPluginEnableSignature host m accountAddress st))
    /\
    snd (isPluginEnabled host m accountAddress sel st) = st
    /\
    snd (getNonceKey host constants m accountAddress st) = st.
Proof.
  intros host constants m op a sel st. repeat split.
  - apply signUserOperation_effect.
  - apply getDummySignature_effect.
  - apply getPluginEnableSignature_effect.
  - apply isPluginEnabled_state.
  - apply getNonceKey_state.
Qed.

(** *** The envelope under v0.7 *)

(** X3.  Under v0.7, with no regular validator or with a regular validator
    the enablement check reports enabled, the manager is transparent:
    [signUserOperation] and [getDummySignature] give what the active
    validator gives for the operation, its signature as it is (no mode
    prefix) or its error, and the state is untouched.  The call data of the
    operation plays no part: the check is made for the sender's address and
    the selector of the executor data. *)
Theorem v07_default_mode_is_transparent :
  forall (host : Host) (p : Params) (m : KernelPluginManager)
         (userOperation : UserOperation) (st : State),
    toKernelPluginManager host p = Ok m ->
    entryPointVersion p = v0_7 ->
    regular p = None \/
    isPluginEnabled host m (sender userOperation)
      (selector (executorData m)) st = (Ok true, st) ->
    signUserOperation host m userOperation st
    = (Validator.signUserOperation (activeValidator m) userOperation, st)
    /\
    getDummySignature host m userOperation st
    = (Validator.getDummySignature (activeValidator m) userOperation, st).
Proof.
  intros host p m op st Hm Hv Hmode.
  destruct (toKernelPluginManager_inv host p m Hm) as [Hp Hact].
  assert (Henv : forall sig, envelope host m op sig st = (Ok sig, st)).
  { intros sig. unfold envelope, getSignatureData. rewrite Hp, Hv.
    destruct Hmode as [Hr|Hen].
    - rewrite Hr in *. rewrite Hact. reflexivity.
    - destruct (regular p) as [r|] eqn:Hr.
      + unfold bind. rewrite Hen. reflexivity.
      + rewrite Hact. reflexivity. }
  split.
  - unfold signUserOperation, bind at 1, lift at 1.
    destruct (Validator.signUserOperation (activeValidator m) op) as [s|];
      [apply Henv | reflexivity].
  - unfold getDummySignature, bind at 1, lift at 1.
    destruct (Validator.getDummySignature (activeValidator m) op) as [s|];
      [apply Henv | reflexivity].
Qed.

(** The statement on the sample manager that has a sudo validator only. *)
Lemma v07_default_mode_is_transparent_witness :
  signUserOperation Examples.sampleHost
    (Examples.sampleManager v0_7 (Some Examples.sampleSudo) None None
       Examples.sampleSudo)
    Examples.sampleUserOperation
    (initialState (Examples.sampleParams v0_7 (Some Examples.sampleSudo)
                     None None))
  = (Ok (repeat x11 65),
     initialState (Examples.sampleParams v0_7 (Some Examples.sampleSudo)
                     None None)).
Proof.
  refine (proj1 (v07_default_mode_is_transparent
                   Examples.sampleHost
                   (Examples.sampleParams v0_7 (Some Examples.sampleSudo)
                      None None)
                   (Examples.sampleManager v0_7 (Some Examples.sampleSudo)
                      None None Examples.sampleSudo)
                   Examples.sampleUserOperation
                   (initialState (Examples.sampleParams v0_7
                                    (Some Examples.sampleSudo) None None))
                   _ _ _)).
  - apply sampleManager_built. reflexivity.
  - reflexivity.
  - left. reflexivity.
Defined.

(** *** Placeholder and genuine envelopes under v0.6 *)

(** X4.  Under v0.6 [getDummySignature] and [signUserOperation], run from
    the same state on the same operation, wrap the validator's placeholder
    and the validator's signature in the same envelope: the same mode and
    enable data in front, the same state afterwards, and one fails exactly
    when the other does.  So the two results differ in length by what the
    validator's two signatures differ. *)
Theorem dummy_and_signed_envelope_v06 :
  forall (host : Host) (m : KernelPluginManager)
         (userOperation : UserOperation) (sig dummy : Hex) (st : State),
    entryPointVersion (params m) = v0_6 ->
    Validator.signUserOperation (activeValidator m) userOperation = Ok sig ->
    Validator.getDummySignature (activeValidator m) userOperation
    = Ok dummy ->
    let front := getSignatureData host m (sender userOperation)
                   (firstn 4 (callData userOperation)) [] st in
    signUserOperation host m userOperation st
    = (bindR (fst front) (fun data => Ok (data ++ sig)), snd front)
    /\
    getDummySignature host m userOperation st
    = (bindR (fst front) (fun data => Ok (data ++ dummy)), snd front)
    /\
    forall signed placeholder,
      fst (signUserOperation host m userOperation st) = Ok signed ->
      fst (getDummySignature host m userOperation st) = Ok placeholder ->
      length signed + length dummy = length placeholder + length sig.
Proof.
  intros host m op sig dummy st Hv Hsig Hdummy front.
  assert (Henv : forall s,
             envelope host m op s st
             = (bindR (fst front) (fun data => Ok (data ++ s)), snd front)).
  { intros s. unfold envelope. rewrite Hv. unfold bind, ret, slice_0_10.
    subst front.
    destruct (getSignatureData host m (sender op) (firstn 4 (callData op))
                [] st) as [[d|e] st1]; cbn [fst snd bindR]; [|reflexivity].
    unfold concatHex. cbn [List.concat]. rewrite app_nil_r. reflexivity. }
  assert (H1 : signUserOperation host m op st
               = (bindR (fst front) (fun data => Ok (data ++ sig)),
                  snd front)).
  { unfold signUserOperation, bind at 1, lift at 1. rewrite Hsig.
    apply Henv. }
  assert (H2 : getDummySignature host m op st
               = (bindR (fst front) (fun data => Ok (data ++ dummy)),
                  snd front)).
  { unfold getDummySignature, bind at 1, lift at 1. rewrite Hdummy.
    apply Henv. }
  split; [exact H1|]. split; [exact H2|].
  intros signed placeholder. rewrite H1, H2. cbn [fst].
  destruct (fst front) as [d|e]; cbn [bindR]; [|discriminate].
  intros Hs Hp. inversion Hs. inversion Hp. rewrite !length_app. lia.
Qed.

(** The statement on a sample manager in ENABLE mode whose regular validator
    signs with 70 bytes and has a placeholder of 65 bytes: the two envelopes
    differ by these 5 bytes. *)
Lemma dummy_and_signed_envelope_v06_witness :
  let regularV := Scenarios.validatorWith PERMISSION (repeat x33 20) false
                    (repeat x55 70) (repeat x56 65) 5 in
  let m := Examples.sampleManager v0_6 (Some Examples.sampleSudo)
             (Some regularV) None regularV in
  let st := initialState (Examples.sampleParams v0_6
                            (Some Examples.sampleSudo) (Some regularV) None) in
  exists signed placeholder,
    fst (signUserOperation Examples.sampleHost m
           Examples.sampleUserOperation st) = Ok signed /\
    fst (getDummySignature Examples.sampleHost m
           Examples.sampleUserOperation st) = Ok placeholder /\
    length signed + 65 = length placeholder + 70.
Proof.
  cbv zeta. eexists. eexists.
  split; [vm_compute; reflexivity|]. split; [vm_compute; reflexivity|].
  refine (proj2 (proj2 (dummy_and_signed_envelope_v06
                          Examples.sampleHost
                          (Examples.sampleManager v0_6
                             (Some Examples.sampleSudo)
                             (Some (Scenarios.validatorWith PERMISSION
                                      (repeat x33 20) false (repeat x55 70)
                                      (repeat x56 65) 5))
                             None
                             (Scenarios.validatorWith PERMISSION
                                (repeat x33 20) false (repeat x55 70)
                                (repeat x56 65) 5))
                          Examples.sampleUserOperation
                          (repeat x55 70) (repeat x56 65)
                          (initialState
                             (Examples.sampleParams v0_6
                                (Some Examples.sampleSudo)
                                (Some (Scenarios.validatorWith PERMISSION
                                         (repeat x33 20) false (repeat x55 70)
                                         (repeat x56 65) 5))
                                None))
                          eq_refl eq_refl eq_refl)) _ _ _ _);
    vm_compute; reflexivity.
Defined.

(** X5.  Under v0.6, in ENABLE mode and with no enable signature stored, a
    successful [getDummySignature] has made the one signing ceremony of the
    sudo validator and stored its signature: from the state it leaves,
    [getPluginEnableSignature] returns that signature for every account, and
    neither [signUserOperation] nor [getDummySignature] changes the state
    again, for any user operation.  The enable signature embedded in the
    envelope estimated with is the one later operations are signed with. *)
Theorem enable_signature_made_once_v06 :
  forall (host : Host) (m : KernelPluginManager) (r : KernelValidator)
         (userOperation : UserOperation) (st st' : State)
         (placeholder : Hex),
    entryPointVersion (params m) = v0_6 ->
    regular (params m) = Some r ->
    pluginEnableSignature st = None ->
    Validator.isEnabled r (sender userOperation)
      (firstn 4 (callData userOperation)) = Ok false ->
    getDummySignature host m userOperation st = (Ok placeholder, st') ->
    exists enableSignature,
      pluginEnableSignature st' = Some enableSignature /\
      length (signTypedDataCalls st') = S (length (signTypedDataCalls st)) /\
      (forall accountAddress,
          getPluginEnableSignature host m accountAddress st'
          = (Ok enableSignature, st')) /\
      (forall later,
          snd (signUserOperation host m later st') = st' /\
          snd (getDummySignature host m later st') = st').
Proof.
  intros host m r op st st' placeholder Hv Hr Hnone Hen Hrun.
  assert (Hget : exists sig,
             getPluginEnableSignature host m (sender op) st = (Ok sig, st')).
  { revert Hrun.
    unfold getDummySignature, bind at 1, lift at 1.
    destruct (Validator.getDummySignature (activeValidator m) op) as [d|];
      [|discriminate].
    unfold envelope, getSignatureData. rewrite Hv, Hr.
    unfold isPluginEnabled. rewrite Hr, Hv.
    unfold slice_0_10, bind at 1, bind at 1, lift at 1. rewrite Hen.
    unfold bind at 1.
    destruct (getPluginEnableSignature host m (sender op) st)
      as [[sig|e] st1]; [|discriminate].
    rewrite truthy_always. cbn [negb]. unfold lift, ret.
    destruct (getEncodedPluginsDataV1 _ _ _ _ _ _ _) as [data|];
      [|discriminate].
    intros H. inversion H; subst. exists sig. reflexivity. }
  destruct Hget as [sig Hget].
  destruct (getPluginEnableSignature_v06_stores host m (sender op) st st' sig
              Hv Hnone Hget) as (Hc & Hl & _).
  exists sig. split; [exact Hc|]. split; [exact Hl|]. split.
  - intros a. apply getPluginEnableSignature_stored. exact Hc.
  - intros later. split.
    + exact (atMostOneCeremony_stored m st' _ sig Hc
               (signUserOperation_effect host m later st')).
    + exact (atMostOneCeremony_stored m st' _ sig Hc
               (getDummySignature_effect host m later st')).
Qed.

(** The statement on the sample manager under v0.6. *)
Lemma enable_signature_made_once_v06_witness :
  let m := Examples.sampleManager v0_6 (Some Examples.sampleSudo)
             (Some Examples.sampleRegular) None Examples.sampleRegular in
  let st := initialState (Examples.sampleParams v0_6
                            (Some Examples.sampleSudo)
                            (Some Examples.sampleRegular) None) in
  let st' := snd (getDummySignature Examples.sampleHost m
                    Examples.sampleUserOperation st) in
  exists enableSignature,
    pluginEnableSignature st' = Some enableSignature /\
    length (signTypedDataCalls st') = S (length (signTypedDataCalls st)) /\
    (forall accountAddress,
        getPluginEnableSignature Examples.sampleHost m accountAddress st'
        = (Ok enableSignature, st')) /\
    (forall later,
        snd (signUserOperation Examples.sampleHost m later st') = st' /\
        snd (getDummySignature Examples.sampleHost m later st') = st').
Proof.
  cbv zeta.
  refine (enable_signature_made_once_v06
            Examples.sampleHost
            (Examples.sampleManager v0_6 (Some Examples.sampleSudo)
               (Some Examples.sampleRegular) None Examples.sampleRegular)
            Examples.sampleRegular Examples.sampleUserOperation
            (initialState (Examples.sampleParams v0_6
                             (Some Examples.sampleSudo)
                             (Some Examples.sampleRegular) None))
            _ _ eq_refl eq_refl eq_refl eq_refl _).
  vm_compute. reflexivity.
Defined.

(** *** The nonce key under v0.7 *)

(** [getNonceKey] under v0.7 as a computation on results: the mode, then
    the sub-key on two bytes, then the 24-byte padding and the integer. *)
Lemma getNonceKey_v07_run (host : Host) (constants : Constants)
      (m : KernelPluginManager) (a : Address) (st : State) :
  entryPointVersion (params m) = v0_7 ->
  getNonceKey host constants m a st
  = (bindR (match regular (params m) with
            | None => Ok (VALIDATOR_MODE_DEFAULT constants)
            | Some _ =>
                bindR (fst (isPluginEnabled host m a
                              (selector (executorData m)) st))
                      (fun enabled : bool =>
                       Ok (if enabled then VALIDATOR_MODE_DEFAULT constants
                           else VALIDATOR_MODE_ENABLE constants))
            end)
       (fun mode =>
        bindR (Validator.getNonceKey (activeValidator m)) (fun k =>
        bindR (bindR (toHex k) (fun h => pad h 2)) (fun subKey =>
        bindR (pad (concatHex
                      [mode;
                       match regular (params m) with
                       | Some r => VALIDATOR_TYPE constants
                                     (Validator.validatorType r)
                       | None => VALIDATOR_TYPE constants SUDO
                       end;
                       Validator.getIdentifier (activeValidator m);
                       subKey]) 24)
              BigInt))),
     st).
Proof.
  intros Hv. unfold getNonceKey. rewrite Hv.
  unfold bind at 1.
  destruct (regular (params m)) as [rv|] eqn:Hr.
  - unfold bind at 1.
    pose proof (isPluginEnabled_state host m a
                  (selector (executorData m)) st) as Hst.
    destruct (isPluginEnabled host m a _ st) as [[b|e] st1];
      cbn [snd fst] in Hst |- *; subst st1; [|reflexivity].
    unfold ret, bind, lift. cbn [bindR].
    destruct (Validator.getNonceKey (activeValidator m)) as [k|];
      [|reflexivity].
    cbn [bindR]. destruct (toHex k) as [h|]; [|reflexivity].
    cbn [bindR]. destruct (pad h 2) as [sk|]; [|reflexivity].
    cbn [bindR]. destruct (pad _ 24) as [pd|]; reflexivity.
  - unfold ret, bind, lift. cbn [bindR].
    destruct (Validator.getNonceKey (activeValidator m)) as [k|];
      [|reflexivity].
    cbn [bindR]. destruct (toHex k) as [h|]; [|reflexivity].
    cbn [bindR]. destruct (pad h 2) as [sk|]; [|reflexivity].
    cbn [bindR]. destruct (pad _ 24) as [pd|]; reflexivity.
Qed.

(** X6.  Under v0.7 a nonce sub-key of the active validator that does not
    fit two bytes (negative, or [2^16] and above) never yields a nonce key:
    [getNonceKey] fails, in whatever mode; with no regular validator the
    error is the range error of [toHex] for a negative sub-key and the size
    error of [pad] for a wide one. *)
Theorem getNonceKey_v07_rejects_wide_sub_key :
  forall (host : Host) (constants : Constants) (m : KernelPluginManager)
         (accountAddress : Address) (st : State) (k : Z),
    entryPointVersion (params m) = v0_7 ->
    Validator.getNonceKey (activeValidator m) = Ok k ->
    (k < 0 \/ 2 ^ 16 <= k)%Z ->
    isOk (fst (getNonceKey host constants m accountAddress st)) = false /\
    (regular (params m) = None ->
     getNonceKey host constants m accountAddress st
     = (Err (if (k <? 0)%Z then IntegerOutOfRange
             else SizeExceedsPaddingSize), st)).
Proof.
  intros host constants m a st k Hv Hk Hrange.
  assert (Hsub : bindR (toHex k) (fun h => pad h 2)
                 = Err (if (k <? 0)%Z then IntegerOutOfRange
                        else SizeExceedsPaddingSize)).
  { destruct Hrange as [Hneg|Hwide].
    - unfold toHex. apply Z.ltb_lt in Hneg. rewrite Hneg. reflexivity.
    - rewrite (pad_toHex_2_overflow k Hwide).
      destruct (k <? 0)%Z eqn:E; [apply Z.ltb_lt in E; lia | reflexivity]. }
  rewrite (getNonceKey_v07_run host constants m a st Hv).
  rewrite Hk. cbn [bindR]. rewrite Hsub. cbn [bindR fst].
  split.
  - destruct (regular (params m)) as [rv|]; [|reflexivity].
    destruct (fst (isPluginEnabled host m a _ st)) as [b|]; reflexivity.
  - intros Hr. rewrite Hr. reflexivity.
Qed.

(** The statement on a sample manager whose only validator has the sub-key
    [65536]. *)
Lemma getNonceKey_v07_rejects_wide_sub_key_witness :
  let sudoV := Scenarios.validatorWith SECONDARY (repeat x44 20) false
                 (repeat x11 65) (repeat x11 65) 65536 in
  getNonceKey Examples.sampleHost Examples.sampleConstants
    (Examples.sampleManager v0_7 (Some sudoV) None None sudoV)
    zeroAddress
    (initialState (Examples.sampleParams v0_7 (Some sudoV) None None))
  = (Err SizeExceedsPaddingSize,
     initialState (Examples.sampleParams v0_7 (Some sudoV) None None)).
Proof.
  cbv zeta.
  refine (proj2 (getNonceKey_v07_rejects_wide_sub_key
                   Examples.sampleHost Examples.sampleConstants
                   (Examples.sampleManager v0_7
                      (Some (Scenarios.validatorWith SECONDARY
                               (repeat x44 20) false (repeat x11 65)
                               (repeat x11 65) 65536))
                      None None
                      (Scenarios.validatorWith SECONDARY (repeat x44 20)
                         false (repeat x11 65) (repeat x11 65) 65536))
                   zeroAddress
                   (initialState
                      (Examples.sampleParams v0_7
                         (Some (Scenarios.validatorWith SECONDARY
                                  (repeat x44 20) false (repeat x11 65)
                                  (repeat x11 65) 65536))
                         None None))
                   65536%Z eq_refl eq_refl _) eq_refl).
  right. lia.
Defined.

(** X7.  Under v0.7 every nonce key [getNonceKey] returns fits 192 bits,
    the width of the key part of an entry point nonce, whatever the codes,
    the identifier and the sub-key are; and the call leaves the state as it
    was. *)
Theorem getNonceKey_v07_fits_192_bits :
  forall (host : Host) (constants : Constants) (m : KernelPluginManager)
         (accountAddress : Address) (st st' : State) (key : Z),
    entryPointVersion (params m) = v0_7 ->
    getNonceKey host constants m accountAddress st = (Ok key, st') ->
    (0 <= key < 2 ^ 192)%Z /\ st' = st.
Proof.
  intros host constants m a st st' key Hv.
  rewrite (getNonceKey_v07_run host constants m a st Hv).
  intros H. inversion H as [[Hkey Hst]]. split; [|reflexivity].
  clear H Hst. revert Hkey.
  match goal with
  | |- bindR ?c _ = _ -> _ => destruct c as [mode|]; [|discriminate]
  end.
  cbn [bindR].
  destruct (Validator.getNonceKey (activeValidator m)) as [k|];
    [|discriminate].
  cbn [bindR].
  destruct (bindR (toHex k) (fun h => pad h 2)) as [sk|]; [|discriminate].
  cbn [bindR].
  destruct (pad _ 24) as [pd|] eqn:Hpad; [|discriminate].
  cbn [bindR]. apply pad_length in Hpad.
  unfold BigInt. destruct pd as [|b pd]; [discriminate|].
  intros Hn. inversion Hn.
  pose proof (hexToBigInt_bound (b :: pd)) as Hb. rewrite Hpad in Hb.
  change (256 ^ Z.of_nat 24)%Z with (2 ^ 192)%Z in Hb. exact Hb.
Qed.

(** The statement on the sample manager under v0.7. *)
Lemma getNonceKey_v07_fits_192_bits_witness :
  exists key,
    fst (getNonceKey Examples.sampleHost Examples.sampleConstants
           (Examples.sampleManager v0_7 (Some Examples.sampleSudo)
              (Some Examples.sampleRegular) None Examples.sampleRegular)
           zeroAddress
           (initialState (Examples.sampleParams v0_7
                            (Some Examples.sampleSudo)
                            (Some Examples.sampleRegular) None)))
    = Ok key /\
    (0 <= key < 2 ^ 192)%Z.
Proof.
  eexists. split; [vm_compute; reflexivity|].
  refine (proj1 (getNonceKey_v07_fits_192_bits
                   Examples.sampleHost Examples.sampleConstants
                   (Examples.sampleManager v0_7 (Some Examples.sampleSudo)
                      (Some Examples.sampleRegular) None
                      Examples.sampleRegular)
                   zeroAddress
                   (initialState (Examples.sampleParams v0_7
                                    (Some Examples.sampleSudo)
                                    (Some Examples.sampleRegular) None))
                   _ _ eq_refl _)).
  vm_compute. reflexivity.
Defined.

(** *** The identifier *)

(** X8.  For a manager the constructor built, [getIdentifier()] is the type
    code and the identifier of the active validator; [getIdentifier(true)]
    is the type code and the identifier of the sudo validator when there is
    one, and falls back to the active validator when there is none. *)
Theorem getIdentifier_selects_validator :
  forall (host : Host) (constants : Constants) (p : Params)
         (m : KernelPluginManager),
    toKernelPluginManager host p = Ok m ->
    getIdentifier constants m false
    = VALIDATOR_TYPE constants (Validator.validatorType (activeValidator m))
      ++ Validator.getIdentifier (activeValidator m)
    /\
    (forall s, sudo p = Some s ->
               getIdentifier constants m true
               = VALIDATOR_TYPE constants (Validator.validatorType s)
                 ++ Validator.getIdentifier s)
    /\
    (sudo p = None ->
     getIdentifier constants m true = getIdentifier constants m false).
Proof.
  intros host constants p m Hm.
  destruct (toKernelPluginManager_inv host p m Hm) as [Hp Hact].
  unfold getIdentifier, concatHex. cbn [List.concat]. rewrite Hp.
  repeat split.
  - destruct (regular p) as [r|]; [rewrite Hact|]; rewrite app_nil_r;
      reflexivity.
  - intros s Hs. rewrite Hs, app_nil_r. reflexivity.
  - intros Hs. rewrite Hs.
    destruct (regular p) as [r|]; [rewrite Hact|]; reflexivity.
Qed.

(** The statement on the sample manager with both validators: the sudo
    validator has the type SECONDARY and the identifier [0x44...44]. *)
Lemma getIdentifier_selects_validator_witness :
  getIdentifier Examples.sampleConstants
    (Examples.sampleManager v0_7 (Some Examples.sampleSudo)
       (Some Examples.sampleRegular) None Examples.sampleRegular)
    true
  = [x01] ++ repeat x44 20.
Proof.
  exact (proj1 (proj2 (getIdentifier_selects_validator
                         Examples.sampleHost Examples.sampleConstants
                         (Examples.sampleParams v0_7
                            (Some Examples.sampleSudo)
                            (Some Examples.sampleRegular) None)
                         (Examples.sampleManager v0_7
                            (Some Examples.sampleSudo)
                            (Some Examples.sampleRegular) None
                            Examples.sampleRegular)
                         (sampleManager_built v0_7
                            (Some Examples.sampleSudo)
                            (Some Examples.sampleRegular) None
                            Examples.sampleRegular eq_refl)))
          Examples.sampleSudo eq_refl).
Defined.

(** X9.  Under v0.7, with a regular validator, the nonce key carries what
    [getIdentifier()] returns: for one-byte codes, a 20-byte identifier and
    a sub-key [k] below [2^16], the key [getNonceKey] returns has [k] in its
    low 16 bits, the 21 bytes of [getIdentifier()] in the 168 bits above,
    and the mode code in the top byte, DEFAULT when the enablement check
    answers true and ENABLE when it answers false. *)
Theorem getNonceKey_v07_embeds_getIdentifier :
  forall (host : Host) (constants : Constants) (p : Params)
         (m : KernelPluginManager) (r : KernelValidator)
         (accountAddress : Address) (st st' : State) (k : Z)
         (enabled : bool),
    toKernelPluginManager host p = Ok m ->
    entryPointVersion p = v0_7 ->
    regular p = Some r ->
    length (VALIDATOR_MODE_DEFAULT constants) = 1 ->
    length (VALIDATOR_MODE_ENABLE constants) = 1 ->
    (forall t, length (VALIDATOR_TYPE constants t) = 1) ->
    length (Validator.getIdentifier r) = 20 ->
    Validator.getNonceKey r = Ok k ->
    (0 <= k < 2 ^ 16)%Z ->
    isPluginEnabled host m accountAddress (selector (executorData m)) st
    = (Ok enabled, st') ->
    exists key,
      getNonceKey host constants m accountAddress st = (Ok key, st') /\
      (key mod 2 ^ 16 = k)%Z /\
      ((key / 2 ^ 16) mod 2 ^ 168
       = hexToBigInt (getIdentifier constants m false))%Z /\
      (key / 2 ^ 184
       = hexToBigInt (if enabled then VALIDATOR_MODE_DEFAULT constants
                      else VALIDATOR_MODE_ENABLE constants))%Z.
Proof.
  intros host constants p m r a st st' k enabled
         Hm Hv Hr Hd He Ht Hid Hk Hrange Hen.
  destruct (toKernelPluginManager_inv host p m Hm) as [Hp Hact].
  rewrite Hr in Hact.
  set (mode := if enabled then VALIDATOR_MODE_DEFAULT constants
               else VALIDATOR_MODE_ENABLE constants).
  set (vt := VALIDATOR_TYPE constants (Validator.validatorType r)).
  set (ident := Validator.getIdentifier r).
  assert (Hmode : length mode = 1) by (subst mode; destruct enabled; assumption).
  assert (Hvt : length vt = 1) by apply Ht.
  exists (hexToBigInt (nonceKeyBytes mode vt ident k)).
  split.
  { pose proof (isPluginEnabled_state host m a
                  (selector (executorData m)) st) as Hst.
    rewrite Hen in Hst. cbn [snd] in Hst. subst st'.
    rewrite (getNonceKey_v07_run host constants m a st)
      by (rewrite Hp; exact Hv).
    rewrite Hp, Hr, Hen, Hact, Hk. cbn [fst bindR].
    rewrite (pad_toHex_2 k Hrange). cbn [bindR].
    fold mode vt ident.
    match goal with
    | |- context [pad ?x 24] =>
        replace x with (nonceKeyBytes mode vt ident k)
    end.
    2:{ unfold concatHex, nonceKeyBytes. cbn [List.concat].
        rewrite app_nil_r. reflexivity. }
    pose proof (nonceKeyBytes_length mode vt ident k Hmode Hvt Hid) as Hlen.
    rewrite (pad_exact _ 24 Hlen). cbn [bindR]. unfold BigInt.
    destruct (nonceKeyBytes mode vt ident k) eqn:E; [discriminate Hlen|].
    reflexivity. }
  rewrite (nonceKeyBytes_value mode vt ident k Hmode Hvt Hid Hrange).
  assert (Hident : hexToBigInt (getIdentifier constants m false)
                   = (hexToBigInt vt * 2 ^ 160 + hexToBigInt ident)%Z).
  { unfold getIdentifier, concatHex. cbn [List.concat].
    rewrite Hp, Hr, app_nil_r, hexToBigInt_app, Hid. reflexivity. }
  rewrite Hident.
  pose proof (hexToBigInt_bound mode) as Bm. rewrite Hmode in Bm.
  pose proof (hexToBigInt_bound vt) as Bv. rewrite Hvt in Bv.
  pose proof (hexToBigInt_bound ident) as Bi.
  replace (length ident) with 20 in Bi by (symmetry; exact Hid).
  change (256 ^ Z.of_nat 1)%Z with 256%Z in Bm, Bv.
  change (256 ^ Z.of_nat 20)%Z with (2 ^ 160)%Z in Bi.
  set (M := hexToBigInt mode) in *. set (V := hexToBigInt vt) in *.
  set (I := hexToBigInt ident) in *.
  assert (E16 : (2 ^ 184 = 2 ^ 168 * 2 ^ 16)%Z) by reflexivity.
  assert (E176 : (2 ^ 176 = 2 ^ 160 * 2 ^ 16)%Z) by reflexivity.
  assert (E168 : (2 ^ 168 = 256 * 2 ^ 160)%Z) by reflexivity.
  assert (P16 : (0 < 2 ^ 16)%Z) by reflexivity.
  assert (P160 : (0 < 2 ^ 160)%Z) by reflexivity.
  assert (P168 : (0 < 2 ^ 168)%Z) by reflexivity.
  assert (Hq : ((M * 2 ^ 184 + V * 2 ^ 176 + I * 2 ^ 16 + k)
                = (M * 2 ^ 168 + (V * 2 ^ 160 + I)) * 2 ^ 16 + k)%Z).
  { rewrite E16, E176. ring. }
  rewrite Hq. clear Hq.
  assert (Hlow : (0 <= V * 2 ^ 160 + I < 2 ^ 168)%Z) by (rewrite E168; nia).
  assert (Hdiv : (((M * 2 ^ 168 + (V * 2 ^ 160 + I)) * 2 ^ 16 + k) / 2 ^ 16
                  = M * 2 ^ 168 + (V * 2 ^ 160 + I))%Z).
  { rewrite Z.add_comm, Z.div_add by lia. rewrite Z.div_small by lia. lia. }
  split; [|split].
  - rewrite Z.add_comm, Z.mod_add by lia. apply Z.mod_small. lia.
  - rewrite Hdiv. rewrite Z.add_comm, Z.mod_add by lia.
    apply Z.mod_small. exact Hlow.
  - replace (2 ^ 184)%Z with (2 ^ 16 * 2 ^ 168)%Z by reflexivity.
    rewrite <- Z.div_div by lia. rewrite Hdiv.
    rewrite Z.add_comm, Z.div_add by lia. rewrite Z.div_small by lia. lia.
Qed.

(** The statement on the sample manager under v0.7, whose regular
    validator is not enabled. *)
Lemma getNonceKey_v07_embeds_getIdentifier_witness :
  exists key,
    getNonceKey Examples.sampleHost Examples.sampleConstants
      (Examples.sampleManager v0_7 (Some Examples.sampleSudo)
         (Some Examples.sampleRegular) None Examples.sampleRegular)
      zeroAddress
      (initialState (Examples.sampleParams v0_7 (Some Examples.sampleSudo)
                       (Some Examples.sampleRegular) None))
    = (Ok key,
       initialState (Examples.sampleParams v0_7 (Some Examples.sampleSudo)
                       (Some Examples.sampleRegular) None)) /\
    (key mod 2 ^ 16 = 5)%Z /\
    ((key / 2 ^ 16) mod 2 ^ 168
     = hexToBigInt
         (getIdentifier Examples.sampleConstants
            (Examples.sampleManager v0_7 (Some Examples.sampleSudo)
               (Some Examples.sampleRegular) None Examples.sampleRegular)
            false))%Z /\
    (key / 2 ^ 184 = hexToBigInt [x01])%Z.
Proof.
  refine (getNonceKey_v07_embeds_getIdentifier
            Examples.sampleHost Examples.sampleConstants
            (Examples.sampleParams v0_7 (Some Examples.sampleSudo)
               (Some Examples.sampleRegular) None)
            (Examples.sampleManager v0_7 (Some Examples.sampleSudo)
               (Some Examples.sampleRegular) None Examples.sampleRegular)
            Examples.sampleRegular zeroAddress
            (initialState (Examples.sampleParams v0_7
                             (Some Examples.sampleSudo)
                             (Some Examples.sampleRegular) None))
            (initialState (Examples.sampleParams v0_7
                             (Some Examples.sampleSudo)
                             (Some Examples.sampleRegular) None))
            5%Z false _ eq_refl eq_refl eq_refl eq_refl _ eq_refl eq_refl _
            eq_refl).
  - apply sampleManager_built. reflexivity.
  - intros []; reflexivity.
  - lia.
Defined.

(** *** What the enable signature signs *)

(** X20.  An enable signature that [getPluginEnableSignature] generates (none
    being stored) is the sudo validator's signature of the enable typed data
    of the regular validator: the typed data built for the account asked
    for, the chain id read at construction, the executor data and the
    regular validator; under v0.6 with the validity window and the kernel
    version of the account metadata, or the configured one when the
    metadata has none; under v0.7 with the version of the metadata and the
    validator nonce read from the account.  Exactly this typed data is what
    the call adds to the signatures the sudo validator made. *)
Theorem enable_signature_signs_enable_typed_data :
  forall (host : Host) (m : KernelPluginManager) (accountAddress : Address)
         (st st' : State) (sig : Hex),
    pluginEnableSignature st = None ->
    getPluginEnableSignature host m accountAddress st = (Ok sig, st') ->
    exists sudoV regularV metaVersion typedData,
      sudo (params m) = Some sudoV /\
      regular (params m) = Some regularV /\
      accountMetadata host accountAddress = Ok metaVersion /\
      match entryPointVersion (params m) with
      | v0_6 =>
          getPluginsEnableTypedDataV1 host accountAddress (chainId m)
            (match metaVersion with
             | Some v => Some v
             | None => kernelVersion (params m)
             end)
            (executorData m) regularV
            (validUntil (params m)) (validAfter (params m))
      | v0_7 =>
          bindR (getKernelV3Nonce host accountAddress) (fun validatorNonce =>
          getPluginsEnableTypedDataV2 host accountAddress (chainId m)
            metaVersion (executorData m) regularV validatorNonce)
      end = Ok typedData /\
      Validator.signTypedData sudoV typedData = Ok sig /\
      signTypedDataCalls st' = signTypedDataCalls st ++ [typedData].
Proof.
  intros host m a st st' sig Hnone.
  unfold getPluginEnableSignature, bind, readPluginEnableSignature, ret,
    throw, lift, sudoSignTypedData, writePluginEnableSignature.
  rewrite Hnone.
  destruct (sudo (params m)) as [sv|]; [|discriminate].
  destruct (regular (params m)) as [rv|]; [|discriminate].
  destruct (accountMetadata host a) as [mv|]; [|discriminate].
  destruct (entryPointVersion (params m)).
  - destruct (getPluginsEnableTypedDataV1 _ _ _ _ _ _ _ _) as [td|] eqn:Etd;
      [|discriminate].
    destruct (Validator.signTypedData sv td) as [s|] eqn:Es; [|discriminate].
    intros H. inversion H; subst.
    exists sv, rv, mv, td. cbn. repeat split; assumption.
  - destruct (getKernelV3Nonce host a) as [n|]; [|discriminate].
    destruct (getPluginsEnableTypedDataV2 _ _ _ _ _ _ _) as [td|] eqn:Etd;
      [|discriminate].
    destruct (Validator.signTypedData sv td) as [s|] eqn:Es; [|discriminate].
    intros H. inversion H; subst.
    exists sv, rv, mv, td. cbn. repeat split; assumption.
Qed.

(** The statement on the sample manager under v0.7, asked for the account
    [0x77...77]: the typed data of the sample host are the account, the
    selector and the address of the regular validator. *)
Lemma enable_signature_signs_enable_typed_data_witness :
  let m := Examples.sampleManager v0_7 (Some Examples.sampleSudo)
             (Some Examples.sampleRegular) None Examples.sampleRegular in
  let st := initialState (Examples.sampleParams v0_7
                            (Some Examples.sampleSudo)
                            (Some Examples.sampleRegular) None) in
  exists typedData : TypedData,
    typedData = repeat x77 20 ++ hex "0x51945447" ++ repeat x22 20 /\
    Validator.signTypedData Examples.sampleSudo typedData
    = Ok (repeat x11 65) /\
    signTypedDataCalls
      (snd (getPluginEnableSignature Examples.sampleHost m (repeat x77 20)
              st))
    = signTypedDataCalls st ++ [typedData].
Proof.
  cbv zeta.
  destruct (enable_signature_signs_enable_typed_data
              Examples.sampleHost
              (Examples.sampleManager v0_7 (Some Examples.sampleSudo)
                 (Some Examples.sampleRegular) None Examples.sampleRegular)
              (repeat x77 20)
              (initialState (Examples.sampleParams v0_7
                               (Some Examples.sampleSudo)
                               (Some Examples.sampleRegular) None))
              _ (repeat x11 65) eq_refl eq_refl)
    as (sv & rv & mv & td & Hs & Hr & Hm & Htd & Hsig & Hcalls).
  exists td. inversion Hs; subst sv. inversion Hr; subst rv.
  inversion Htd; subst td.
  split; [reflexivity|]. split; [exact Hsig | exact Hcalls].
Defined.

End ManagerLaws.

(** ** Reading encodings back *)

Module AbiReadFacts.
Import Viem Abi AbiRead ViemFacts AbiFacts.

(** The word [encodeUint256] writes denotes the number encoded. *)
Lemma encodeUint256_value (n : Z) (w : Hex) :
  encodeUint256 n = Ok w -> hexToBigInt w = n.
Proof.
  unfold encodeUint256.
  destruct ((n <? 0) || (maxUint256 <? n))%Z eqn:E; [discriminate|].
  apply Bool.orb_false_elim in E. destruct E as [E1 _].
  apply Z.ltb_ge in E1.
  destruct (toHex_value n E1) as (h & Hh & Hv). rewrite Hh. cbn [bindR].
  unfold pad. destruct (32 <? length h); [discriminate|].
  intros H. inversion H.
  rewrite hexToBigInt_app, hexToBigInt_zeros, Hv. lia.
Qed.

Lemma bytesAt_take (a rest : Hex) (len : nat) :
  length a = len -> bytesAt 0 len (a ++ rest) = a.
Proof.
  intros <-. unfold bytesAt. cbn [skipn].
  rewrite firstn_app, Nat.sub_diag, firstn_all. cbn [firstn].
  apply app_nil_r.
Qed.

Lemma bytesAt_skip (a rest : Hex) (n off len : nat) :
  length a = n -> bytesAt (n + off) len (a ++ rest) = bytesAt off len rest.
Proof.
  intros <-. unfold bytesAt.
  rewrite skipn_app, skipn_all2 by lia.
  replace (length a + off - length a) with off by lia. reflexivity.
Qed.

Lemma bytesAt_padRight (b rest : Hex) :
  bytesAt 0 (length b) (padRight b ++ rest) = b.
Proof.
  unfold padRight. rewrite <- app_assoc. apply bytesAt_take. reflexivity.
Qed.

Lemma wordAt_here (w rest : Hex) (n : Z) :
  encodeUint256 n = Ok w -> hexToBigInt (bytesAt 0 32 (w ++ rest)) = n.
Proof.
  intros H. rewrite bytesAt_take by exact (encodeUint256_length _ _ H).
  exact (encodeUint256_value _ _ H).
Qed.

(** The encoding of [(bytes, string, uint256, uint256, uint256)] laid out:
    five head words, then the two tails, each a length word and the
    zero-padded content. *)
Lemma encode_webauthn_shape (auth json : Hex) (loc r s : Z) (e : Hex) :
  encodeAbiParameters
    [Bytes auth; AbiString json; Uint256 loc; Uint256 r; Uint256 s] = Ok e ->
  exists o1 o2 w3 w4 w5 la lj,
    encodeUint256 160 = Ok o1 /\
    encodeUint256 (Z.of_nat (192 + ceil32 (length auth))) = Ok o2 /\
    encodeUint256 loc = Ok w3 /\
    encodeUint256 r = Ok w4 /\
    encodeUint256 s = Ok w5 /\
    encodeUint256 (Z.of_nat (length auth)) = Ok la /\
    encodeUint256 (Z.of_nat (length json)) = Ok lj /\
    e = o1 ++ o2 ++ w3 ++ w4 ++ w5
           ++ (la ++ padRight auth) ++ (lj ++ padRight json).
Proof.
  unfold encodeAbiParameters, encodeParams, encodeValue.
  cbn [isDynamic length].
  destruct (encodeBytes auth) as [ea|] eqn:Ea; [|discriminate].
  cbn [bindR].
  destruct (encodeUint256 (Z.of_nat (32 * 5 + 0))) as [o1|] eqn:E1;
    [|discriminate].
  cbn [bindR].
  destruct (encodeBytes json) as [ej|] eqn:Ej; [|discriminate].
  cbn [bindR].
  destruct (encodeUint256 (Z.of_nat (32 * 5 + (0 + length ea)))) as [o2|] eqn:E2;
    [|discriminate].
  cbn [bindR].
  destruct (encodeUint256 loc) as [w3|] eqn:E3; [|discriminate].
  cbn [bindR].
  destruct (encodeUint256 r) as [w4|] eqn:E4; [|discriminate].
  cbn [bindR].
  destruct (encodeUint256 s) as [w5|] eqn:E5; [|discriminate].
  cbn [bindR fst snd]. intros H. inversion H; subst e. clear H.
  rewrite (encodeBytes_length _ _ Ea) in E2.
  unfold encodeBytes in Ea, Ej.
  destruct (encodeUint256 (Z.of_nat (length auth))) as [la|] eqn:Ela;
    [|discriminate].
  destruct (encodeUint256 (Z.of_nat (length json))) as [lj|] eqn:Elj;
    [|discriminate].
  cbn [bindR] in Ea, Ej. inversion Ea; subst ea. inversion Ej; subst ej.
  exists o1, o2, w3, w4, w5, la, lj.
  repeat split; try assumption.
  rewrite !app_nil_r, <- !app_assoc. reflexivity.
Qed.

(** Decoding gives back the five values. *)
Lemma decode_webauthn (auth json : Hex) (loc r s : Z) (e : Hex) :
  encodeAbiParameters
    [Bytes auth; AbiString json; Uint256 loc; Uint256 r; Uint256 s] = Ok e ->
  readBytes 0 e = auth /\
  readBytes 1 e = json /\
  wordAt 2 e = loc /\ wordAt 3 e = r /\ wordAt 4 e = s.
Proof.
  intros H.
  destruct (encode_webauthn_shape _ _ _ _ _ _ H)
    as (o1 & o2 & w3 & w4 & w5 & la & lj &
        E1 & E2 & E3 & E4 & E5 & Ela & Elj & ->).
  pose proof (encodeUint256_length _ _ E1) as L1.
  pose proof (encodeUint256_length _ _ E2) as L2.
  pose proof (encodeUint256_length _ _ E3) as L3.
  pose proof (encodeUint256_length _ _ E4) as L4.
  pose proof (encodeUint256_length _ _ E5) as L5.
  pose proof (encodeUint256_length _ _ Ela) as Lla.
  pose proof (encodeUint256_length _ _ Elj) as Llj.
  assert (Lpa : length (padRight auth) = ceil32 (length auth))
    by apply padRight_length.
  set (tailJ := lj ++ padRight json).
  set (tailA := la ++ padRight auth).
  (* the head words *)
  assert (W0 : wordAt 0 (o1 ++ o2 ++ w3 ++ w4 ++ w5 ++ tailA ++ tailJ) = 160%Z).
  { unfold wordAt. change (32 * 0) with 0. exact (wordAt_here _ _ _ E1). }
  assert (W1 : wordAt 1 (o1 ++ o2 ++ w3 ++ w4 ++ w5 ++ tailA ++ tailJ)
               = Z.of_nat (192 + ceil32 (length auth))).
  { unfold wordAt. change (32 * 1) with (32 + 0).
    rewrite (bytesAt_skip o1 _ 32 0 32 L1). exact (wordAt_here _ _ _ E2). }
  assert (Hskip5 : forall off len,
             bytesAt (160 + off) len
               (o1 ++ o2 ++ w3 ++ w4 ++ w5 ++ tailA ++ tailJ)
             = bytesAt off len (tailA ++ tailJ)).
  { intros off len.
    change (160 + off) with (32 + (32 + (32 + (32 + (32 + off))))).
    rewrite (bytesAt_skip o1 _ 32 _ len L1), (bytesAt_skip o2 _ 32 _ len L2),
      (bytesAt_skip w3 _ 32 _ len L3), (bytesAt_skip w4 _ 32 _ len L4),
      (bytesAt_skip w5 _ 32 _ len L5). reflexivity. }
  split; [|split; [|split; [|split]]].
  - unfold readBytes. rewrite W0.
    change (Z.to_nat 160) with (160 + 0).
    rewrite (Hskip5 0 32).
    change (160 + 0 + 32) with (160 + (32 + 0)).
    rewrite (Hskip5 (32 + 0)).
    unfold tailA. rewrite <- !app_assoc.
    rewrite (wordAt_here _ _ _ Ela), Nat2Z.id.
    rewrite (bytesAt_skip la _ 32 0 _ Lla).
    apply bytesAt_padRight.
  - unfold readBytes. rewrite W1, Nat2Z.id.
    assert (Htail : forall off len,
               bytesAt (192 + ceil32 (length auth) + off) len
                 (o1 ++ o2 ++ w3 ++ w4 ++ w5 ++ tailA ++ tailJ)
               = bytesAt off len tailJ).
    { intros off len.
      replace (192 + ceil32 (length auth) + off)
        with (160 + (32 + (ceil32 (length auth) + off))) by lia.
      rewrite Hskip5. unfold tailA. rewrite <- app_assoc.
      rewrite (bytesAt_skip la _ 32 _ len Lla).
      rewrite (bytesAt_skip (padRight auth) _ _ _ len Lpa). reflexivity. }
    rewrite (Htail 32).
    replace (192 + ceil32 (length auth))
      with (192 + ceil32 (length auth) + 0) by lia.
    rewrite (Htail 0 32). unfold tailJ.
    rewrite (wordAt_here _ _ _ Elj), Nat2Z.id.
    change 32 with (32 + 0) at 1.
    rewrite (bytesAt_skip lj _ 32 0 _ Llj).
    rewrite <- (app_nil_r (padRight json)). apply bytesAt_padRight.
  - unfold wordAt. change (32 * 2) with (32 + (32 + 0)).
    rewrite (bytesAt_skip o1 _ 32 _ 32 L1), (bytesAt_skip o2 _ 32 _ 32 L2).
    exact (wordAt_here _ _ _ E3).
  - unfold wordAt. change (32 * 3) with (32 + (32 + (32 + 0))).
    rewrite (bytesAt_skip o1 _ 32 _ 32 L1), (bytesAt_skip o2 _ 32 _ 32 L2),
      (bytesAt_skip w3 _ 32 _ 32 L3).
    exact (wordAt_here _ _ _ E4).
  - unfold wordAt. change (32 * 4) with (32 + (32 + (32 + (32 + 0)))).
    rewrite (bytesAt_skip o1 _ 32 _ 32 L1), (bytesAt_skip o2 _ 32 _ 32 L2),
      (bytesAt_skip w3 _ 32 _ 32 L3), (bytesAt_skip w4 _ 32 _ 32 L4).
    exact (wordAt_here _ _ _ E5).
Qed.

End AbiReadFacts.

(** ** Further properties of the passkey validators and the ECDSA account *)

Module AccountLaws.
Import Viem Abi AbiRead ViemFacts AbiFacts AbiReadFacts AccountFacts.

(** *** Construction of a passkey validator *)

(** X10.  The constructors of the passkey validator go through five steps
    and fail at the first one that fails, with its error: the exchange with
    the relay and the authenticator (registration, or login); the check that
    the relay verified it ("Registration not verified", "Login not
    verified"); the check that a public key came back ("No public key
    returned ..."); the import of that key by the platform; the read of the
    chain id.  When the five steps pass a validator is returned; it carries
    the validator address it was given, and its nonce sub-key is 0. *)
Theorem passkey_constructor_outcome :
  forall (host : Passkey.Host) (entryPoint validatorAddress : Address),
    let outcome (exchange : result unit) (verified : bool)
                (notVerified : Error) (publicKey : option (Z * Z))
                (keyImport : result unit)
                (built : result Passkey.WebAuthnValidator) : Prop :=
      (forall e, exchange = Err e -> built = Err e) /\
      (exchange = Ok tt -> verified = false -> built = Err notVerified) /\
      (exchange = Ok tt -> verified = true -> publicKey = None ->
       built = Err NoPublicKeyReturned) /\
      (forall e, exchange = Ok tt -> verified = true -> publicKey <> None ->
                 keyImport = Err e -> built = Err e) /\
      (forall e, exchange = Ok tt -> verified = true -> publicKey <> None ->
                 keyImport = Ok tt -> Passkey.getChainId host = Err e ->
                 built = Err e) /\
      (forall c, exchange = Ok tt -> verified = true -> publicKey <> None ->
                 keyImport = Ok tt -> Passkey.getChainId host = Ok c ->
                 exists v,
                   built = Ok v /\
                   Passkey.address v = validatorAddress /\
                   Passkey.getNonceKey v = Ok 0%Z) in
    outcome (Passkey.registerExchange host) (Passkey.registerVerified host)
      RegistrationNotVerified (Passkey.registerPublicKey host)
      (Passkey.registerKeyImport host)
      (Passkey.createPasskeyValidator host entryPoint validatorAddress)
    /\
    outcome (Passkey.loginExchange host) (Passkey.loginVerified host)
      LoginNotVerified (Passkey.loginPublicKey host)
      (Passkey.loginKeyImport host)
      (Passkey.getPasskeyValidator host entryPoint validatorAddress).
Proof.
  intros host entryPoint validatorAddress. cbv zeta.
  unfold Passkey.createPasskeyValidator, Passkey.getPasskeyValidator.
  split.
  - destruct (Passkey.registerExchange host) as [[]|e0];
      destruct (Passkey.registerVerified host);
      destruct (Passkey.registerPublicKey host) as [pk|];
      destruct (Passkey.registerKeyImport host) as [[]|e1];
      destruct (Passkey.getChainId host) as [c|e2];
      cbn [bindR negb];
      repeat (split; [intros; congruence|]);
      intros; first [congruence
                    | eexists; split; [reflexivity|]; split; reflexivity].
  - destruct (Passkey.loginExchange host) as [[]|e0];
      destruct (Passkey.loginVerified host);
      destruct (Passkey.loginPublicKey host) as [pk|];
      destruct (Passkey.loginKeyImport host) as [[]|e1];
      destruct (Passkey.getChainId host) as [c|e2];
      cbn [bindR negb];
      repeat (split; [intros; congruence|]);
      intros; first [congruence
                    | eexists; split; [reflexivity|]; split; reflexivity].
Qed.

(** The statement on a relay whose credential carries a public key the
    platform cannot import: registration is verified and a key came back,
    and the construction fails with the error of the import. *)
Lemma passkey_constructor_outcome_witness :
  Passkey.createPasskeyValidator Scenarios.badKeyPasskeyHost
    (repeat x0e 20) (repeat x0f 20)
  = Err (External 7).
Proof.
  refine (proj1 (proj2 (proj2 (proj2 (proj1
            (passkey_constructor_outcome Scenarios.badKeyPasskeyHost
               (repeat x0e 20) (repeat x0f 20))))))
            (External 7) eq_refl eq_refl _ eq_refl).
  discriminate.
Defined.

(** *** Signing with a passkey *)

(** X12.  A signing ceremony the relay does not verify never yields a
    signature: on a validator either constructor built, [signMessage],
    [signTypedData] (for typed data that passes validation) and
    [signUserOperation] fail with "Signature not verified".  Typed data that
    fails validation is rejected with the validation error. *)
Theorem unverified_ceremony_never_signs :
  forall (host : Passkey.Host) (entryPoint validatorAddress : Address)
         (v : Passkey.WebAuthnValidator),
    Passkey.createPasskeyValidator host entryPoint validatorAddress = Ok v \/
    Passkey.getPasskeyValidator host entryPoint validatorAddress = Ok v ->
    (forall message,
        Passkey.success (Passkey.signCeremony host message) = false ->
        Passkey.signMessage v message = Err SignatureNotVerified)
    /\
    (forall typedData,
        Passkey.validateTypedData host typedData = Ok tt ->
        Passkey.success
          (Passkey.signCeremony host (Passkey.hashTypedData host typedData))
        = false ->
        Passkey.signTypedData v typedData = Err SignatureNotVerified)
    /\
    (forall typedData e,
        Passkey.validateTypedData host typedData = Err e ->
        Passkey.signTypedData v typedData = Err e)
    /\
    (forall userOperation chainId,
        Passkey.getChainId host = Ok chainId ->
        Passkey.success
          (Passkey.signCeremony host
             (Passkey.getUserOperationHash host
                (withSignature userOperation []) entryPoint chainId))
        = false ->
        Passkey.signUserOperation v userOperation
        = Err SignatureNotVerified).
Proof.
  intros host entryPoint validatorAddress v H.
  destruct (passkey_validator_inv host entryPoint validatorAddress v H)
    as (c & pk & ih & Hc & ->).
  cbn [Passkey.signMessage Passkey.signTypedData Passkey.signUserOperation
       Passkey.buildValidator].
  assert (Hmsg : forall message,
             Passkey.success (Passkey.signCeremony host message) = false ->
             Passkey.account_signMessage host message
             = Err SignatureNotVerified).
  { intros message Hs. unfold Passkey.account_signMessage. rewrite Hs.
    reflexivity. }
  split; [exact Hmsg|]. split; [|split].
  - intros typedData Hv Hs. unfold Passkey.account_signTypedData.
    rewrite Hv. cbn [bindR]. apply Hmsg. exact Hs.
  - intros typedData e Hv. unfold Passkey.account_signTypedData.
    rewrite Hv. reflexivity.
  - intros userOperation chainId Hc' Hs.
    rewrite Hc in Hc'. inversion Hc'; subst chainId.
    unfold Passkey.validator_signUserOperation. apply Hmsg. exact Hs.
Qed.

(** The statement on a relay that rejects every ceremony. *)
Lemma unverified_ceremony_never_signs_witness :
  exists v,
    Passkey.getPasskeyValidator Scenarios.rejectingPasskeyHost
      (repeat x0e 20) (repeat x0f 20) = Ok v /\
    Passkey.signMessage v (repeat x01 32) = Err SignatureNotVerified /\
    Passkey.signUserOperation v Examples.sampleUserOperation
    = Err SignatureNotVerified.
Proof.
  eexists. split; [reflexivity|].
  destruct (unverified_ceremony_never_signs Scenarios.rejectingPasskeyHost
              (repeat x0e 20) (repeat x0f 20) _ (or_intror eq_refl))
    as (H1 & _ & _ & H4).
  split.
  - apply H1. reflexivity.
  - apply (H4 Examples.sampleUserOperation 1%Z); reflexivity.
Defined.

(** X13.  A signature a passkey validator returns decodes to the ceremony
    behind it: read back as [(bytes, string, uint256, uint256, uint256)],
    the result of [signMessage] gives the authenticator data, the client
    data JSON, the offset of the type field and the pair [(r, s)] of the
    verified ceremony for the message; for [signUserOperation] the message
    is the hash of the operation with its signature field emptied. *)
Theorem passkey_signature_decodes_to_ceremony :
  forall (host : Passkey.Host) (entryPoint validatorAddress : Address)
         (v : Passkey.WebAuthnValidator),
    Passkey.createPasskeyValidator host entryPoint validatorAddress = Ok v \/
    Passkey.getPasskeyValidator host entryPoint validatorAddress = Ok v ->
    (forall message sig,
        Passkey.signMessage v message = Ok sig ->
        let c := Passkey.signCeremony host message in
        Passkey.success c = true /\
        readBytes 0 sig = Passkey.authenticatorData c /\
        readBytes 1 sig = Passkey.clientDataJSON c /\
        wordAt 2 sig = Passkey.beforeType c /\
        wordAt 3 sig = Passkey.sigR c /\
        wordAt 4 sig = Passkey.sigS c)
    /\
    (forall userOperation sig,
        Passkey.signUserOperation v userOperation = Ok sig ->
        exists chainId,
          Passkey.getChainId host = Ok chainId /\
          Passkey.signMessage v
            (Passkey.getUserOperationHash host
               (withSignature userOperation []) entryPoint chainId)
          = Ok sig).
Proof.
  intros host entryPoint validatorAddress v H.
  destruct (passkey_validator_inv host entryPoint validatorAddress v H)
    as (c & pk & ih & Hc & ->).
  cbn [Passkey.signMessage Passkey.signUserOperation Passkey.buildValidator].
  split.
  - intros message sig Hsig. cbv zeta.
    unfold Passkey.account_signMessage in Hsig.
    destruct (Passkey.success (Passkey.signCeremony host message));
      [|discriminate Hsig].
    cbn [negb] in Hsig. split; [reflexivity|].
    exact (decode_webauthn _ _ _ _ _ _ Hsig).
  - intros userOperation sig Hsig. exists c. split; [exact Hc|].
    exact Hsig.
Qed.

(** The statement on the sample relay: the signature of a message carries
    the 37 bytes of authenticator data and the pair [(7, 9)]. *)
Lemma passkey_signature_decodes_to_ceremony_witness :
  exists v sig,
    Passkey.createPasskeyValidator Examples.samplePasskeyHost
      (repeat x0e 20) (repeat x0f 20) = Ok v /\
    Passkey.signMessage v (repeat x01 32) = Ok sig /\
    readBytes 0 sig = repeat x49 32 ++ hex "0x0500000001" /\
    wordAt 3 sig = 7%Z /\ wordAt 4 sig = 9%Z.
Proof.
  eexists. eexists. split; [reflexivity|].
  split; [vm_compute; reflexivity|].
  destruct (proj1 (passkey_signature_decodes_to_ceremony
                     Examples.samplePasskeyHost
                     (repeat x0e 20) (repeat x0f 20) _ (or_introl eq_refl))
              (repeat x01 32) _ ltac:(vm_compute; reflexivity))
    as (_ & H0 & _ & _ & H3 & H4).
  split; [exact H0|]. split; [exact H3 | exact H4].
Defined.

(** *** The enable data of a passkey validator *)

(** The encoding of [((uint256, uint256, bool), bytes32)]: four words. *)
Lemma encode_enable_data (x y : Z) (b : bool) (h : Hex) :
  (0 <= x <= maxUint256)%Z -> (0 <= y <= maxUint256)%Z -> length h = 32 ->
  exists wx wy wb,
    encodeUint256 x = Ok wx /\ encodeUint256 y = Ok wy /\
    encodeUint256 (if b then 1 else 0) = Ok wb /\
    encodeAbiParameters [Uint256 x; Uint256 y; Bool b; Bytes32 h]
    = Ok (wx ++ wy ++ wb ++ h).
Proof.
  intros Hx Hy Hh.
  destruct (encodeUint256_ok x Hx) as [wx Ex].
  destruct (encodeUint256_ok y Hy) as [wy Ey].
  assert (Eb : exists wb, encodeUint256 (if b then 1 else 0) = Ok wb)
    by (destruct b; eexists; reflexivity).
  destruct Eb as [wb Eb].
  exists wx, wy, wb. repeat split; try assumption.
  unfold encodeAbiParameters, encodeParams, encodeValue.
  cbn [isDynamic length encodeBytes32s].
  rewrite Ex, Ey, Eb, Hh, Nat.eqb_refl. cbn [bindR fst snd].
  rewrite !app_nil_r. reflexivity.
Qed.

Lemma decode_enable_data (x y : Z) (b : bool) (h : Hex) :
  (0 <= x <= maxUint256)%Z -> (0 <= y <= maxUint256)%Z -> length h = 32 ->
  exists e,
    encodeAbiParameters [Uint256 x; Uint256 y; Bool b; Bytes32 h] = Ok e /\
    length e = 128 /\
    wordAt 0 e = x /\ wordAt 1 e = y /\
    wordAt 2 e = (if b then 1 else 0)%Z /\
    bytesAt 96 32 e = h.
Proof.
  intros Hx Hy Hh.
  destruct (encode_enable_data x y b h Hx Hy Hh)
    as (wx & wy & wb & Ex & Ey & Eb & He).
  pose proof (encodeUint256_length _ _ Ex) as Lx.
  pose proof (encodeUint256_length _ _ Ey) as Ly.
  pose proof (encodeUint256_length _ _ Eb) as Lb.
  exists (wx ++ wy ++ wb ++ h). split; [exact He|].
  split; [rewrite !length_app, Lx, Ly, Lb, Hh; reflexivity|].
  unfold wordAt. split; [|split; [|split]].
  - change (32 * 0) with 0. exact (wordAt_here _ _ _ Ex).
  - change (32 * 1) with (32 + 0).
    rewrite (bytesAt_skip wx _ 32 _ 32 Lx). exact (wordAt_here _ _ _ Ey).
  - change (32 * 2) with (32 + (32 + 0)).
    rewrite (bytesAt_skip wx _ 32 _ 32 Lx), (bytesAt_skip wy _ 32 _ 32 Ly).
    exact (wordAt_here _ _ _ Eb).
  - change 96 with (32 + (32 + (32 + 0))).
    rewrite (bytesAt_skip wx _ 32 _ 32 Lx), (bytesAt_skip wy _ 32 _ 32 Ly),
      (bytesAt_skip wb _ 32 _ 32 Lb).
    rewrite <- (app_nil_r h) at 1. apply bytesAt_take. exact Hh.
Qed.

(** X14.  The enable data of a passkey validator are four words, 128
    bytes: the coordinates [x] and [y] of the public key of the credential
    the validator was built from, the flag telling whether the chain has
    the P-256 precompile (1 or 0), and the authenticator id hash.  They are
    produced whenever the coordinates fit 256 bits and the hash has 32
    bytes. *)
Theorem passkey_enable_data_layout :
  forall (host : Passkey.Host) (entryPoint validatorAddress : Address)
         (v : Passkey.WebAuthnValidator) (x y : Z) (idHash : Hex),
    (Passkey.createPasskeyValidator host entryPoint validatorAddress = Ok v /\
     Passkey.registerPublicKey host = Some (x, y) /\
     Passkey.registerAuthenticatorIdHash host = idHash)
    \/
    (Passkey.getPasskeyValidator host entryPoint validatorAddress = Ok v /\
     Passkey.loginPublicKey host = Some (x, y) /\
     Passkey.loginAuthenticatorIdHash host = idHash) ->
    (0 <= x <= maxUint256)%Z ->
    (0 <= y <= maxUint256)%Z ->
    length idHash = 32 ->
    exists chainId enableData,
      Passkey.getChainId host = Ok chainId /\
      Passkey.getEnableData v = Ok enableData /\
      length enableData = 128 /\
      wordAt 0 enableData = x /\
      wordAt 1 enableData = y /\
      wordAt 2 enableData
      = (if Passkey.isRIP7212SupportedNetwork host chainId then 1 else 0)%Z /\
      bytesAt 96 32 enableData = idHash.
Proof.
  intros host entryPoint validatorAddress v x y idHash H Hx Hy Hh.
  assert (Hv : exists chainId,
             Passkey.getChainId host = Ok chainId /\
             v = Passkey.buildValidator host entryPoint chainId
                   validatorAddress (x, y) idHash).
  { unfold Passkey.createPasskeyValidator, Passkey.getPasskeyValidator in H.
    destruct H as [(H & Hk & Hi)|(H & Hk & Hi)]; rewrite Hk, Hi in H.
    - destruct (Passkey.registerExchange host); [|discriminate].
      cbn [bindR] in H.
      destruct (Passkey.registerVerified host); [|discriminate].
      destruct (Passkey.registerKeyImport host); [|discriminate].
      destruct (Passkey.getChainId host) as [c|]; [|discriminate].
      cbn in H. inversion H. eauto.
    - destruct (Passkey.loginExchange host); [|discriminate].
      cbn [bindR] in H.
      destruct (Passkey.loginVerified host); [|discriminate].
      destruct (Passkey.loginKeyImport host); [|discriminate].
      destruct (Passkey.getChainId host) as [c|]; [|discriminate].
      cbn in H. inversion H. eauto. }
  destruct Hv as (c & Hc & ->).
  destruct (decode_enable_data x y (Passkey.isRIP7212SupportedNetwork host c)
              idHash Hx Hy Hh) as (e & He & Hrest).
  exists c, e. split; [exact Hc|]. split; [exact He | exact Hrest].
Qed.

(** The statement on the sample relay, whose credential has the key
    [(1, 2)]. *)
Lemma passkey_enable_data_layout_witness :
  exists v chainId enableData,
    Passkey.createPasskeyValidator Examples.samplePasskeyHost
      (repeat x0e 20) (repeat x0f 20) = Ok v /\
    Passkey.getChainId Examples.samplePasskeyHost = Ok chainId /\
    Passkey.getEnableData v = Ok enableData /\
    length enableData = 128 /\
    wordAt 0 enableData = 1%Z /\
    wordAt 1 enableData = 2%Z /\
    wordAt 2 enableData
    = (if Passkey.isRIP7212SupportedNetwork Examples.samplePasskeyHost
            chainId then 1 else 0)%Z /\
    bytesAt 96 32 enableData = repeat x0a 32.
Proof.
  eexists.
  destruct (passkey_enable_data_layout Examples.samplePasskeyHost
              (repeat x0e 20) (repeat x0f 20) _ 1%Z 2%Z (repeat x0a 32)
              (or_introl (conj eq_refl (conj eq_refl eq_refl))))
    as (c & e & H).
  - unfold maxUint256. lia.
  - unfold maxUint256. lia.
  - reflexivity.
  - exists c, e. split; [reflexivity | exact H].
Defined.

(** *** The signature field of the operation signed *)

(** X15.  [signUserOperation] never reads the signature field of the
    operation it is given: on a passkey validator and on the ECDSA kernel
    account, an operation with any signature already in place is signed as
    the same operation without it. *)
Theorem signUserOperation_ignores_signature_field :
  (forall (host : Passkey.Host) (entryPoint validatorAddress : Address)
          (v : Passkey.WebAuthnValidator) (userOperation : UserOperation)
          (present : Hex),
      Passkey.createPasskeyValidator host entryPoint validatorAddress = Ok v \/
      Passkey.getPasskeyValidator host entryPoint validatorAddress = Ok v ->
      Passkey.signUserOperation v (withSignature userOperation present)
      = Passkey.signUserOperation v userOperation)
  /\
  (forall (host : EcdsaKernel.Host) (entryPoint : Address)
          (deployed : option Address) (a : EcdsaKernel.KernelSmartAccount)
          (userOperation : UserOperation) (present : Hex),
      EcdsaKernel.signerToEcdsaKernelSmartAccount host entryPoint deployed
      = Ok a ->
      EcdsaKernel.signUserOperation a (withSignature userOperation present)
      = EcdsaKernel.signUserOperation a userOperation).
Proof.
  split.
  - intros host entryPoint validatorAddress v op present H.
    destruct (passkey_validator_inv host entryPoint validatorAddress v H)
      as (c & pk & ih & _ & ->).
    reflexivity.
  - intros host entryPoint deployed a op present H.
    destruct (ecdsa_account_inv host entryPoint deployed a H)
      as (addr & c & _ & ->).
    reflexivity.
Qed.

(** The statement on the sample signer. *)
Lemma signUserOperation_ignores_signature_field_witness :
  exists a,
    EcdsaKernel.signerToEcdsaKernelSmartAccount Examples.sampleSignerHost
      (repeat x0e 20) None = Ok a /\
    EcdsaKernel.signUserOperation a
      (withSignature Examples.sampleUserOperation (repeat xee 65))
    = EcdsaKernel.signUserOperation a Examples.sampleUserOperation.
Proof.
  eexists. split; [reflexivity|].
  apply (proj2 signUserOperation_ignores_signature_field
           Examples.sampleSignerHost (repeat x0e 20) None).
  reflexivity.
Defined.

(** *** The address of the ECDSA kernel account *)

(** X16.  With the chain id read, the ECDSA kernel account is built as
    follows.  For an address given as already deployed, the owner the ECDSA
    validator stores for it is read: when it is the signer's address the
    account takes the given address, and the counterfactual address is not
    consulted; when it is another address the construction fails with
    "Invalid owner for the already deployed account".  With no address
    given, the account takes the address [getSenderAddress] derives from
    the init code, and fails with its error when it fails.  The addresses
    compared have 20 bytes ([isAddressEqual] rejects anything else). *)
Theorem ecdsa_account_address_and_owner :
  forall (host : EcdsaKernel.Host) (entryPoint : Address) (chainId : Z),
    EcdsaKernel.getChainId host = Ok chainId ->
    length (EcdsaKernel.signerAddress host) = 20 ->
    (forall deployed owner,
        EcdsaKernel.ecdsaValidatorStorage host deployed = Ok owner ->
        length owner = 20 ->
        (owner = EcdsaKernel.signerAddress host ->
         exists a,
           EcdsaKernel.signerToEcdsaKernelSmartAccount host entryPoint
             (Some deployed) = Ok a /\
           EcdsaKernel.address a = deployed) /\
        (owner <> EcdsaKernel.signerAddress host ->
         EcdsaKernel.signerToEcdsaKernelSmartAccount host entryPoint
           (Some deployed) = Err InvalidOwner))
    /\
    (forall counterfactual,
        EcdsaKernel.getSenderAddress host = Ok counterfactual ->
        exists a,
          EcdsaKernel.signerToEcdsaKernelSmartAccount host entryPoint None
          = Ok a /\
          EcdsaKernel.address a = counterfactual)
    /\
    (forall e,
        EcdsaKernel.getSenderAddress host = Err e ->
        EcdsaKernel.signerToEcdsaKernelSmartAccount host entryPoint None
        = Err e).
Proof.
  intros host entryPoint chainId Hc Hsigner.
  unfold EcdsaKernel.signerToEcdsaKernelSmartAccount,
    EcdsaKernel.getAccountAddress.
  split; [|split].
  - intros deployed owner Ho Hlen. rewrite Ho, Hc. cbn [bindR].
    unfold Hex_eqb. split.
    + intros ->.
      destruct (Hex_eq_dec _ _) as [_|Hne]; [|contradiction].
      cbn [negb]. rewrite ManagerFacts.truthy_always. cbn [negb].
      eexists. split; reflexivity.
    + intros Hne.
      destruct (Hex_eq_dec _ _) as [Heq|_]; [contradiction|].
      reflexivity.
  - intros counterfactual Hs. rewrite Hs, Hc.
    rewrite ManagerFacts.truthy_always. cbn [negb].
    eexists. split; reflexivity.
  - intros e Hs. rewrite Hs, Hc. reflexivity.
Qed.

(** The statement on a signer whose deployed account has another owner. *)
Lemma ecdsa_account_address_and_owner_witness :
  EcdsaKernel.signerToEcdsaKernelSmartAccount Scenarios.foreignOwnerHost
    (repeat x0e 20) (Some (repeat x0c 20))
  = Err InvalidOwner.
Proof.
  refine (proj2 (proj1 (ecdsa_account_address_and_owner
                          Scenarios.foreignOwnerHost (repeat x0e 20) 1%Z
                          eq_refl eq_refl)
                   (repeat x0c 20) (repeat x0d 20) eq_refl eq_refl) _).
  discriminate.
Defined.

End AccountLaws.

(** ** Further properties of the multi-chain aggregate *)

Module MultiChainLaws.
Import Viem Abi AbiRead MerkleTree MultiChain.
Import ViemFacts MerkleFacts AbiFacts AbiReadFacts VerifierFacts.
Import MultiChainFacts.

(** X17.  A fan-out count below 1, or above [2^32], gives no signature:
    the array of fillers cannot be made, and [getMultiUserOpDummySignature]
    fails with the range error of [Array], whatever the user operation. *)
Theorem getMultiUserOpDummySignature_rejects_bad_count :
  forall (keccak256 : Hex -> Hex)
         (getUserOperationHash : UserOperation -> Address -> Z -> Hex)
         (userOperation : UserOperation) (N : Z) (entryPoint : Address)
         (chainId : Z),
    (N < 1 \/ 2 ^ 32 < N)%Z ->
    getMultiUserOpDummySignature keccak256 getUserOperationHash
      userOperation N entryPoint chainId
    = Err InvalidArrayLength.
Proof.
  intros keccak256 getUserOperationHash userOperation N entryPoint chainId HN.
  unfold getMultiUserOpDummySignature.
  rewrite (leavesOf_range_error _ N) by lia. reflexivity.
Qed.

(** The statement for a fan-out of zero. *)
Lemma getMultiUserOpDummySignature_rejects_bad_count_witness :
  getMultiUserOpDummySignature Examples.toyHash (fun _ _ _ => repeat x01 32)
    Examples.sampleUserOperation 0 [] 1
  = Err InvalidArrayLength.
Proof.
  apply (getMultiUserOpDummySignature_rejects_bad_count
           Examples.toyHash (fun _ _ _ => repeat x01 32)
           Examples.sampleUserOperation 0 [] 1).
  left. lia.
Defined.

(** X18.  For a single chain ([N = 1]) nothing is hashed: the tree is the
    real leaf alone, so the root is the user-operation hash itself and the
    proof is empty.  The aggregate is the placeholder ECDSA signature, the
    hash twice (as root and as leaf), the offset word 64 and the length
    word 0: 193 bytes, whatever the hash function. *)
Theorem getMultiUserOpDummySignature_single_chain :
  forall (keccak256 : Hex -> Hex)
         (getUserOperationHash : UserOperation -> Address -> Z -> Hex)
         (userOperation : UserOperation) (entryPoint : Address) (chainId : Z),
    length (getUserOperationHash userOperation entryPoint chainId) = 32 ->
    let realHash := getUserOperationHash userOperation entryPoint chainId in
    MerkleTree.getRoot keccak256 [realHash] = realHash /\
    MerkleTree.getProof keccak256 [realHash] realHash = [] /\
    getMultiUserOpDummySignature keccak256 getUserOperationHash
      userOperation 1 entryPoint chainId
    = Ok (dummyEcdsaSig ++ realHash ++ realHash
            ++ (repeat x00 31 ++ [x40]) ++ repeat x00 32) /\
    length (dummyEcdsaSig ++ realHash ++ realHash
              ++ (repeat x00 31 ++ [x40]) ++ repeat x00 32) = 193.
Proof.
  intros keccak256 getUserOperationHash userOperation entryPoint chainId
         Hreal realHash.
  assert (Hroot : MerkleTree.getRoot keccak256 [realHash] = realHash)
    by reflexivity.
  assert (Hproof : MerkleTree.getProof keccak256 [realHash] realHash = []).
  { unfold getProof. cbn [findLeaf]. rewrite Buffer_compare_refl.
    reflexivity. }
  split; [exact Hroot|]. split; [exact Hproof|]. split.
  - unfold getMultiUserOpDummySignature. fold realHash.
    change (leavesOf realHash 1) with (Ok [realHash] : result (list Hex)).
    cbn [bindR]. rewrite Hroot, Hproof.
    destruct (encode_leaf_and_proof realHash [] Hreal (Forall_nil _)
                ltac:(cbn; lia)) as (offset & len & Eo & El & Henc).
    rewrite Henc. cbn [bindR].
    vm_compute in Eo. inversion Eo; subst offset.
    vm_compute in El. inversion El; subst len.
    unfold concatHex. cbn [List.concat]. rewrite !app_nil_r.
    reflexivity.
  - rewrite !length_app. fold realHash in Hreal. rewrite Hreal. reflexivity.
Qed.

(** The statement with the toy hash. *)
Lemma getMultiUserOpDummySignature_single_chain_witness :
  getMultiUserOpDummySignature Examples.toyHash (fun _ _ _ => repeat x01 32)
    Examples.sampleUserOperation 1 [] 1
  = Ok (dummyEcdsaSig ++ repeat x01 32 ++ repeat x01 32
          ++ (repeat x00 31 ++ [x40]) ++ repeat x00 32).
Proof.
  exact (proj1 (proj2 (proj2
           (getMultiUserOpDummySignature_single_chain
              Examples.toyHash (fun _ _ _ => repeat x01 32)
              Examples.sampleUserOperation [] 1 eq_refl)))).
Defined.

Lemma skipn_past (a rest : Hex) (n k : nat) :
  length a = n -> skipn (n + k) (a ++ rest) = skipn k rest.
Proof.
  intros <-. rewrite skipn_app, skipn_all2 by lia.
  replace (length a + k - length a) with k by lia. reflexivity.
Qed.

Lemma chunks32_concat (l : list Hex) (rest : Hex) :
  Forall size32 l -> chunks32 (length l) (List.concat l ++ rest) = l.
Proof.
  induction 1 as [|b l Hb Hl IH]; [reflexivity|].
  cbn [length chunks32 List.concat]. rewrite <- app_assoc.
  rewrite firstn_app, Hb, Nat.sub_diag, firstn_all2 by (rewrite Hb; lia).
  cbn [firstn]. rewrite app_nil_r.
  rewrite skipn_app, Hb, Nat.sub_diag, skipn_all2 by (rewrite Hb; lia).
  cbn [skipn app]. rewrite IH. reflexivity.
Qed.

(** X19.  What a verifier reads back from the aggregate verifies.  For a
    fan-out count from 1 to [2^32 - 1] and 32-byte hashes, the signature has
    [193 + 32 * |proof|] bytes; its first 65 bytes are the placeholder ECDSA
    signature, the next 32 the Merkle root; the rest decodes, as
    [(bytes32, bytes32[])], to the user-operation hash and a proof; and a
    verifier that hashes in ascending order re-derives the root read back
    from the leaf and the proof read back. *)
Theorem getMultiUserOpDummySignature_reads_back :
  forall (keccak256 : Hex -> Hex)
         (getUserOperationHash : UserOperation -> Address -> Z -> Hex)
         (userOperation : UserOperation) (N : Z) (entryPoint : Address)
         (chainId : Z),
    (forall x, length (keccak256 x) = 32) ->
    length (getUserOperationHash userOperation entryPoint chainId) = 32 ->
    (1 <= N <= 2 ^ 32 - 1)%Z ->
    exists sig,
      getMultiUserOpDummySignature keccak256 getUserOperationHash
        userOperation N entryPoint chainId = Ok sig /\
      let root := bytesAt 65 32 sig in
      let encoded := skipn 97 sig in
      let leaf := bytesAt 0 32 encoded in
      let proof := readBytes32Array 1 encoded in
      bytesAt 0 65 sig = dummyEcdsaSig /\
      leaf = getUserOperationHash userOperation entryPoint chainId /\
      length sig = 193 + 32 * length proof /\
      SortedPairVerifier.rederiveRoot keccak256 proof leaf = root.
Proof.
  intros keccak256 getUserOperationHash userOperation N entryPoint chainId
         Hk Hreal HN.
  set (realHash := getUserOperationHash userOperation entryPoint chainId)
    in *.
  set (leaves := realHash :: repeat dummyUserOpHash (Z.to_nat (N - 1))).
  set (root := MerkleTree.getRoot keccak256 leaves).
  set (proof := MerkleTree.getProof keccak256 leaves realHash).
  assert (Hleaves : Forall size32 leaves).
  { constructor; [exact Hreal|].
    apply Forall_forall. intros x Hx. apply repeat_spec in Hx. subst x.
    apply dummyUserOpHash_size. }
  assert (Hpsize : Forall size32 proof)
    by exact (getProof_sizes keccak256 Hk leaves realHash Hleaves).
  assert (Hplen : (Z.of_nat (length proof) <= 2 ^ 64)%Z).
  { pose proof (getProof_length keccak256 leaves realHash) as Hl.
    fold proof in Hl.
    assert (Z.of_nat (length leaves) = N)
      by (unfold leaves; cbn [length]; rewrite repeat_length; lia).
    lia. }
  destruct (encode_leaf_and_proof realHash proof Hreal Hpsize Hplen)
    as (offset & len & Eo & El & Henc).
  assert (Hver : SortedPairVerifier.rederiveRoot keccak256 proof realHash
                 = root).
  { pose proof (getProof_verifies keccak256 leaves realHash
                  (or_introl eq_refl)) as Hv.
    fold proof root in Hv. unfold verify, Hex_eqb in Hv.
    destruct (Hex_eq_dec _ _) as [Heq|]; [|discriminate Hv].
    rewrite <- Heq. symmetry.
    apply processProof_rederiveRoot; assumption. }
  assert (Hroot : length root = 32).
  { rewrite <- Hver. apply rederiveRoot_size; assumption. }
  pose proof (encodeUint256_length _ _ Eo) as Lo.
  pose proof (encodeUint256_length _ _ El) as Ll.
  assert (Lsig : length dummyEcdsaSig = 65) by reflexivity.
  exists (dummyEcdsaSig ++ root ++ realHash ++ offset ++ len
            ++ List.concat proof).
  split.
  { unfold getMultiUserOpDummySignature. fold realHash.
    rewrite (leavesOf_ok realHash N HN). cbn [bindR]. fold leaves.
    fold proof. rewrite Henc. cbn [bindR]. fold root.
    unfold concatHex. cbn [List.concat]. rewrite app_nil_r. reflexivity. }
  cbv zeta.
  assert (Henc97 : skipn 97 (dummyEcdsaSig ++ root ++ realHash ++ offset
                               ++ len ++ List.concat proof)
                   = realHash ++ offset ++ len ++ List.concat proof).
  { change 97 with (65 + (32 + 0)).
    rewrite (skipn_past dummyEcdsaSig _ 65 _ Lsig),
      (skipn_past root _ 32 _ Hroot). reflexivity. }
  rewrite Henc97.
  assert (Hread : readBytes32Array 1
                    (realHash ++ offset ++ len ++ List.concat proof)
                  = proof).
  { unfold readBytes32Array, wordAt. change (32 * 1) with (32 + 0).
    rewrite (bytesAt_skip realHash _ 32 0 32 Hreal).
    rewrite (wordAt_here _ _ _ Eo).
    change (Z.to_nat 64) with (32 + (32 + 0)).
    rewrite (bytesAt_skip realHash _ 32 _ 32 Hreal),
      (bytesAt_skip offset _ 32 _ 32 Lo).
    rewrite (wordAt_here _ _ _ El), Nat2Z.id.
    change (32 + (32 + 0) + 32) with (32 + (32 + (32 + 0))).
    rewrite (skipn_past realHash _ 32 _ Hreal),
      (skipn_past offset _ 32 _ Lo), (skipn_past len _ 32 _ Ll).
    cbn [skipn].
    rewrite <- (app_nil_r (List.concat proof)).
    apply chunks32_concat. exact Hpsize. }
  rewrite Hread.
  assert (Hleaf : bytesAt 0 32 (realHash ++ offset ++ len ++ List.concat proof)
                  = realHash) by (apply bytesAt_take; exact Hreal).
  rewrite Hleaf.
  assert (Hr : bytesAt 65 32 (dummyEcdsaSig ++ root ++ realHash ++ offset
                                ++ len ++ List.concat proof) = root).
  { change 65 with (65 + 0). rewrite (bytesAt_skip _ _ 65 0 32 Lsig).
    apply bytesAt_take. exact Hroot. }
  rewrite Hr.
  split; [apply bytesAt_take; exact Lsig|]. split; [reflexivity|].
  split; [|exact Hver].
  rewrite !length_app, Lsig, Hroot, Hreal, Lo, Ll.
  assert (Hc : length (List.concat proof) = 32 * length proof).
  { clear -Hpsize. induction Hpsize as [|b l Hb Hl IH]; [reflexivity|].
    cbn [List.concat length]. rewrite length_app, Hb, IH. lia. }
  rewrite Hc. lia.
Qed.

(** The statement for a fan-out of three with the toy hash. *)
Lemma getMultiUserOpDummySignature_reads_back_witness :
  exists sig,
    getMultiUserOpDummySignature Examples.toyHash (fun _ _ _ => repeat x01 32)
      Examples.sampleUserOperation 3 [] 1 = Ok sig /\
    bytesAt 0 65 sig = dummyEcdsaSig /\
    bytesAt 0 32 (skipn 97 sig) = repeat x01 32 /\
    length sig = 193 + 32 * length (readBytes32Array 1 (skipn 97 sig)) /\
    SortedPairVerifier.rederiveRoot Examples.toyHash
      (readBytes32Array 1 (skipn 97 sig))
      (bytesAt 0 32 (skipn 97 sig))
    = bytesAt 65 32 sig.
Proof.
  refine (getMultiUserOpDummySignature_reads_back
            Examples.toyHash (fun _ _ _ => repeat x01 32)
            Examples.sampleUserOperation 3 [] 1 _ _ _).
  - intros x. unfold Examples.toyHash.
    rewrite firstn_length_le; [reflexivity|].
    rewrite length_app, repeat_length. lia.
  - reflexivity.
  - lia.
Defined.

End MultiChainLaws.
